(** * Cycles light tree: importance estimate and stochastic traversal

    A shallow embedding of [intern/cycles/kernel/light/light_tree.h].

    Numbers of C type [float] are IEEE-754 binary32 values, modelled with the
    parametric specification of floating-point arithmetic of the standard
    library ([SpecFloat], precision 24, maximal exponent 128), so that
    rounding, infinities and NaN behave as they do in the kernel.  Numbers of
    type [int] are mathematical integers: every integer the kernel computes
    here is an array index or a small count. *)

From Stdlib Require Import ZArith List Bool Lia.
From Stdlib Require Import SpecFloat.
Import ListNotations.

Local Open Scope Z_scope.

(** ** binary32 arithmetic *)

Module F32.

Definition prec : Z := 24.
Definition emax : Z := 128.

Definition float : Type := spec_float.

Definition add : float -> float -> float := SFadd prec emax.
Definition sub : float -> float -> float := SFsub prec emax.
Definition mul : float -> float -> float := SFmul prec emax.
Definition div : float -> float -> float := SFdiv prec emax.
Definition sqrt : float -> float := SFsqrt prec emax.
Definition neg : float -> float := SFopp.
Definition ltb : float -> float -> bool := SFltb.
Definition leb : float -> float -> bool := SFleb.
Definition eqb : float -> float -> bool := SFeqb.

(** The C library's [fabsf], [fmaxf] and [fminf]: a NaN argument of
    [fmaxf]/[fminf] is ignored in favour of the other argument. *)
Definition fabsf : float -> float := SFabs.

Definition is_nan (x : float) : bool :=
  match x with S754_nan => true | _ => false end.

Definition fmaxf (x y : float) : float :=
  if is_nan x then y
  else if is_nan y then x
  else if ltb x y then y else x.

Definition fminf (x y : float) : float :=
  if is_nan x then y
  else if is_nan y then x
  else if ltb y x then y else x.

Definition is_finite (x : float) : bool :=
  match x with
  | S754_zero _ | S754_finite _ _ _ => true
  | S754_infinity _ | S754_nan => false
  end.

(** Decoding of the 32-bit interchange format, used to write literals. *)
Definition of_bits (b : Z) : float :=
  let s := Z.testbit b 31 in
  let e := Z.land (Z.shiftr b 23) 255 in
  let m := Z.land b 8388607 in
  if e =? 0 then
    match m with
    | Zpos p => S754_finite s p (-149)
    | _ => S754_zero s
    end
  else if e =? 255 then
    (if m =? 0 then S754_infinity s else S754_nan)
  else
    match m + 8388608 with
    | Zpos p => S754_finite s p (e - 150)
    | _ => S754_nan
    end.

(** [of_Z n] is the conversion of the integer literal [n] to [float]. *)
Definition of_Z (n : Z) : float := binary_normalize prec emax n 0 false.

Definition zero : float := S754_zero false.
Definition one : float := of_Z 1.
Definition half : float := of_bits 0x3F000000.
Definition quarter : float := of_bits 0x3E800000.
Definition nan : float := S754_nan.
Definition infinity : float := S754_infinity false.

End F32.

Abbreviation float := F32.float.

Declare Scope f32_scope.
Delimit Scope f32_scope with f32.
Infix "+" := F32.add : f32_scope.
Infix "-" := F32.sub : f32_scope.
Infix "*" := F32.mul : f32_scope.
Infix "/" := F32.div : f32_scope.
Infix "<?" := F32.ltb : f32_scope.
Infix "<=?" := F32.leb : f32_scope.
Infix "=?" := F32.eqb : f32_scope.
Notation "- x" := (F32.neg x) : f32_scope.

(** ** float3

    The vector type and its operators come from [util/types_float3.h] and
    [util/math_float3.h], which are not among the sources. *)

(** Modelled from the spec: the type [float3] with its constructor
    [make_float3] (section 3: corners and axes are "3 floats each"). *)
Record float3 : Type := make_float3 { x3 : float; y3 : float; z3 : float }.

Module Float3.
Local Open Scope f32_scope.

(** Modelled from the spec: [float3 + float3], as in the midpoint of
    section 4.1, component by component. *)
Definition add (a b : float3) : float3 :=
  make_float3 (x3 a + x3 b) (y3 a + y3 b) (z3 a + z3 b).

(** Modelled from the spec: [float3 - float3], as in [centroid - P]. *)
Definition sub (a b : float3) : float3 :=
  make_float3 (x3 a - x3 b) (y3 a - y3 b) (z3 a - z3 b).

(** Modelled from the spec: [float * float3], as in the midpoint
    [0.5 * bbox_min + 0.5 * bbox_max]. *)
Definition scale (f : float) (a : float3) : float3 :=
  make_float3 (f * x3 a) (f * y3 a) (f * z3 a).

(** Modelled from the spec: unary minus, as in [-point_to_centroid]. *)
Definition neg (a : float3) : float3 :=
  make_float3 (- x3 a) (- y3 a) (- z3 a).

End Float3.

(** ** Kernel data

    The structure declarations of [kernel/types.h] are not among the
    sources; each record below has the fields that [light_tree.h] reads or
    writes, under the names the source uses. *)

(** A C array [float a[3]]. *)
Record float_3 : Type := mk_float_3 { a_0 : float; a_1 : float; a_2 : float }.

Definition elem (a : float_3) (i : nat) : float :=
  match i with
  | O => a_0 a
  | S O => a_1 a
  | _ => a_2 a
  end.

(** Modelled from the spec: the declaration of [KernelLightTreeNode]
    (section 3, cluster node: box, cone axis and two angles, energy,
    [child_index] and [num_prims]). *)
Record KernelLightTreeNode : Type := {
  node_bounding_box_min : float_3;
  node_bounding_box_max : float_3;
  node_bounding_cone_axis : float_3;
  node_theta_o : float;
  node_theta_e : float;
  node_energy : float;
  child_index : Z;
  num_prims : Z
}.

(** Modelled from the spec: the declaration of [KernelLightTreeEmitter]
    (section 3, emitter record: box, cone axis and two angles, energy). *)
Record KernelLightTreeEmitter : Type := {
  em_bounding_box_min : float_3;
  em_bounding_box_max : float_3;
  em_bounding_cone_axis : float_3;
  em_theta_o : float;
  em_theta_e : float;
  em_energy : float
}.

(** Modelled from the spec: the declaration of [KernelLightDistribution]
    (section 3, the back-reference of an emitter: [prim >= 0] is a triangle of
    the mesh light [mesh_light.object_id] with [mesh_light.shader_flag],
    [prim < 0] encodes the lamp [-prim - 1]). *)
Record KernelLightDistribution : Type := {
  prim : Z;
  mesh_light_object_id : Z;
  mesh_light_shader_flag : Z
}.

(** Modelled from the spec: the declaration of
    [KernelLightTreeDistantEmitter] (section 3, distant-light record: an
    energy and the reference [prim_id] to the light). *)
Record KernelLightTreeDistantEmitter : Type := {
  prim_id : Z;
  distant_energy : float
}.

(** Modelled from the spec: the declaration of [LightSample] (section 3,
    light sample result): the probability density and the shader bits,
    which [light_tree.h] updates, and fields that the external samplers
    fill in. *)
Record LightSample : Type := {
  ls_P : float3;
  ls_u : float;
  ls_v : float;
  ls_pdf : float;
  ls_shader : Z;
  ls_object : Z;
  ls_prim : Z;
  ls_lamp : Z
}.

Definition set_pdf (ls : LightSample) (p : float) : LightSample :=
  {| ls_P := ls_P ls; ls_u := ls_u ls; ls_v := ls_v ls; ls_pdf := p;
     ls_shader := ls_shader ls; ls_object := ls_object ls;
     ls_prim := ls_prim ls; ls_lamp := ls_lamp ls |}.

Definition set_shader (ls : LightSample) (s : Z) : LightSample :=
  {| ls_P := ls_P ls; ls_u := ls_u ls; ls_v := ls_v ls; ls_pdf := ls_pdf ls;
     ls_shader := s; ls_object := ls_object ls;
     ls_prim := ls_prim ls; ls_lamp := ls_lamp ls |}.

(** Modelled from the spec: [KernelGlobals] (section 6, scene data
    accessors): the device arrays reached through [kernel_data_fetch] and
    the two counts of [kernel_data.integrator].  The arrays are sized by the
    host; the kernel only knows the counts. *)
Record KernelGlobals : Type := {
  light_tree_nodes : list KernelLightTreeNode;
  light_tree_emitters : list KernelLightTreeEmitter;
  light_distribution : list KernelLightDistribution;
  light_tree_distant_group : list KernelLightTreeDistantEmitter;
  object_flag : list Z;
  num_distant_lights : Z;
  num_distribution : Z
}.

(** ** Outcomes

    A run of kernel code either completes, reads a device array outside of
    its bounds, stops at a failed [assert] (debug builds), or is cut off by
    the fuel of the model of the [while] loop. *)
Inductive outcome (A : Type) : Type :=
| Normal (a : A)
| OutOfBounds
| AssertFailure
| OutOfFuel.

Arguments Normal {A} a.
Arguments OutOfBounds {A}.
Arguments AssertFailure {A}.
Arguments OutOfFuel {A}.

Definition bind {A B : Type} (m : outcome A) (k : A -> outcome B) : outcome B :=
  match m with
  | Normal a => k a
  | OutOfBounds => OutOfBounds
  | AssertFailure => AssertFailure
  | OutOfFuel => OutOfFuel
  end.

Notation "x <- m ;; k" := (bind m (fun x => k))
  (at level 61, m at next level, right associativity).

(** [kernel_data_fetch(table, index)]. *)
Definition kernel_data_fetch {A : Type} (table : list A) (index : Z) : outcome A :=
  if index <? 0 then OutOfBounds
  else match nth_error table (Z.to_nat index) with
       | Some a => Normal a
       | None => OutOfBounds
       end.

(** The value handed back by a function of return type [int] or [bool]:
    the operand of the [return] statement that was executed, or nothing
    when control reached the closing brace without one.  C++ leaves the
    behaviour of the program undefined from that point on: [NoReturnValue]
    marks that the point was reached, with the state as it was there, and
    says nothing of what the caller sees afterwards. *)
Inductive retval : Type :=
| Returned (b : bool)
| NoReturnValue.

(** ** External collaborators

    Functions and constants that [light_tree.h] uses and that are defined
    in other headers of the kernel ([util/math*.h], [kernel/light/light.h],
    [kernel/sample], [kernel/types.h]).  None of them is among the sources,
    so the embedding takes them as parameters: every theorem holds for each
    implementation of them.  The four that the source calls with [kg] take
    the kernel globals as their first argument: they may read any of its
    tables.  [ndebug] tells whether [assert] is compiled out (release
    build). *)
Record Externals : Type := {
  RNGState : Type;
  normalize : float3 -> float3;
  dot : float3 -> float3 -> float;
  len_squared : float3 -> float;
  fast_acosf : float -> float;
  fast_cosf : float -> float;
  path_state_rng_1D : KernelGlobals -> RNGState -> Z -> float;
  light_select_reached_max_bounces : KernelGlobals -> Z -> Z -> bool;
  triangle_light_sample :
    KernelGlobals -> bool -> Z -> Z -> float -> float -> float -> LightSample ->
    float3 -> LightSample;
  light_sample :
    KernelGlobals -> bool -> Z -> float -> float -> float3 -> Z -> LightSample ->
    bool * LightSample;
  PATH_RAY_SHADOW_CATCHER_PASS : Z;
  SD_OBJECT_SHADOW_CATCHER : Z;
  ndebug : bool
}.

(** ** The importance estimate *)

Section Importance.
Variable E : Externals.
Local Open Scope f32_scope.

Definition corners (bbox_min bbox_max : float3) : list float3 :=
  [ bbox_min;
    make_float3 (x3 bbox_min) (y3 bbox_min) (z3 bbox_max);
    make_float3 (x3 bbox_min) (y3 bbox_max) (z3 bbox_min);
    make_float3 (x3 bbox_min) (y3 bbox_max) (z3 bbox_max);
    make_float3 (x3 bbox_max) (y3 bbox_min) (z3 bbox_min);
    make_float3 (x3 bbox_max) (y3 bbox_min) (z3 bbox_max);
    make_float3 (x3 bbox_max) (y3 bbox_max) (z3 bbox_min);
    bbox_max ].

(** [light_tree_bounding_box_angle]: the loop over the eight corners is a
    left fold that starts from [theta_u = 0]. *)
Definition light_tree_bounding_box_angle
    (bbox_min bbox_max P point_to_centroid : float3) : float :=
  fold_left
    (fun theta_u corner =>
       let point_to_corner := normalize E (Float3.sub corner P) in
       let cos_theta_u := dot E point_to_centroid point_to_corner in
       F32.fmaxf (fast_acosf E cos_theta_u) theta_u)
    (corners bbox_min bbox_max) F32.zero.

Definition centroid_of (bbox_min bbox_max : float3) : float3 :=
  Float3.add (Float3.scale F32.half bbox_min) (Float3.scale F32.half bbox_max).

Definition point_to_centroid_of (P bbox_min bbox_max : float3) : float3 :=
  normalize E (Float3.sub (centroid_of bbox_min bbox_max) P).

Definition distance_squared_of (P bbox_min bbox_max : float3) : float :=
  let centroid := centroid_of bbox_min bbox_max in
  F32.fminf (len_squared E (Float3.sub centroid P))
            (F32.quarter * len_squared E (Float3.sub bbox_max centroid)).

Definition theta_of (P bbox_min bbox_max bcone_axis : float3) : float :=
  fast_acosf E (dot E bcone_axis (Float3.neg (point_to_centroid_of P bbox_min bbox_max))).

Definition theta_i_of (P N bbox_min bbox_max : float3) : float :=
  fast_acosf E (dot E (point_to_centroid_of P bbox_min bbox_max) N).

Definition theta_u_of (P bbox_min bbox_max : float3) : float :=
  light_tree_bounding_box_angle bbox_min bbox_max P
    (point_to_centroid_of P bbox_min bbox_max).

Definition theta_prime_of (P bbox_min bbox_max bcone_axis : float3) (theta_o : float) : float :=
  F32.fmaxf (theta_of P bbox_min bbox_max bcone_axis - theta_o
             - theta_u_of P bbox_min bbox_max) F32.zero.

Definition cos_theta_i_prime_of (P N bbox_min bbox_max : float3) : float :=
  let d := theta_i_of P N bbox_min bbox_max - theta_u_of P bbox_min bbox_max in
  if F32.zero <? d then F32.fabsf (fast_cosf E d) else F32.one.

Definition light_tree_node_importance
    (P N bbox_min bbox_max bcone_axis : float3) (theta_o theta_e energy : float) : float :=
  let centroid := centroid_of bbox_min bbox_max in
  let point_to_centroid := normalize E (Float3.sub centroid P) in
  let distance_squared :=
    F32.fminf (len_squared E (Float3.sub centroid P))
              (F32.quarter * len_squared E (Float3.sub bbox_max centroid)) in
  let theta := fast_acosf E (dot E bcone_axis (Float3.neg point_to_centroid)) in
  let theta_i := fast_acosf E (dot E point_to_centroid N) in
  let theta_u := light_tree_bounding_box_angle bbox_min bbox_max P point_to_centroid in
  let theta_prime := F32.fmaxf (theta - theta_o - theta_u) F32.zero in
  if theta_e <=? theta_prime then F32.zero
  else
    let cos_theta_prime := fast_cosf E theta_prime in
    let cos_theta_i_prime :=
      if F32.zero <? theta_i - theta_u
      then F32.fabsf (fast_cosf E (theta_i - theta_u))
      else F32.one in
    let f_a := F32.one in
    f_a * cos_theta_i_prime * energy / distance_squared * cos_theta_prime.

Definition float3_of (a : float_3) : float3 :=
  make_float3 (elem a 0) (elem a 1) (elem a 2).

Definition light_tree_emitter_importance
    (kg : KernelGlobals) (P N : float3) (emitter_index : Z) : outcome float :=
  kemitter <- kernel_data_fetch (light_tree_emitters kg) emitter_index ;;
  let bbox_min := float3_of (em_bounding_box_min kemitter) in
  let bbox_max := float3_of (em_bounding_box_max kemitter) in
  let bcone_axis := float3_of (em_bounding_cone_axis kemitter) in
  Normal (light_tree_node_importance P N bbox_min bbox_max bcone_axis
            (em_theta_o kemitter) (em_theta_e kemitter) (em_energy kemitter)).

(** The third component of the cone axis is read from index 1, as in the
    source. *)
Definition light_tree_cluster_importance
    (P N : float3) (knode : KernelLightTreeNode) : float :=
  let bbox_min := float3_of (node_bounding_box_min knode) in
  let bbox_max := float3_of (node_bounding_box_max knode) in
  let bcone_axis :=
    make_float3 (elem (node_bounding_cone_axis knode) 0)
                (elem (node_bounding_cone_axis knode) 1)
                (elem (node_bounding_cone_axis knode) 1) in
  light_tree_node_importance P N bbox_min bbox_max bcone_axis
    (node_theta_o knode) (node_theta_e knode) (node_energy knode).

Definition light_tree_distant_light_importance
    (kg : KernelGlobals) (P N : float3) (index : Z) : outcome float :=
  kdistant <- kernel_data_fetch (light_tree_distant_group kg) index ;;
  Normal (distant_energy kdistant).

End Importance.

(** ** The samplers *)

(** What a sampler leaves behind: its return value, the light sample it was
    given a pointer to, and the float behind [pdf_factor]. *)
Record sample_result : Type := {
  sr_ret : retval;
  sr_ls : LightSample;
  sr_pdf_factor : float
}.

(** The variables of the traversal loop of [light_tree_sample]. *)
Record walk : Type := {
  w_index : Z;
  w_knode : KernelLightTreeNode;
  w_tree_u : float;
  w_pdf_factor : float
}.

Section Sampler.
Variable E : Externals.
Variable kg : KernelGlobals.
Local Open Scope f32_scope.

(** The [while (knode->child_index > 0)] loop.  [fuel] bounds the number
    of iterations. *)
Fixpoint traverse (fuel : nat) (P N : float3)
    (index : Z) (knode : KernelLightTreeNode) (tree_u pdf_factor : float)
    : outcome walk :=
  if (0 <? child_index knode)%Z then
    match fuel with
    | O => OutOfFuel
    | S fuel' =>
      left <- kernel_data_fetch (light_tree_nodes kg) (index + 1)%Z ;;
      right <- kernel_data_fetch (light_tree_nodes kg) (child_index knode) ;;
      let left_importance := light_tree_cluster_importance E P N left in
      let right_importance := light_tree_cluster_importance E P N right in
      let left_probability := left_importance / (left_importance + right_importance) in
      if tree_u <? left_probability then
        traverse fuel' P N (index + 1)%Z left
          (tree_u * (left_importance + right_importance) / left_importance)
          (pdf_factor * left_probability)
      else
        traverse fuel' P N (child_index knode) right
          ((tree_u * (left_importance + right_importance) - left_importance)
           / right_importance)
          (pdf_factor * (F32.one - left_probability))
    end
  else
    Normal {| w_index := index; w_knode := knode;
              w_tree_u := tree_u; w_pdf_factor := pdf_factor |}.

(** First [for] loop of the leaf: [n] iterations remain, [i] is the loop
    counter. *)
Fixpoint sum_emitter_importance (n : nat) (P N : float3)
    (knode : KernelLightTreeNode) (i : Z) (total_emitter_importance : float)
    : outcome float :=
  match n with
  | O => Normal total_emitter_importance
  | S n' =>
    let prim_index := (- child_index knode + i)%Z in
    importance <- light_tree_emitter_importance E kg P N prim_index ;;
    sum_emitter_importance n' P N knode (i + 1)%Z
      (total_emitter_importance + importance)
  end.

(** The body of [if (tree_u < emitter_cdf)] after the update of
    [*pdf_factor]: resolve the emitter at [prim_index]. *)
Definition sample_emitter (in_volume_segment : bool)
    (randu randv time : float) (P : float3) (bounce path_flag : Z)
    (ls : LightSample) (pdf_factor : float) (prim_index : Z)
    : outcome sample_result :=
  kdistribution <- kernel_data_fetch (light_distribution kg) prim_index ;;
  let prim := prim kdistribution in
  if (0 <=? prim)%Z then
    let object := mesh_light_object_id kdistribution in
    excluded <-
      (if negb (Z.land path_flag (PATH_RAY_SHADOW_CATCHER_PASS E) =? 0)%Z then
         flag <- kernel_data_fetch (object_flag kg) object ;;
         Normal (Z.land flag (SD_OBJECT_SHADOW_CATCHER E) =? 0)%Z
       else Normal false) ;;
    if excluded : bool then
      Normal {| sr_ret := Returned false; sr_ls := ls; sr_pdf_factor := pdf_factor |}
    else
      let shader_flag := mesh_light_shader_flag kdistribution in
      let ls1 := triangle_light_sample E kg in_volume_segment prim object
                   randu randv time ls P in
      let ls2 := set_shader ls1 (Z.lor (ls_shader ls1) shader_flag) in
      Normal {| sr_ret := Returned (F32.zero <? ls_pdf ls2);
                sr_ls := ls2; sr_pdf_factor := pdf_factor |}
  else
    let lamp := (- prim - 1)%Z in
    if light_select_reached_max_bounces E kg lamp bounce then
      Normal {| sr_ret := Returned false; sr_ls := ls; sr_pdf_factor := pdf_factor |}
    else
      let '(ok, ls1) := light_sample E kg in_volume_segment lamp randu randv P path_flag ls in
      Normal {| sr_ret := Returned ok; sr_ls := ls1; sr_pdf_factor := pdf_factor |}.

(** Second [for] loop of the leaf.  [Some r]: a [return] inside the loop
    was executed; [None]: the loop ran to its end. *)
Fixpoint emitter_cdf_walk (n : nat) (in_volume_segment : bool)
    (randu randv time : float) (N P : float3) (bounce path_flag : Z)
    (ls : LightSample) (pdf_factor : float)
    (knode : KernelLightTreeNode) (tree_u inv_total_importance : float)
    (i : Z) (emitter_cdf : float) : outcome (option sample_result) :=
  match n with
  | O => Normal None
  | S n' =>
    let prim_index := (- child_index knode + i)%Z in
    importance <- light_tree_emitter_importance E kg P N prim_index ;;
    let emitter_pdf := importance * inv_total_importance in
    let emitter_cdf := emitter_cdf + emitter_pdf in
    if tree_u <? emitter_cdf then
      r <- sample_emitter in_volume_segment randu randv time P bounce path_flag
             ls (pdf_factor * emitter_pdf) prim_index ;;
      Normal (Some r)
    else
      emitter_cdf_walk n' in_volume_segment randu randv time N P bounce path_flag
        ls pdf_factor knode tree_u inv_total_importance (i + 1)%Z emitter_cdf
  end.

(** The code after the traversal loop, from the leaf [knode] on. *)
Definition sample_leaf (in_volume_segment : bool)
    (randu randv time : float) (N P : float3) (bounce path_flag : Z)
    (ls : LightSample) (w : walk) : outcome sample_result :=
  let knode := w_knode w in
  let n := Z.to_nat (num_prims knode) in
  total_emitter_importance <- sum_emitter_importance n P N knode 0 F32.zero ;;
  if total_emitter_importance =? F32.zero then
    Normal {| sr_ret := Returned false; sr_ls := ls;
              sr_pdf_factor := w_pdf_factor w |}
  else
    let inv_total_importance := F32.one / total_emitter_importance in
    r <- emitter_cdf_walk n in_volume_segment randu randv time N P bounce path_flag
           ls (w_pdf_factor w) knode (w_tree_u w) inv_total_importance 0 F32.zero ;;
    match r with
    | Some res => Normal res
    | None =>
      (* assert(false); return false; *)
      if ndebug E then
        Normal {| sr_ret := Returned false; sr_ls := ls;
                  sr_pdf_factor := w_pdf_factor w |}
      else AssertFailure
    end.

(** [light_tree_sample<in_volume_segment>].  The float behind
    [pdf_factor] is overwritten with 1 on entry, so its previous value is
    not an input. *)
Definition light_tree_sample (fuel : nat) (in_volume_segment : bool)
    (rng_state : RNGState E) (randu randv time : float) (N P : float3)
    (bounce path_flag : Z) (ls : LightSample) : outcome sample_result :=
  let index := 0%Z in
  let pdf_factor := F32.one in
  let tree_u := path_state_rng_1D E kg rng_state 1 in
  knode <- kernel_data_fetch (light_tree_nodes kg) index ;;
  w <- traverse fuel P N index knode tree_u pdf_factor ;;
  sample_leaf in_volume_segment randu randv time N P bounce path_flag ls w.

(** First loop of [light_tree_sample_distant_lights]. *)
Fixpoint sum_distant_importance (n : nat) (P N : float3)
    (i : Z) (total_importance : float) : outcome float :=
  match n with
  | O => Normal total_importance
  | S n' =>
    importance <- light_tree_distant_light_importance kg P N i ;;
    sum_distant_importance n' P N (i + 1)%Z (total_importance + importance)
  end.

(** Second loop of [light_tree_sample_distant_lights]. *)
Fixpoint distant_cdf_walk (n : nat) (in_volume_segment : bool)
    (randu randv : float) (N P : float3) (bounce path_flag : Z)
    (ls : LightSample) (pdf_factor : float)
    (distant_u inv_total_importance : float)
    (i : Z) (light_cdf : float) : outcome (option sample_result) :=
  match n with
  | O => Normal None
  | S n' =>
    importance <- light_tree_distant_light_importance kg P N i ;;
    let light_pdf := importance * inv_total_importance in
    let light_cdf := light_cdf + light_pdf in
    if distant_u <? light_cdf then
      let pdf_factor := pdf_factor * light_pdf in
      kdistant <- kernel_data_fetch (light_tree_distant_group kg) i ;;
      let lamp := (- prim_id kdistant - 1)%Z in
      if light_select_reached_max_bounces E kg lamp bounce then
        Normal (Some {| sr_ret := Returned false; sr_ls := ls;
                        sr_pdf_factor := pdf_factor |})
      else
        let '(ok, ls1) := light_sample E kg in_volume_segment lamp randu randv P path_flag ls in
        Normal (Some {| sr_ret := Returned ok; sr_ls := ls1;
                        sr_pdf_factor := pdf_factor |})
    else
      distant_cdf_walk n' in_volume_segment randu randv N P bounce path_flag
        ls pdf_factor distant_u inv_total_importance (i + 1)%Z light_cdf
  end.

(** [light_tree_sample_distant_lights<in_volume_segment>].  The float
    behind [pdf_factor] is read and updated, never reset, and the function
    body ends after the second loop without a [return] statement: a run
    that gets there ends in [NoReturnValue], the point from which C++
    leaves the behaviour undefined. *)
Definition light_tree_sample_distant_lights (in_volume_segment : bool)
    (rng_state : RNGState E) (randu randv time : float) (N P : float3)
    (bounce path_flag : Z) (ls : LightSample) (pdf_factor : float)
    : outcome sample_result :=
  let n := Z.to_nat (num_distant_lights kg) in
  total_importance <- sum_distant_importance n P N 0 F32.zero ;;
  let inv_total_importance := F32.one / total_importance in
  let light_cdf := F32.zero in
  let distant_u := path_state_rng_1D E kg rng_state 1 in
  r <- distant_cdf_walk n in_volume_segment randu randv N P bounce path_flag
         ls pdf_factor distant_u inv_total_importance 0 light_cdf ;;
  match r with
  | Some res => Normal res
  | None => Normal {| sr_ret := NoReturnValue; sr_ls := ls;
                      sr_pdf_factor := pdf_factor |}
  end.

Definition scale_pdf_factor (r : sample_result) (p : float) : sample_result :=
  {| sr_ret := sr_ret r; sr_ls := sr_ls r; sr_pdf_factor := sr_pdf_factor r * p |}.

(** The [if]/[else if]/[else] of [light_tree_sample_from_position]: the
    sub-sampler that runs, with [pdf_factor] as it stands before the
    final [ls->pdf *= pdf_factor]. *)
Definition dispatch (fuel : nat) (rng_state : RNGState E)
    (randu randv time : float) (P N : float3) (bounce path_flag : Z)
    (ls : LightSample) : outcome sample_result :=
  let num_distant_lights := num_distant_lights kg in
  let num_light_tree_prims := (num_distribution kg - num_distant_lights)%Z in
  let pdf_factor := F32.one in
  if (num_distant_lights =? 0)%Z then
    light_tree_sample fuel false rng_state randu randv time N P bounce path_flag ls
  else if (num_light_tree_prims =? 0)%Z then
    light_tree_sample_distant_lights false rng_state randu randv time N P
      bounce path_flag ls pdf_factor
  else
    knode <- kernel_data_fetch (light_tree_nodes kg) 0 ;;
    let light_tree_importance := light_tree_cluster_importance E P N knode in
    distant_light_importance <-
      light_tree_distant_light_importance kg P N num_distant_lights ;;
    let light_tree_probability :=
      light_tree_importance / (light_tree_importance + distant_light_importance) in
    if randu <? light_tree_probability then
      r <- light_tree_sample fuel false rng_state randu randv time N P
             bounce path_flag ls ;;
      Normal (scale_pdf_factor r light_tree_probability)
    else
      r <- light_tree_sample_distant_lights false rng_state randu randv time N P
             bounce path_flag ls pdf_factor ;;
      Normal (scale_pdf_factor r (F32.one - light_tree_probability)).

(** [light_tree_sample_from_position]: the value of [ret] and the light
    sample after [ls->pdf *= pdf_factor].  What it yields after a
    sub-sampler that ended in [NoReturnValue] is not determined by the
    source; the properties of the dispatcher are stated for runs that
    return a value. *)
Definition light_tree_sample_from_position (fuel : nat) (rng_state : RNGState E)
    (randu randv time : float) (P N : float3) (bounce path_flag : Z)
    (ls : LightSample) : outcome (retval * LightSample) :=
  r <- dispatch fuel rng_state randu randv time P N bounce path_flag ls ;;
  Normal (sr_ret r, set_pdf (sr_ls r) (ls_pdf (sr_ls r) * sr_pdf_factor r)).

End Sampler.

(** ** A reference implementation of the collaborators

    Used to run the model on concrete scenes.  The vector helpers are the
    textbook ones; the two trigonometric helpers are polynomial
    approximations in the style of a fast math library (exact at the end
    points: acos 1 = 0, cos 0 = 1); the samplers record what they were
    called with.  The theorems of this file that quantify over [Externals]
    do not depend on these choices. *)

Module Reference.
Local Open Scope f32_scope.

Definition pi : float := F32.of_bits 0x40490FDB.
Definition pi_2 : float := F32.of_bits 0x3FC90FDB.

(** Modelled from the spec: [dot] of [util/math_float3.h], the inner
    product behind the angles of section 4.1. *)
Definition dot (a b : float3) : float :=
  x3 a * x3 b + y3 a * y3 b + z3 a * z3 b.

(** Modelled from the spec: [len_squared], the squared length of section
    4.1, step 2. *)
Definition len_squared (a : float3) : float := dot a a.

(** Modelled from the spec: [normalize] of section 4.1, step 1, the vector
    divided by its length; the zero vector gives the zero direction, as
    section 4.1 asks for under "failure modes". *)
Definition normalize (a : float3) : float3 :=
  let len := F32.sqrt (len_squared a) in
  if len =? F32.zero then make_float3 F32.zero F32.zero F32.zero
  else make_float3 (x3 a / len) (y3 a / len) (z3 a / len).

(** Modelled from the spec: [fast_acosf] of [util/math_fast.h], the
    angle of section 4.1 as an arc cosine, here a cubic in [|x|] times
    [sqrt (1 - |x|)], mirrored for negative arguments. *)
Definition fast_acosf (x : float) : float :=
  let f := F32.fabsf x in
  let m := if f <? F32.one then F32.one - (F32.one - f) else F32.one in
  let a := F32.sqrt (F32.one - m) *
           (F32.of_bits 0x3FC90FDB
            + m * (F32.of_bits 0xBE5A6B93
                   + m * (F32.of_bits 0x3D9FB43B + m * F32.of_bits 0xBCB1485D))) in
  if x <? F32.zero then pi - a else a.

Definition clamp (x lo hi : float) : float := F32.fminf (F32.fmaxf x lo) hi.

(** Modelled from the spec: [fast_cosf] of [util/math_fast.h], the cosine
    of section 4.1, steps 7 and 8, here an even polynomial on
    [[-pi/2, pi/2]], reflected beyond, clamped to [[-1, 1]]. *)
Definition fast_cosf (x : float) : float :=
  let a := F32.fabsf x in
  let folded := pi_2 <? a in
  let r := if folded then pi - a else a in
  let s := r * r in
  let u := F32.of_bits 0xB491ED89 in
  let u := u * s + F32.of_bits 0x37D0078B in
  let u := u * s + F32.of_bits 0xBAB60B58 in
  let u := u * s + F32.of_bits 0x3D2AAAAA in
  let u := u * s + F32.of_bits 0xBF000000 in
  let u := s * u + F32.one in
  clamp (if folded then - u else u) (F32.of_bits 0xBF800000) F32.one.

(** Modelled from the spec: [light_sample] of [kernel/light/light.h]
    (section 6, [sample_analytic_light]); this one always succeeds, with
    density 1, and records the lamp and the random numbers. *)
Definition light_sample (in_volume_segment : bool) (lamp : Z)
    (randu randv : float) (P : float3) (path_flag : Z) (ls : LightSample)
    : bool * LightSample :=
  (true,
   {| ls_P := P; ls_u := randu; ls_v := randv; ls_pdf := F32.one;
      ls_shader := ls_shader ls; ls_object := -1; ls_prim := -1;
      ls_lamp := lamp |}).

(** Modelled from the spec: [triangle_light_sample] of
    [kernel/light/light.h] (section 6, [sample_triangle_light]); this one
    reports the density [triangle_pdf] and records what it was given. *)
Definition triangle_light_sample (triangle_pdf : float)
    (in_volume_segment : bool) (prim object : Z)
    (randu randv time : float) (ls : LightSample) (P : float3) : LightSample :=
  {| ls_P := P; ls_u := randu; ls_v := randv; ls_pdf := triangle_pdf;
     ls_shader := 0; ls_object := object; ls_prim := prim; ls_lamp := -1 |}.

(** Modelled from the spec: the remaining collaborators of section 6.
    The state of the random number generator is the number it yields; a
    lamp has reached its bounce budget when [bounce > max_bounces]; the two
    flag bits are bit 22 and bit 7.  None of these collaborators reads a
    table of the kernel globals. *)
Definition externals (release : bool) (max_bounces : Z) (triangle_pdf : float)
    : Externals :=
  Build_Externals
    float normalize dot len_squared fast_acosf fast_cosf
    (fun _ rng_state _ => rng_state)
    (fun _ _ bounce => (max_bounces <? bounce)%Z)
    (fun _ => triangle_light_sample triangle_pdf)
    (fun _ => light_sample)
    (Z.shiftl 1 22) (Z.shiftl 1 7)
    release.

End Reference.

(** ** Example scenes *)

Module Scenes.

Definition f (n : Z) : float := F32.of_Z n.
Definition v3 (x y z : Z) : float3 := make_float3 (f x) (f y) (f z).
Definition a3 (x y z : Z) : float_3 := mk_float_3 (f x) (f y) (f z).

(** A square area light of half-width 1 in the plane z = 0, centred at
    ([cx], 0, 0), facing +z. *)
Definition square_emitter (cx : Z) (theta_e energy : float) : KernelLightTreeEmitter :=
  {| em_bounding_box_min := a3 (cx - 1) (-1) 0;
     em_bounding_box_max := a3 (cx + 1) 1 0;
     em_bounding_cone_axis := a3 0 0 1;
     em_theta_o := F32.zero;
     em_theta_e := theta_e;
     em_energy := energy |}.

Definition lamp_entry (lamp : Z) : KernelLightDistribution :=
  {| prim := - lamp - 1; mesh_light_object_id := 0; mesh_light_shader_flag := 0 |}.

Definition triangle_entry (prim object shader_flag : Z) : KernelLightDistribution :=
  {| prim := prim; mesh_light_object_id := object;
     mesh_light_shader_flag := shader_flag |}.

Definition distant (lamp : Z) (energy : float) : KernelLightTreeDistantEmitter :=
  {| prim_id := - lamp - 1; distant_energy := energy |}.

Definition ls0 : LightSample :=
  {| ls_P := v3 0 0 0; ls_u := F32.zero; ls_v := F32.zero; ls_pdf := F32.one;
     ls_shader := 0; ls_object := -1; ls_prim := -1; ls_lamp := -1 |}.

(** The shading point, two units in front of the origin, and its normal,
    which points back at the plane of the lights. *)
Definition P0 : float3 := v3 0 0 2.
Definition N0 : float3 := v3 0 0 (-1).

(** A cluster whose box spans [xmin, xmax] x [-1, 1] x {0}. *)
Definition box_node (xmin xmax : Z) (theta_e energy : float)
    (child_index num_prims : Z) : KernelLightTreeNode :=
  {| node_bounding_box_min := a3 xmin (-1) 0;
     node_bounding_box_max := a3 xmax 1 0;
     node_bounding_cone_axis := a3 0 0 1;
     node_theta_o := F32.zero;
     node_theta_e := theta_e;
     node_energy := energy;
     child_index := child_index;
     num_prims := num_prims |}.

Definition scene (nodes : list KernelLightTreeNode)
    (emitters : list KernelLightTreeEmitter)
    (distribution : list KernelLightDistribution)
    (group : list KernelLightTreeDistantEmitter)
    (num_distant_lights : Z) : KernelGlobals :=
  {| light_tree_nodes := nodes;
     light_tree_emitters := emitters;
     light_distribution := distribution;
     light_tree_distant_group := group;
     object_flag := [0];
     num_distant_lights := num_distant_lights;
     num_distribution := Z.of_nat (length distribution) + num_distant_lights |}.

Definition pi_2 : float := Reference.pi_2.

(** The largest float below 1. *)
Definition u_max : float := F32.of_bits 0x3F7FFFFF.

(** The floats nearest to 0.05 and to 0.95. *)
Definition u_005 : float := F32.of_bits 0x3D4CCCCD.
Definition u_095 : float := F32.of_bits 0x3F733333.

(** A tree that is one leaf with one lamp. *)
Definition single_leaf (energy : float) : KernelGlobals :=
  scene [box_node (-1) 1 pi_2 energy 0 1]
        [square_emitter 0 pi_2 energy]
        [lamp_entry 0] [] 0.

(** A tree that is one leaf with two lamps of energy 0. *)
Definition zero_energy_leaf : KernelGlobals :=
  scene [box_node (-1) 1 pi_2 F32.zero 0 2]
        [square_emitter 0 pi_2 F32.zero; square_emitter 0 pi_2 F32.zero]
        [lamp_entry 0; lamp_entry 1] [] 0.

(** A tree that is one leaf with one mesh-light triangle. *)
Definition single_triangle : KernelGlobals :=
  scene [box_node (-1) 1 pi_2 (f 1) 0 1]
        [square_emitter 0 pi_2 (f 1)]
        [triangle_entry 5 0 8] [] 0.

(** An interior root with two leaves of one lamp each, of energy 10 on
    the left and 1 on the right, placed symmetrically about [P0]. *)
Definition root3 : KernelLightTreeNode := box_node (-3) 3 pi_2 (f 11) 2 0.
Definition left3 : KernelLightTreeNode := box_node (-3) (-1) pi_2 (f 10) 0 1.
Definition right3 : KernelLightTreeNode := box_node 1 3 pi_2 (f 1) (-1) 1.

Definition tree3 : KernelGlobals :=
  scene [root3; left3; right3]
        [square_emitter (-2) pi_2 (f 10); square_emitter 2 pi_2 (f 1)]
        [lamp_entry 0; lamp_entry 1] [] 0.

(** The same tree with clusters whose [theta_e] is 0: both children of
    the root have importance 0, whatever the shading point. *)
Definition dark_root : KernelLightTreeNode := box_node (-3) 3 F32.zero (f 2) 2 0.
Definition dark_left : KernelLightTreeNode := box_node (-3) (-1) F32.zero (f 1) 0 1.
Definition dark_right : KernelLightTreeNode := box_node 1 3 F32.zero (f 1) (-1) 1.

Definition dark_children : KernelGlobals :=
  scene [dark_root; dark_left; dark_right]
        [square_emitter (-2) pi_2 (f 1); square_emitter 2 pi_2 (f 1)]
        [lamp_entry 0; lamp_entry 1] [] 0.

(** Two lights in the plane x = 0 that face +x, seen from [P_away] on the
    other side: both clusters are cut off, both importances are 0. *)
Definition wall_node (ymin ymax : Z) (energy : float)
    (child_index num_prims : Z) : KernelLightTreeNode :=
  {| node_bounding_box_min := a3 0 ymin (-1);
     node_bounding_box_max := a3 0 ymax 1;
     node_bounding_cone_axis := a3 1 0 0;
     node_theta_o := F32.zero;
     node_theta_e := pi_2;
     node_energy := energy;
     child_index := child_index;
     num_prims := num_prims |}.

Definition wall_emitter (ymin ymax : Z) (energy : float) : KernelLightTreeEmitter :=
  {| em_bounding_box_min := a3 0 ymin (-1);
     em_bounding_box_max := a3 0 ymax 1;
     em_bounding_cone_axis := a3 1 0 0;
     em_theta_o := F32.zero;
     em_theta_e := pi_2;
     em_energy := energy |}.

Definition wall_root : KernelLightTreeNode := wall_node (-3) 3 (f 2) 2 0.
Definition wall_left : KernelLightTreeNode := wall_node (-3) (-1) (f 1) 0 1.
Definition wall_right : KernelLightTreeNode := wall_node 1 3 (f 1) (-1) 1.

Definition walls : KernelGlobals :=
  scene [wall_root; wall_left; wall_right]
        [wall_emitter (-3) (-1) (f 1); wall_emitter 1 3 (f 1)]
        [lamp_entry 0; lamp_entry 1] [] 0.

Definition P_away : float3 := v3 (-2) 0 0.
Definition N_away : float3 := v3 1 0 0.

(** Scenes with distant lights only. *)
Definition distant_only (energies : list float) : KernelGlobals :=
  scene [] [] []
        (map (distant 0) energies) (Z.of_nat (length energies)).

(** One lamp in the tree, one distant light of energy 1, and after it a
    slot that holds the sum of the distant energies. *)
Definition mixed : KernelGlobals :=
  scene [box_node (-1) 1 pi_2 (f 1) 0 1]
        [square_emitter 0 pi_2 (f 1)]
        [lamp_entry 0]
        [distant 1 (f 1); distant 0 (f 1)] 1.

(** No light at all. *)
Definition no_lights : KernelGlobals := scene [] [] [] [] 0.

Definition point_axis : float3 := v3 0 0 1.

(** The square light at the origin, as a box. *)
Definition square_min : float3 := v3 (-1) (-1) 0.
Definition square_max : float3 := v3 1 1 0.

(** A shading point behind the square light. *)
Definition P_behind : float3 := v3 0 0 (-2).

(** The reference collaborators: a release and a debug build, with a
    bounce budget of 8 and a triangle sampler of density 1; and a release
    build whose triangle sampler reports density 0. *)
Definition R : Externals := Reference.externals true 8 F32.one.
Definition R_debug : Externals := Reference.externals false 8 F32.one.
Definition R_degenerate : Externals := Reference.externals true 8 F32.zero.

End Scenes.

(** ** Specification-side definitions *)

Module Spec.
Local Open Scope f32_scope.

Inductive branch : Type := Left | Right.

(** The interior-node step in the words of the specification: from the
    running [u], the running [pdf_factor] and the importances of the two
    children, the branch taken, the rescaled [u] and the new
    [pdf_factor]. *)
Definition interior_split (u pdf_factor importance_left importance_right : float)
    : branch * float * float :=
  let sum := importance_left + importance_right in
  let p_left := importance_left / sum in
  if u <? p_left
  then (Left, u * sum / importance_left, pdf_factor * p_left)
  else (Right, (u * sum - importance_left) / importance_right,
        pdf_factor * (F32.one - p_left)).

(** The probabilities of the branches taken by the descent from [knode],
    first to last. *)
Fixpoint branch_probabilities (E : Externals) (kg : KernelGlobals)
    (fuel : nat) (P N : float3) (index : Z) (knode : KernelLightTreeNode)
    (u : float) : list float :=
  if (0 <? child_index knode)%Z then
    match fuel with
    | O => []
    | S fuel' =>
      match kernel_data_fetch (light_tree_nodes kg) (index + 1)%Z,
            kernel_data_fetch (light_tree_nodes kg) (child_index knode) with
      | Normal lnode, Normal rnode =>
        let il := light_tree_cluster_importance E P N lnode in
        let ir := light_tree_cluster_importance E P N rnode in
        match interior_split u F32.one il ir with
        | (Left, u', _) =>
          il / (il + ir) :: branch_probabilities E kg fuel' P N (index + 1)%Z lnode u'
        | (Right, u', _) =>
          F32.one - il / (il + ir)
            :: branch_probabilities E kg fuel' P N (child_index knode) rnode u'
        end
      | _, _ => []
      end
    end
  else [].

(** Product of a list of probabilities, accumulated from [1] in the
    order of the list. *)
Definition product (ps : list float) : float := fold_left F32.mul ps F32.one.

(** The sign bit of [x] is clear: [x] is [+0], a positive number,
    [+infinity], or NaN. *)
Definition sign_clear (x : float) : bool :=
  match x with
  | S754_nan => true
  | S754_zero s | S754_infinity s | S754_finite s _ _ => negb s
  end.


(** The scene with another distant-light table. *)
Definition with_distant_group (kg : KernelGlobals)
    (group : list KernelLightTreeDistantEmitter) : KernelGlobals :=
  {| light_tree_nodes := light_tree_nodes kg;
     light_tree_emitters := light_tree_emitters kg;
     light_distribution := light_distribution kg;
     light_tree_distant_group := group;
     object_flag := object_flag kg;
     num_distant_lights := num_distant_lights kg;
     num_distribution := num_distribution kg |}.

(** The scene with other tables for the finite light tree. *)
Definition with_tree (kg : KernelGlobals)
    (nodes : list KernelLightTreeNode) (emitters : list KernelLightTreeEmitter)
    (distribution : list KernelLightDistribution) : KernelGlobals :=
  {| light_tree_nodes := nodes;
     light_tree_emitters := emitters;
     light_distribution := distribution;
     light_tree_distant_group := light_tree_distant_group kg;
     object_flag := object_flag kg;
     num_distant_lights := num_distant_lights kg;
     num_distribution := num_distribution kg |}.

(** The light sample [ls] after [ls->pdf *= pdf_factor]: the pdf is
    multiplied, every other field is as it was. *)
Definition pdf_scaled (ls : LightSample) (pdf_factor : float) : LightSample :=
  {| ls_P := ls_P ls; ls_u := ls_u ls; ls_v := ls_v ls;
     ls_pdf := ls_pdf ls * pdf_factor;
     ls_shader := ls_shader ls; ls_object := ls_object ls;
     ls_prim := ls_prim ls; ls_lamp := ls_lamp ls |}.

(** The last statements of the dispatcher, applied to what a sub-sampler
    left behind. *)
Definition fold_pdf (m : outcome sample_result) : outcome (retval * LightSample) :=
  match m with
  | Normal r => Normal (sr_ret r, pdf_scaled (sr_ls r) (sr_pdf_factor r))
  | OutOfBounds => OutOfBounds
  | AssertFailure => AssertFailure
  | OutOfFuel => OutOfFuel
  end.

(** The collaborators that receive the kernel globals answer on [kg'] as
    they do on [kg]: they read nothing of what differs between the two. *)
Definition same_collaborators (E : Externals) (kg kg' : KernelGlobals) : Prop :=
  (forall (rng_state : RNGState E) (dimension : Z),
      path_state_rng_1D E kg' rng_state dimension
      = path_state_rng_1D E kg rng_state dimension) /\
  (forall lamp bounce : Z,
      light_select_reached_max_bounces E kg' lamp bounce
      = light_select_reached_max_bounces E kg lamp bounce) /\
  (forall (in_volume_segment : bool) (prim object : Z) (randu randv time : float)
          (ls : LightSample) (P : float3),
      triangle_light_sample E kg' in_volume_segment prim object randu randv time ls P
      = triangle_light_sample E kg in_volume_segment prim object randu randv time ls P) /\
  (forall (in_volume_segment : bool) (lamp : Z) (randu randv : float) (P : float3)
          (path_flag : Z) (ls : LightSample),
      light_sample E kg' in_volume_segment lamp randu randv P path_flag ls
      = light_sample E kg in_volume_segment lamp randu randv P path_flag ls).

(** The descent in the words of the specification: [interior_split] is
    applied at every interior node, from the node at [index] down to a
    leaf, and the walk continues in the child of the branch taken. *)
Fixpoint descent (E : Externals) (kg : KernelGlobals)
    (fuel : nat) (P N : float3) (index : Z) (knode : KernelLightTreeNode)
    (u pdf_factor : float) : outcome walk :=
  if (0 <? child_index knode)%Z then
    match fuel with
    | O => OutOfFuel
    | S fuel' =>
      match kernel_data_fetch (light_tree_nodes kg) (index + 1)%Z with
      | Normal lnode =>
        match kernel_data_fetch (light_tree_nodes kg) (child_index knode) with
        | Normal rnode =>
          match interior_split u pdf_factor
                  (light_tree_cluster_importance E P N lnode)
                  (light_tree_cluster_importance E P N rnode) with
          | (Left, u', pdf_factor') =>
            descent E kg fuel' P N (index + 1)%Z lnode u' pdf_factor'
          | (Right, u', pdf_factor') =>
            descent E kg fuel' P N (child_index knode) rnode u' pdf_factor'
          end
        | OutOfBounds => OutOfBounds
        | AssertFailure => AssertFailure
        | OutOfFuel => OutOfFuel
        end
      | OutOfBounds => OutOfBounds
      | AssertFailure => AssertFailure
      | OutOfFuel => OutOfFuel
      end
    end
  else
    Normal {| w_index := index; w_knode := knode;
              w_tree_u := u; w_pdf_factor := pdf_factor |}.

(** The mixed case of the dispatcher as the specification describes it:
    the first random number is split against [p_tree] and rescaled as in
    [interior_split] before it is handed to the sub-sampler. *)
Definition mixed_dispatch_as_described (E : Externals) (kg : KernelGlobals)
    (fuel : nat) (rng_state : RNGState E) (randu randv time : float)
    (P N : float3) (bounce path_flag : Z) (ls : LightSample)
    (importance_tree importance_distant : float) : outcome sample_result :=
  match interior_split randu F32.one importance_tree importance_distant with
  | (Left, randu', p) =>
    r <- light_tree_sample E kg fuel false rng_state randu' randv time N P
           bounce path_flag ls ;;
    Normal (scale_pdf_factor r p)
  | (Right, randu', p) =>
    r <- light_tree_sample_distant_lights E kg false rng_state randu' randv time N P
           bounce path_flag ls F32.one ;;
    Normal (scale_pdf_factor r p)
  end.

(** The pre-order layout of the node table: the right child of an
    interior node lies behind it. *)
Definition preorder_layout (kg : KernelGlobals) : Prop :=
  forall (i : Z) (node : KernelLightTreeNode),
    kernel_data_fetch (light_tree_nodes kg) i = Normal node ->
    (0 < child_index node)%Z -> (i < child_index node)%Z.

(** The sum of the energies of the first [n] distant lights. *)
Definition distant_energy_sum (kg : KernelGlobals) : float :=
  fold_left (fun acc d => acc + distant_energy d)
    (firstn (Z.to_nat (num_distant_lights kg)) (light_tree_distant_group kg))
    F32.zero.

End Spec.

(** ** Runs of the model on the example scenes *)

Module Runs.
Import Scenes.

Definition walk0 : walk :=
  {| w_index := 0; w_knode := root3; w_tree_u := F32.zero; w_pdf_factor := F32.zero |}.

Definition result0 : sample_result :=
  {| sr_ret := NoReturnValue; sr_ls := ls0; sr_pdf_factor := F32.zero |}.

Definition value {A : Type} (default : A) (m : outcome A) : A :=
  match m with
  | Normal a => a
  | _ => default
  end.

(** The descent of [tree3] with the random number 0.05: where it ends,
    the total importance of that leaf, and what the sampler returns. *)
Definition walk3 : walk :=
  Eval vm_compute in value walk0 (traverse R tree3 1 P0 N0 0 root3 u_005 F32.one).

Definition total3 : float :=
  Eval vm_compute in
    value F32.nan (sum_emitter_importance R tree3 1 P0 N0 (w_knode walk3) 0 F32.zero).

Definition result3 : sample_result :=
  Eval vm_compute in
    value result0
      (light_tree_sample R tree3 1 false u_005 F32.half F32.half F32.zero N0 P0 0 0 ls0).

(** The probability of the left branch at the root of [tree3], seen from
    [P0]: about 0.909. *)
Definition p_left3 : float :=
  Eval vm_compute in
    (let il := light_tree_cluster_importance R P0 N0 left3 in
     let ir := light_tree_cluster_importance R P0 N0 right3 in
     F32.div il (F32.add il ir)).

(** The probability of the tree branch in [mixed], seen from [P0]: about
    0.536; and the random number 1/4 rescaled by it: about 0.467. *)
Definition p_tree_mixed : float :=
  Eval vm_compute in
    (let importance_tree :=
       light_tree_cluster_importance R P0 N0 (box_node (-1) 1 pi_2 (f 1) 0 1) in
     F32.div importance_tree (F32.add importance_tree (f 1))).

Definition quarter_rescaled : float :=
  Eval vm_compute in
    (let importance_tree :=
       light_tree_cluster_importance R P0 N0 (box_node (-1) 1 pi_2 (f 1) 0 1) in
     F32.div (F32.mul F32.quarter (F32.add importance_tree (f 1))) importance_tree).

(** What the reference lamp sampler writes for lamp [lamp], called with
    the random numbers [randu] and 1/2. *)
Definition lamp_sample (lamp : Z) (randu : float) : LightSample :=
  snd (Reference.light_sample false lamp randu F32.half P0 0 ls0).

End Runs.

(** ** Variations of a scene and further scenes *)

Module Vary.

(** The node with another third component of its cone axis. *)
Definition with_cone_axis_2 (knode : KernelLightTreeNode) (z : float)
    : KernelLightTreeNode :=
  {| node_bounding_box_min := node_bounding_box_min knode;
     node_bounding_box_max := node_bounding_box_max knode;
     node_bounding_cone_axis :=
       mk_float_3 (a_0 (node_bounding_cone_axis knode))
                  (a_1 (node_bounding_cone_axis knode)) z;
     node_theta_o := node_theta_o knode;
     node_theta_e := node_theta_e knode;
     node_energy := node_energy knode;
     child_index := child_index knode;
     num_prims := num_prims knode |}.

(** The energies of the first [n] entries of the distant-light table,
    added from 0 in the order of the table. *)
Definition energy_sum (group : list KernelLightTreeDistantEmitter) (n : nat) : float :=
  fold_left (fun acc d => F32.add acc (distant_energy d)) (firstn n group) F32.zero.

(** The square light of the scenes with a falloff angle below 0. *)
Definition negative_theta_e : float := F32.of_Z (-1).

(** A root whose left child faces away from [P0] (importance 0) and whose
    right child is the square light of energy 1. *)
Definition lopsided_root : KernelLightTreeNode :=
  Scenes.box_node (-3) 3 Scenes.pi_2 (Scenes.f 2) 2 0.
Definition lopsided_left : KernelLightTreeNode :=
  Scenes.box_node (-3) (-1) F32.zero (Scenes.f 1) 0 1.
Definition lopsided_right : KernelLightTreeNode :=
  Scenes.box_node 1 3 Scenes.pi_2 (Scenes.f 1) (-1) 1.

Definition lopsided : KernelGlobals :=
  Scenes.scene [lopsided_root; lopsided_left; lopsided_right]
    [Scenes.square_emitter (-2) F32.zero (Scenes.f 1);
     Scenes.square_emitter 2 Scenes.pi_2 (Scenes.f 1)]
    [Scenes.lamp_entry 0; Scenes.lamp_entry 1] [] 0.

(** A leaf whose first lamp has importance 0 (its [theta_e] is 0) and whose
    second lamp is the square light of energy 1. *)
Definition dim_first : KernelGlobals :=
  Scenes.scene [Scenes.box_node (-1) 1 Scenes.pi_2 (Scenes.f 1) 0 2]
    [Scenes.square_emitter 0 F32.zero (Scenes.f 1);
     Scenes.square_emitter 0 Scenes.pi_2 (Scenes.f 1)]
    [Scenes.lamp_entry 0; Scenes.lamp_entry 1] [] 0.

(** A leaf without emitters. *)
Definition empty_leaf : KernelGlobals :=
  Scenes.scene [Scenes.box_node (-1) 1 Scenes.pi_2 (Scenes.f 1) 0 0] [] [] [] 0.

(** Two distant lights of energies 1 and 3. *)
Definition two_suns : KernelGlobals :=
  Scenes.scene [] [] [] [Scenes.distant 4 (Scenes.f 1); Scenes.distant 6 (Scenes.f 3)] 2.

(** One lamp in the tree and one distant light, in a distant-light table
    that has no slot after it. *)
Definition mixed_tight : KernelGlobals :=
  Scenes.scene [Scenes.box_node (-1) 1 Scenes.pi_2 (Scenes.f 1) 0 1]
    [Scenes.square_emitter 0 Scenes.pi_2 (Scenes.f 1)]
    [Scenes.lamp_entry 0]
    [Scenes.distant 1 (Scenes.f 1)] 1.

(** Runs on these scenes with the reference collaborators. *)
Definition dim_walk : walk :=
  {| w_index := 0;
     w_knode := Scenes.box_node (-1) 1 Scenes.pi_2 (Scenes.f 1) 0 2;
     w_tree_u := Scenes.u_005; w_pdf_factor := F32.one |}.

Definition dim_total : float :=
  Eval vm_compute in
    Runs.value F32.nan
      (sum_emitter_importance Scenes.R dim_first 2 Scenes.P0 Scenes.N0
         (w_knode dim_walk) 0 F32.zero).

Definition dim_result : sample_result :=
  Eval vm_compute in
    Runs.value Runs.result0
      (light_tree_sample Scenes.R dim_first 0 false Scenes.u_005 F32.half F32.half
         F32.zero Scenes.N0 Scenes.P0 0 0 Scenes.ls0).

Definition triangle_hit : sample_result :=
  Eval vm_compute in
    Runs.value Runs.result0
      (light_tree_sample Scenes.R Scenes.single_triangle 0 false Scenes.u_005
         F32.half F32.half F32.zero Scenes.N0 Scenes.P0 0 0 Scenes.ls0).

Definition triangle_miss : sample_result :=
  Eval vm_compute in
    Runs.value Runs.result0
      (light_tree_sample Scenes.R_degenerate Scenes.single_triangle 0 false Scenes.u_005
         F32.half F32.half F32.zero Scenes.N0 Scenes.P0 0 0 Scenes.ls0).

Definition suns_result : sample_result :=
  Eval vm_compute in
    Runs.value Runs.result0
      (light_tree_sample_distant_lights Scenes.R two_suns false Scenes.u_005
         F32.half F32.half F32.zero Scenes.N0 Scenes.P0 0 0 Scenes.ls0 F32.one).

End Vary.

(** * Properties *)

(** ** Facts of binary32 arithmetic *)

Section FloatFacts.
Local Open Scope f32_scope.
Import Spec.

Lemma ltb_nan_r (x : float) : (x <? F32.nan) = false.
Proof. destruct x; reflexivity. Qed.

Lemma ltb_nan_l (x : float) : (F32.nan <? x) = false.
Proof. reflexivity. Qed.

Lemma leb_fmaxf_zero (bound x : float) :
  (bound <=? x) = true -> (bound <=? F32.fmaxf x F32.zero) = true.
Proof.
  intros H. unfold F32.fmaxf.
  destruct x as [sx | sx | | sx mx ex]; simpl.
  - exact H.
  - destruct sx; [ | exact H].
    destruct bound as [sb | [ | ] | | sb mb eb]; try discriminate; reflexivity.
  - destruct bound; discriminate.
  - destruct sx; [ | exact H].
    destruct bound as [sb | [ | ] | | [ | ] mb eb]; try discriminate; reflexivity.
Qed.

Lemma round_aux_sign (s : bool) (m e : Z) (l : location) :
  match binary_round_aux F32.prec F32.emax s m e l with
  | S754_nan => True
  | S754_zero s' | S754_infinity s' | S754_finite s' _ _ => s' = s
  end.
Proof.
  unfold binary_round_aux.
  destruct (shr_fexp F32.prec F32.emax m e l) as [mrs' e'].
  destruct (shr_fexp F32.prec F32.emax _ e' loc_Exact) as [mrs'' e''].
  destruct (shr_m mrs''); [reflexivity | | exact I].
  destruct (Z.leb e'' _); reflexivity.
Qed.

Lemma round_aux_sign_clear (m e : Z) (l : location) :
  sign_clear (binary_round_aux F32.prec F32.emax false m e l) = true.
Proof.
  pose proof (round_aux_sign false m e l) as H.
  destruct (binary_round_aux _ _ _ _ _ _); simpl; subst; reflexivity.
Qed.


Lemma mul_self_sign_clear (x : float) : sign_clear (x * x) = true.
Proof.
  destruct x as [[ | ] | [ | ] | | [ | ] mx ex]; simpl; try reflexivity;
    apply round_aux_sign_clear.
Qed.


Lemma add_sign_clear (x y : float) :
  sign_clear x = true -> sign_clear y = true -> sign_clear (x + y) = true.
Proof.
  destruct x as [[ | ] | [ | ] | | [ | ] mx ex];
    destruct y as [[ | ] | [ | ] | | [ | ] my ey];
    simpl; intros; try reflexivity; try discriminate.
  unfold F32.add, SFadd, cond_Zopp, binary_normalize. simpl Z.add.
  unfold binary_round.
  destruct (shl_align _ _ _) as [mz ez].
  apply round_aux_sign_clear.
Qed.


Lemma fminf_sign_clear (x y : float) :
  sign_clear x = true -> sign_clear y = true -> sign_clear (F32.fminf x y) = true.
Proof.
  intros Hx Hy. unfold F32.fminf.
  destruct (F32.is_nan x); [exact Hy | ].
  destruct (F32.is_nan y); [exact Hx | ].
  destruct (y <? x); assumption.
Qed.



End FloatFacts.

(** ** The importance estimate *)

Section ImportanceFacts.
Variable E : Externals.
Local Open Scope f32_scope.
Import Spec.

(** The estimate in terms of the named intermediate quantities. *)
Lemma light_tree_node_importance_unfold
    (P N bbox_min bbox_max bcone_axis : float3) (theta_o theta_e energy : float) :
  light_tree_node_importance E P N bbox_min bbox_max bcone_axis theta_o theta_e energy =
  if theta_e <=? theta_prime_of E P bbox_min bbox_max bcone_axis theta_o
  then F32.zero
  else F32.one * cos_theta_i_prime_of E P N bbox_min bbox_max * energy
       / distance_squared_of E P bbox_min bbox_max
       * fast_cosf E (theta_prime_of E P bbox_min bbox_max bcone_axis theta_o).
Proof. reflexivity. Qed.


(** With [theta_e <= 0] the cutoff always applies: [theta_prime] is the
    result of [fmaxf(., 0)], which is never NaN and never below 0. *)
Lemma zero_theta_e_importance
    (P N bbox_min bbox_max bcone_axis : float3) (theta_o energy : float) :
  light_tree_node_importance E P N bbox_min bbox_max bcone_axis
    theta_o F32.zero energy = F32.zero.
Proof.
  rewrite light_tree_node_importance_unfold.
  unfold theta_prime_of, F32.fmaxf.
  destruct (_ - _ - _) as [[ | ] | [ | ] | | [ | ] m e]; reflexivity.
Qed.

(** A quotient by zero is never finite, and neither is its product with
    anything. *)
Lemma div_zero_not_finite (x d : float) :
  (d =? F32.zero) = true -> F32.is_finite (x / d) = false.
Proof.
  destruct d as [sd | [ | ] | | [ | ] md ed]; intros H; try discriminate H;
    destruct x; reflexivity.
Qed.

Lemma mul_not_finite (x y : float) :
  F32.is_finite x = false -> F32.is_finite (x * y) = false.
Proof.
  destruct x; intros H; try discriminate H; destruct y; reflexivity.
Qed.

(** Whenever the cutoff does not apply and [distance_squared] is zero,
    the estimate is an infinity or NaN, for every implementation of the
    collaborators. *)
Lemma zero_distance_importance_not_finite
    (P N bbox_min bbox_max bcone_axis : float3) (theta_o theta_e energy : float) :
  (theta_e <=? theta_prime_of E P bbox_min bbox_max bcone_axis theta_o) = false ->
  (distance_squared_of E P bbox_min bbox_max =? F32.zero) = true ->
  F32.is_finite
    (light_tree_node_importance E P N bbox_min bbox_max bcone_axis
       theta_o theta_e energy) = false.
Proof.
  intros Hcut Hd. rewrite light_tree_node_importance_unfold, Hcut.
  apply mul_not_finite, div_zero_not_finite, Hd.
Qed.

End ImportanceFacts.

(** C4. Whenever [theta - theta_o - theta_u >= theta_e], where [theta] is
    the angle between the cone axis and the direction from the centroid to
    the shading point and [theta_u] the largest angle between
    [point_to_centroid] and the directions to the eight box corners,
    [light_tree_node_importance] returns exactly 0. *)
Theorem angular_cutoff_returns_zero
    (E : Externals) (P N bbox_min bbox_max bcone_axis : float3)
    (theta_o theta_e energy : float) :
  F32.leb theta_e
    (F32.sub (F32.sub (theta_of E P bbox_min bbox_max bcone_axis) theta_o)
             (theta_u_of E P bbox_min bbox_max)) = true ->
  light_tree_node_importance E P N bbox_min bbox_max bcone_axis theta_o theta_e energy
  = F32.zero.
Proof.
  intros H. rewrite light_tree_node_importance_unfold.
  unfold theta_prime_of. now rewrite (leb_fmaxf_zero _ _ H).
Qed.

(** The square light seen from behind: [theta] is pi, beyond
    [theta_o + theta_u + theta_e]. *)
Lemma angular_cutoff_witness :
  F32.leb Scenes.pi_2
    (F32.sub (F32.sub (theta_of Scenes.R Scenes.P_behind Scenes.square_min
                         Scenes.square_max Scenes.point_axis) F32.zero)
             (theta_u_of Scenes.R Scenes.P_behind Scenes.square_min Scenes.square_max))
  = true /\
  light_tree_node_importance Scenes.R Scenes.P_behind Scenes.N0
    Scenes.square_min Scenes.square_max Scenes.point_axis
    F32.zero Scenes.pi_2 (Scenes.f 41) = F32.zero.
Proof.
  split; [vm_compute; reflexivity | ].
  apply angular_cutoff_returns_zero. vm_compute; reflexivity.
Defined.




(** The hypothesis on [cos_theta_prime] is needed: with a falloff angle
    [theta_e] of 3 radians the square light seen from behind is not cut
    off, [theta_prime] is about 2.53, its cosine is negative, and so is the
    importance, about -1.33. *)
Example wide_falloff_importance_negative :
  F32.ltb
    (light_tree_node_importance Scenes.R Scenes.P_behind Scenes.N0
       Scenes.square_min Scenes.square_max Scenes.point_axis
       F32.zero (Scenes.f 3) (Scenes.f 1))
    F32.zero = true.
Proof. vm_compute; reflexivity. Qed.

(** The cluster estimate builds the cone axis from the components 0, 1, 1
    of [bounding_cone_axis]: a cluster and an emitter with the same box,
    the same axis (0, 0, 1), the same angles and the same energy get
    different importances, 2 for the emitter and about 1.15 for the
    cluster. *)
Example cluster_axis_uses_component_1_twice :
  light_tree_emitter_importance Scenes.R (Scenes.single_leaf (Scenes.f 1))
    Scenes.P0 Scenes.N0 0 = Normal (Scenes.f 2) /\
  light_tree_cluster_importance Scenes.R Scenes.P0 Scenes.N0
    (Scenes.box_node (-1) 1 Scenes.pi_2 (Scenes.f 1) 0 1) = F32.of_bits 0x3F93CE97.
Proof. split; vm_compute; reflexivity. Qed.

(** ** The traversal *)

Section TraversalFacts.
Variable E : Externals.
Variable kg : KernelGlobals.
Local Open Scope f32_scope.
Import Spec.

Lemma traverse_leaf (fuel : nat) (P N : float3) (index : Z)
    (knode : KernelLightTreeNode) (u pdf_factor : float) :
  (0 <? child_index knode)%Z = false ->
  traverse E kg fuel P N index knode u pdf_factor =
  Normal {| w_index := index; w_knode := knode;
            w_tree_u := u; w_pdf_factor := pdf_factor |}.
Proof. intros H. destruct fuel; simpl; rewrite H; reflexivity. Qed.

Lemma traverse_interior (fuel : nat) (P N : float3) (index : Z)
    (knode lnode rnode : KernelLightTreeNode) (u pdf_factor : float) :
  (0 <? child_index knode)%Z = true ->
  kernel_data_fetch (light_tree_nodes kg) (index + 1)%Z = Normal lnode ->
  kernel_data_fetch (light_tree_nodes kg) (child_index knode) = Normal rnode ->
  traverse E kg (S fuel) P N index knode u pdf_factor =
  let il := light_tree_cluster_importance E P N lnode in
  let ir := light_tree_cluster_importance E P N rnode in
  if u <? il / (il + ir)
  then traverse E kg fuel P N (index + 1)%Z lnode
         (u * (il + ir) / il) (pdf_factor * (il / (il + ir)))
  else traverse E kg fuel P N (child_index knode) rnode
         ((u * (il + ir) - il) / ir) (pdf_factor * (F32.one - il / (il + ir))).
Proof.
  intros Hc Hl Hr. cbn [traverse]. rewrite Hc, Hl, Hr. reflexivity.
Qed.

(** The factor accumulated by the traversal is the running product of the
    probabilities of the branches it took. *)
Lemma traverse_pdf_factor (fuel : nat) (P N : float3) :
  forall (index : Z) (knode : KernelLightTreeNode) (u pdf_factor : float) (w : walk),
    traverse E kg fuel P N index knode u pdf_factor = Normal w ->
    w_pdf_factor w =
    fold_left F32.mul (branch_probabilities E kg fuel P N index knode u) pdf_factor.
Proof.
  induction fuel as [ | fuel IH]; intros index knode u pdf_factor w.
  - cbn [traverse branch_probabilities].
    destruct (0 <? child_index knode)%Z; [discriminate | ].
    intros H; injection H as <-; reflexivity.
  - cbn [traverse branch_probabilities].
    destruct (0 <? child_index knode)%Z;
      [ | intros H; injection H as <-; reflexivity].
    destruct (kernel_data_fetch (light_tree_nodes kg) (index + 1)%Z)
      as [lnode | | | ]; cbn [bind]; try discriminate.
    destruct (kernel_data_fetch (light_tree_nodes kg) (child_index knode))
      as [rnode | | | ]; cbn [bind]; try discriminate.
    unfold interior_split.
    destruct (u <? _); intros H; apply IH in H; rewrite H; reflexivity.
Qed.

(** The traversal never stops at an interior node. *)
Lemma traverse_reaches_leaf (fuel : nat) (P N : float3) :
  forall (index : Z) (knode : KernelLightTreeNode) (u pdf_factor : float) (w : walk),
    traverse E kg fuel P N index knode u pdf_factor = Normal w ->
    (child_index (w_knode w) <= 0)%Z.
Proof.
  induction fuel as [ | fuel IH]; intros index knode u pdf_factor w;
    cbn [traverse]; destruct (0 <? child_index knode)%Z eqn:Hc.
  - discriminate.
  - intros H; injection H as <-. apply Z.ltb_ge in Hc. exact Hc.
  - destruct (kernel_data_fetch (light_tree_nodes kg) (index + 1)%Z)
      as [lnode | | | ]; cbn [bind]; try discriminate.
    destruct (kernel_data_fetch (light_tree_nodes kg) (child_index knode))
      as [rnode | | | ]; cbn [bind]; try discriminate.
    destruct (u <? _); apply IH.
  - intros H; injection H as <-. apply Z.ltb_ge in Hc. exact Hc.
Qed.

(** More fuel does not change a finished traversal. *)
Lemma traverse_fuel_mono (fuel : nat) (P N : float3) :
  forall (index : Z) (knode : KernelLightTreeNode) (u pdf_factor : float) (w : walk),
    traverse E kg fuel P N index knode u pdf_factor = Normal w ->
    traverse E kg (S fuel) P N index knode u pdf_factor = Normal w.
Proof.
  induction fuel as [ | fuel IH]; intros index knode u pdf_factor w.
  - cbn [traverse]. destruct (0 <? child_index knode)%Z; [discriminate | trivial].
  - intros H. cbn [traverse] in H. cbn [traverse].
    destruct (0 <? child_index knode)%Z; [ | exact H].
    destruct (kernel_data_fetch (light_tree_nodes kg) (index + 1)%Z)
      as [lnode | | | ]; cbn [bind] in *; try discriminate.
    destruct (kernel_data_fetch (light_tree_nodes kg) (child_index knode))
      as [rnode | | | ]; cbn [bind] in *; try discriminate.
    destruct (u <? _); apply IH in H; exact H.
Qed.

(** Termination of the traversal.  In the pre-order layout the index
    grows with every step of the loop, and as many iterations as the table
    has nodes are enough: the loop ends at a leaf or leaves the table. *)
Lemma kernel_data_fetch_in_bounds {A : Type} (table : list A) (i : Z) (a : A) :
  kernel_data_fetch table i = Normal a -> (0 <= i < Z.of_nat (length table))%Z.
Proof.
  unfold kernel_data_fetch. destruct (i <? 0)%Z eqn:Hneg; [discriminate | ].
  apply Z.ltb_ge in Hneg.
  destruct (nth_error table (Z.to_nat i)) eqn:Hnth; [ | discriminate].
  intros _. assert (Hsome : nth_error table (Z.to_nat i) <> None) by congruence.
  apply nth_error_Some in Hsome. lia.
Qed.

Lemma kernel_data_fetch_uses_no_fuel {A : Type} (table : list A) (i : Z) :
  kernel_data_fetch table i <> OutOfFuel.
Proof.
  unfold kernel_data_fetch. destruct (i <? 0)%Z; [discriminate | ].
  destruct (nth_error table (Z.to_nat i)); discriminate.
Qed.

Lemma traverse_terminates (P N : float3) :
  preorder_layout kg ->
  forall (fuel : nat) (index : Z) (knode : KernelLightTreeNode) (u pdf_factor : float),
    kernel_data_fetch (light_tree_nodes kg) index = Normal knode ->
    (Z.of_nat (length (light_tree_nodes kg)) - index <= Z.of_nat fuel)%Z ->
    traverse E kg fuel P N index knode u pdf_factor <> OutOfFuel.
Proof.
  intros Hlayout. induction fuel as [ | fuel IH];
    intros index knode u pdf_factor Hfetch Hfuel; cbn [traverse];
    destruct (0 <? child_index knode)%Z eqn:Hc; try discriminate.
  - apply kernel_data_fetch_in_bounds in Hfetch. lia.
  - destruct (kernel_data_fetch (light_tree_nodes kg) (index + 1)%Z)
      as [lnode | | | ] eqn:Hl; cbn [bind]; try discriminate;
      [ | exfalso; exact (kernel_data_fetch_uses_no_fuel _ _ Hl)].
    destruct (kernel_data_fetch (light_tree_nodes kg) (child_index knode))
      as [rnode | | | ] eqn:Hr; cbn [bind]; try discriminate;
      [ | exfalso; exact (kernel_data_fetch_uses_no_fuel _ _ Hr)].
    apply Z.ltb_lt in Hc. pose proof (Hlayout index knode Hfetch Hc) as Hgrow.
    destruct (u <? _); apply IH; try assumption; lia.
Qed.

End TraversalFacts.

Lemma traverse_is_descent (E : Externals) (kg : KernelGlobals)
    (fuel : nat) (P N : float3) :
  forall (index : Z) (knode : KernelLightTreeNode) (u pdf_factor : float),
    traverse E kg fuel P N index knode u pdf_factor =
    Spec.descent E kg fuel P N index knode u pdf_factor.
Proof.
  induction fuel as [ | fuel IH]; intros index knode u pdf_factor;
    cbn [traverse Spec.descent]; [reflexivity | ].
  destruct (0 <? child_index knode)%Z; [ | reflexivity].
  destruct (kernel_data_fetch (light_tree_nodes kg) (index + 1)%Z)
    as [lnode | | | ]; cbn [bind]; try reflexivity.
  destruct (kernel_data_fetch (light_tree_nodes kg) (child_index knode))
    as [rnode | | | ]; cbn [bind]; try reflexivity.
  unfold Spec.interior_split.
  destruct (F32.ltb u _); apply IH.
Qed.

(** C1. At an interior node ([child_index > 0], left child at [index + 1],
    right child at [child_index]) the traversal of [light_tree_sample]
    does what the specification's interior-node step says: it goes left
    iff [u < p_left] with [p_left = il / (il + ir)]; going left, [u]
    becomes [u * (il + ir) / il] and [pdf_factor] is multiplied by
    [p_left]; going right, [u] becomes [(u * (il + ir) - il) / ir] and
    [pdf_factor] is multiplied by [1 - p_left].  The loop goes on from the
    child of the branch taken with these two numbers; when that child is a
    leaf, the loop ends there, at the child's index, with exactly these two
    numbers; and at every depth the loop is the iteration of the
    specification's step. *)
Theorem interior_step_splits_by_importance
    (E : Externals) (kg : KernelGlobals) (fuel : nat) (P N : float3) (index : Z)
    (knode lnode rnode : KernelLightTreeNode) (u pdf_factor : float) :
  (0 < child_index knode)%Z ->
  kernel_data_fetch (light_tree_nodes kg) (index + 1)%Z = Normal lnode ->
  kernel_data_fetch (light_tree_nodes kg) (child_index knode) = Normal rnode ->
  let il := light_tree_cluster_importance E P N lnode in
  let ir := light_tree_cluster_importance E P N rnode in
  let p_left := F32.div il (F32.add il ir) in
  (fst (fst (Spec.interior_split u pdf_factor il ir)) = Spec.Left
   <-> F32.ltb u p_left = true) /\
  traverse E kg (S fuel) P N index knode u pdf_factor =
  match Spec.interior_split u pdf_factor il ir with
  | (Spec.Left, u', pdf_factor') =>
    traverse E kg fuel P N (index + 1)%Z lnode u' pdf_factor'
  | (Spec.Right, u', pdf_factor') =>
    traverse E kg fuel P N (child_index knode) rnode u' pdf_factor'
  end /\
  (F32.ltb u p_left = true -> (child_index lnode <= 0)%Z ->
   traverse E kg (S fuel) P N index knode u pdf_factor =
   Normal {| w_index := (index + 1)%Z; w_knode := lnode;
             w_tree_u := F32.div (F32.mul u (F32.add il ir)) il;
             w_pdf_factor := F32.mul pdf_factor p_left |}) /\
  (F32.ltb u p_left = false -> (child_index rnode <= 0)%Z ->
   traverse E kg (S fuel) P N index knode u pdf_factor =
   Normal {| w_index := child_index knode; w_knode := rnode;
             w_tree_u := F32.div (F32.sub (F32.mul u (F32.add il ir)) il) ir;
             w_pdf_factor := F32.mul pdf_factor (F32.sub F32.one p_left) |}) /\
  (forall depth : nat,
      traverse E kg depth P N index knode u pdf_factor =
      Spec.descent E kg depth P N index knode u pdf_factor).
Proof.
  intros Hc Hl Hr il ir p_left.
  apply Z.ltb_lt in Hc.
  rewrite (traverse_interior E kg fuel P N index knode lnode rnode u pdf_factor Hc Hl Hr).
  unfold Spec.interior_split. fold il ir. fold p_left. cbv zeta.
  split; [destruct (F32.ltb u p_left); cbn; split; congruence | ].
  split; [destruct (F32.ltb u p_left); reflexivity | ].
  split; [ | split].
  - intros Hu Hleaf. rewrite Hu. apply traverse_leaf. apply Z.ltb_ge. exact Hleaf.
  - intros Hu Hleaf. rewrite Hu. apply traverse_leaf. apply Z.ltb_ge. exact Hleaf.
  - intros depth. apply traverse_is_descent.
Qed.

Lemma interior_step_witness :
  (0 < child_index Scenes.root3)%Z /\
  kernel_data_fetch (light_tree_nodes Scenes.tree3) (0 + 1)%Z = Normal Scenes.left3 /\
  kernel_data_fetch (light_tree_nodes Scenes.tree3) (child_index Scenes.root3)
  = Normal Scenes.right3 /\
  F32.ltb Scenes.u_005 Runs.p_left3 = true /\
  (child_index Scenes.left3 <= 0)%Z /\
  traverse Scenes.R Scenes.tree3 1 Scenes.P0 Scenes.N0 0 Scenes.root3
    Scenes.u_005 F32.one =
  Normal {| w_index := (0 + 1)%Z; w_knode := Scenes.left3;
            w_tree_u :=
              F32.div
                (F32.mul Scenes.u_005
                   (F32.add
                      (light_tree_cluster_importance Scenes.R Scenes.P0 Scenes.N0
                         Scenes.left3)
                      (light_tree_cluster_importance Scenes.R Scenes.P0 Scenes.N0
                         Scenes.right3)))
                (light_tree_cluster_importance Scenes.R Scenes.P0 Scenes.N0 Scenes.left3);
            w_pdf_factor :=
              F32.mul F32.one
                (F32.div
                   (light_tree_cluster_importance Scenes.R Scenes.P0 Scenes.N0
                      Scenes.left3)
                   (F32.add
                      (light_tree_cluster_importance Scenes.R Scenes.P0 Scenes.N0
                         Scenes.left3)
                      (light_tree_cluster_importance Scenes.R Scenes.P0 Scenes.N0
                         Scenes.right3))) |}.
Proof.
  split; [reflexivity | ].
  split; [reflexivity | ].
  split; [reflexivity | ].
  split; [vm_compute; reflexivity | ].
  split; [discriminate | ].
  apply (proj1 (proj2 (proj2
           (interior_step_splits_by_importance Scenes.R Scenes.tree3 0 Scenes.P0
              Scenes.N0 0 Scenes.root3 Scenes.left3 Scenes.right3 Scenes.u_005 F32.one
              ltac:(reflexivity) ltac:(reflexivity) ltac:(reflexivity))))).
  - vm_compute; reflexivity.
  - discriminate.
Defined.

(** ** The leaf *)

Section LeafFacts.
Variable E : Externals.
Variable kg : KernelGlobals.
Local Open Scope f32_scope.

(** Resolving the selected emitter leaves [pdf_factor] alone. *)
Lemma sample_emitter_pdf_factor (in_volume_segment : bool)
    (randu randv time : float) (P : float3) (bounce path_flag : Z)
    (ls : LightSample) (pdf_factor : float) (prim_index : Z) (r : sample_result) :
  sample_emitter E kg in_volume_segment randu randv time P bounce path_flag
    ls pdf_factor prim_index = Normal r ->
  sr_pdf_factor r = pdf_factor.
Proof.
  unfold sample_emitter.
  destruct (kernel_data_fetch (light_distribution kg) prim_index)
    as [kdistribution | | | ]; cbn [bind]; try discriminate.
  destruct (0 <=? prim kdistribution)%Z.
  - destruct (negb _).
    + destruct (kernel_data_fetch (object_flag kg) _) as [flag | | | ];
        cbn [bind]; try discriminate.
      destruct (Z.land flag _ =? 0)%Z; intros H; injection H as <-; reflexivity.
    + cbn [bind]. intros H; injection H as <-; reflexivity.
  - destruct (light_select_reached_max_bounces E _ _ bounce).
    + intros H; injection H as <-; reflexivity.
    + destruct (light_sample E _ _ _ _ _ _ _ _) as [ok ls1].
      intros H; injection H as <-; reflexivity.
Qed.

(** When the CDF walk selects an emitter, it is one of the run it walks,
    and [pdf_factor] is multiplied by that emitter's normalized
    importance. *)
Lemma emitter_cdf_walk_selects (n : nat) (in_volume_segment : bool)
    (randu randv time : float) (N P : float3) (bounce path_flag : Z)
    (ls : LightSample) (pdf_factor : float) (knode : KernelLightTreeNode)
    (tree_u inv_total_importance : float) :
  forall (i : Z) (emitter_cdf : float) (r : sample_result),
    emitter_cdf_walk E kg n in_volume_segment randu randv time N P bounce path_flag
      ls pdf_factor knode tree_u inv_total_importance i emitter_cdf = Normal (Some r) ->
    exists (j : Z) (importance : float),
      (i <= j < i + Z.of_nat n)%Z /\
      light_tree_emitter_importance E kg P N (- child_index knode + j)%Z
      = Normal importance /\
      sample_emitter E kg in_volume_segment randu randv time P bounce path_flag ls
        (pdf_factor * (importance * inv_total_importance))
        (- child_index knode + j)%Z = Normal r /\
      sr_pdf_factor r = pdf_factor * (importance * inv_total_importance).
Proof.
  induction n as [ | n IH]; intros i emitter_cdf r; cbn [emitter_cdf_walk].
  - discriminate.
  - destruct (light_tree_emitter_importance E kg P N (- child_index knode + i)%Z)
      as [importance | | | ] eqn:Himp; cbn [bind]; try discriminate.
    destruct (tree_u <? _).
    + destruct (sample_emitter E kg _ _ _ _ _ _ _ _ _ _) as [r' | | | ] eqn:Hs;
        cbn [bind]; try discriminate.
      intros H; injection H as <-.
      exists i, importance. split; [lia | ]. split; [exact Himp | ].
      split; [exact Hs | ].
      eapply sample_emitter_pdf_factor; exact Hs.
    + intros H. apply IH in H. destruct H as (j & imp & Hj & Hi & Hs & Hp).
      exists j, imp. split; [lia | ]. repeat split; assumption.
Qed.

(** When the CDF walk runs to its end, the light sample and [pdf_factor]
    are as they were, and the code after the loop is the [assert]. *)
Lemma sample_leaf_exhausted (in_volume_segment : bool)
    (randu randv time : float) (N P : float3) (bounce path_flag : Z)
    (ls : LightSample) (w : walk) (total : float) :
  sum_emitter_importance E kg (Z.to_nat (num_prims (w_knode w))) P N (w_knode w)
    0 F32.zero = Normal total ->
  (total =? F32.zero) = false ->
  emitter_cdf_walk E kg (Z.to_nat (num_prims (w_knode w))) in_volume_segment
    randu randv time N P bounce path_flag ls (w_pdf_factor w) (w_knode w)
    (w_tree_u w) (F32.one / total) 0 F32.zero = Normal None ->
  sample_leaf E kg in_volume_segment randu randv time N P bounce path_flag ls w =
  if ndebug E
  then Normal {| sr_ret := Returned false; sr_ls := ls;
                 sr_pdf_factor := w_pdf_factor w |}
  else AssertFailure.
Proof.
  intros Hsum Hnz Hwalk. unfold sample_leaf.
  rewrite Hsum. cbn [bind]. rewrite Hnz, Hwalk. reflexivity.
Qed.

(** A leaf whose total importance is exactly 0 makes the sampler return
    [false], for every [u], without a division and without touching the
    light sample. *)
Lemma sample_leaf_zero_importance (in_volume_segment : bool)
    (randu randv time : float) (N P : float3) (bounce path_flag : Z)
    (ls : LightSample) (w : walk) (total : float) :
  sum_emitter_importance E kg (Z.to_nat (num_prims (w_knode w))) P N (w_knode w)
    0 F32.zero = Normal total ->
  (total =? F32.zero) = true ->
  sample_leaf E kg in_volume_segment randu randv time N P bounce path_flag ls w =
  Normal {| sr_ret := Returned false; sr_ls := ls;
            sr_pdf_factor := w_pdf_factor w |}.
Proof.
  intros Hsum Hz. unfold sample_leaf. rewrite Hsum. cbn [bind]. rewrite Hz.
  reflexivity.
Qed.

Lemma sample_leaf_selected (in_volume_segment : bool)
    (randu randv time : float) (N P : float3) (bounce path_flag : Z)
    (ls : LightSample) (w : walk) (total : float) (r : sample_result) :
  sum_emitter_importance E kg (Z.to_nat (num_prims (w_knode w))) P N (w_knode w)
    0 F32.zero = Normal total ->
  (total =? F32.zero) = false ->
  emitter_cdf_walk E kg (Z.to_nat (num_prims (w_knode w))) in_volume_segment
    randu randv time N P bounce path_flag ls (w_pdf_factor w) (w_knode w)
    (w_tree_u w) (F32.one / total) 0 F32.zero = Normal (Some r) ->
  sample_leaf E kg in_volume_segment randu randv time N P bounce path_flag ls w =
  Normal r.
Proof.
  intros Hsum Hnz Hwalk. unfold sample_leaf.
  rewrite Hsum. cbn [bind]. rewrite Hnz, Hwalk. reflexivity.
Qed.

End LeafFacts.

Lemma fold_left_mul_snoc (ps : list float) (p acc : float) :
  fold_left F32.mul (ps ++ [p]) acc = F32.mul (fold_left F32.mul ps acc) p.
Proof. rewrite fold_left_app. reflexivity. Qed.

(** C2, as amended. For every call of [light_tree_sample] that selects an
    emitter (the one at position [j] of the leaf's run, which
    [sample_emitter] then resolves), the accumulated [pdf_factor] is the
    product, taken from 1 in the order of the descent, of the probability of
    the branch taken at each interior node and of the selected emitter's
    normalized importance [importance * (1 / total)]; for a tree whose root
    is a leaf with one emitter, that is the rounded product
    [1 * (importance * (1 / (0 + importance)))]. *)
Theorem pdf_factor_is_product_of_choices
    (E : Externals) (kg : KernelGlobals) (fuel : nat) (in_volume_segment : bool)
    (rng_state : RNGState E) (randu randv time : float) (N P : float3)
    (bounce path_flag : Z) (ls : LightSample)
    (root : KernelLightTreeNode) (w : walk) (total : float) (r : sample_result) :
  let u := path_state_rng_1D E kg rng_state 1 in
  let n := Z.to_nat (num_prims (w_knode w)) in
  kernel_data_fetch (light_tree_nodes kg) 0 = Normal root ->
  traverse E kg fuel P N 0 root u F32.one = Normal w ->
  sum_emitter_importance E kg n P N (w_knode w) 0 F32.zero = Normal total ->
  F32.eqb total F32.zero = false ->
  emitter_cdf_walk E kg n in_volume_segment randu randv time N P bounce path_flag
    ls (w_pdf_factor w) (w_knode w) (w_tree_u w) (F32.div F32.one total) 0 F32.zero
  = Normal (Some r) ->
  light_tree_sample E kg fuel in_volume_segment rng_state randu randv time N P
    bounce path_flag ls = Normal r /\
  exists (j : Z) (importance : float),
    (0 <= j < num_prims (w_knode w))%Z /\
    light_tree_emitter_importance E kg P N (- child_index (w_knode w) + j)%Z
    = Normal importance /\
    sample_emitter E kg in_volume_segment randu randv time P bounce path_flag ls
      (F32.mul (w_pdf_factor w) (F32.mul importance (F32.div F32.one total)))
      (- child_index (w_knode w) + j)%Z = Normal r /\
    sr_pdf_factor r =
    Spec.product (Spec.branch_probabilities E kg fuel P N 0 root u
                  ++ [F32.mul importance (F32.div F32.one total)]) /\
    ((child_index root <= 0)%Z -> num_prims root = 1%Z ->
     sr_pdf_factor r =
     F32.mul F32.one
       (F32.mul importance (F32.div F32.one (F32.add F32.zero importance)))).
Proof.
  intros u n Hroot Htrav Hsum Hnz Hwalk.
  split.
  - unfold light_tree_sample. rewrite Hroot. cbn [bind]. fold u. rewrite Htrav.
    cbn [bind]. eapply sample_leaf_selected; eassumption.
  - destruct (emitter_cdf_walk_selects E kg _ _ _ _ _ _ _ _ _ _ _ _ _ _ _ _ _ Hwalk)
      as (j & importance & Hj & Himp & Hsel & Hpdf).
    exists j, importance.
    split; [subst n; lia | ].
    split; [exact Himp | ].
    split; [exact Hsel | ].
    assert (Hprod : sr_pdf_factor r =
                    Spec.product (Spec.branch_probabilities E kg fuel P N 0 root u
                                  ++ [F32.mul importance (F32.div F32.one total)])).
    { unfold Spec.product. rewrite fold_left_mul_snoc, Hpdf.
      rewrite (traverse_pdf_factor E kg fuel P N 0 root u F32.one w Htrav).
      reflexivity. }
    split; [exact Hprod | ].
    intros Hleaf Hone.
    assert (Hc : (0 <? child_index root)%Z = false) by (apply Z.ltb_ge; exact Hleaf).
    rewrite (traverse_leaf E kg fuel P N 0 root u F32.one Hc) in Htrav.
    injection Htrav as <-. cbn [w_knode w_pdf_factor w_tree_u] in *.
    subst n. rewrite Hone in *. change (Z.to_nat 1) with 1%nat in *.
    cbn [sum_emitter_importance] in Hsum.
    assert (j = 0%Z) by lia. subst j.
    rewrite Himp in Hsum. cbn [bind] in Hsum. injection Hsum as <-.
    exact Hpdf.
Qed.

Lemma pdf_factor_product_witness :
  kernel_data_fetch (light_tree_nodes Scenes.tree3) 0 = Normal Scenes.root3 /\
  traverse Scenes.R Scenes.tree3 1 Scenes.P0 Scenes.N0 0 Scenes.root3
    Scenes.u_005 F32.one = Normal Runs.walk3 /\
  sum_emitter_importance Scenes.R Scenes.tree3 1 Scenes.P0 Scenes.N0
    (w_knode Runs.walk3) 0 F32.zero = Normal Runs.total3 /\
  F32.eqb Runs.total3 F32.zero = false /\
  light_tree_sample Scenes.R Scenes.tree3 1 false Scenes.u_005 F32.half F32.half
    F32.zero Scenes.N0 Scenes.P0 0 0 Scenes.ls0 = Normal Runs.result3 /\
  sr_pdf_factor Runs.result3 =
  Spec.product (Spec.branch_probabilities Scenes.R Scenes.tree3 1 Scenes.P0 Scenes.N0
                  0 Scenes.root3 Scenes.u_005
                ++ [F32.mul Runs.total3 (F32.div F32.one Runs.total3)]).
Proof.
  split; [reflexivity | ].
  split; [vm_compute; reflexivity | ].
  split; [vm_compute; reflexivity | ].
  split; [vm_compute; reflexivity | ].
  destruct (pdf_factor_is_product_of_choices Scenes.R Scenes.tree3 1 false
              Scenes.u_005 F32.half F32.half F32.zero Scenes.N0 Scenes.P0 0 0 Scenes.ls0
              Scenes.root3 Runs.walk3 Runs.total3 Runs.result3)
    as [Hrun _]; try (vm_compute; reflexivity).
  split; [exact Hrun | vm_compute; reflexivity].
Defined.

(** C2, as stated, fails on its last clause: the tree is one leaf with one
    lamp whose importance is 82; the lamp is selected and [pdf_factor] is
    82 * (1 / 82), which rounds to the float below 1. *)
Lemma single_emitter_pdf_factor_below_one :
  light_tree_emitter_importance Scenes.R (Scenes.single_leaf (Scenes.f 41))
    Scenes.P0 Scenes.N0 0 = Normal (Scenes.f 82) /\
  light_tree_sample Scenes.R (Scenes.single_leaf (Scenes.f 41)) 0 false
    F32.half F32.half F32.half F32.zero Scenes.N0 Scenes.P0 0 0 Scenes.ls0 =
  Normal {| sr_ret := Returned true;
            sr_ls := Runs.lamp_sample 0 F32.half;
            sr_pdf_factor := Scenes.u_max |} /\
  F32.eqb Scenes.u_max F32.one = false.
Proof. repeat split; vm_compute; reflexivity. Qed.

(** With an importance of 2 the same tree gives exactly 1. *)
Example single_emitter_pdf_factor_one :
  light_tree_sample Scenes.R (Scenes.single_leaf (Scenes.f 1)) 0 false
    F32.half F32.half F32.half F32.zero Scenes.N0 Scenes.P0 0 0 Scenes.ls0 =
  Normal {| sr_ret := Returned true;
            sr_ls := Runs.lamp_sample 0 F32.half;
            sr_pdf_factor := F32.one |}.
Proof. vm_compute; reflexivity. Qed.

(** The end-to-end scenario of the specification: energies 10 and 1, the
    shading point symmetric to both leaves.  The left probability is about
    0.909; 0.05 selects the left lamp and 0.95 the right one. *)
Example scenario_left :
  sr_ls Runs.result3 = Runs.lamp_sample 0 F32.half /\
  sr_ret Runs.result3 = Returned true.
Proof. split; vm_compute; reflexivity. Qed.

Example scenario_right :
  exists pdf_factor : float,
    light_tree_sample Scenes.R Scenes.tree3 1 false Scenes.u_095 F32.half F32.half
      F32.zero Scenes.N0 Scenes.P0 0 0 Scenes.ls0 =
    Normal {| sr_ret := Returned true;
              sr_ls := Runs.lamp_sample 1 F32.half;
              sr_pdf_factor := pdf_factor |}.
Proof. eexists. vm_compute. reflexivity. Qed.

(** ** Zero importance and exhausted walks *)

(** In [light_tree_sample] a leaf of total importance 0 is a plain
    failure: [false] is returned before [1 / total] is computed. *)
Lemma light_tree_sample_zero_importance
    (E : Externals) (kg : KernelGlobals) (fuel : nat) (in_volume_segment : bool)
    (rng_state : RNGState E) (randu randv time : float) (N P : float3)
    (bounce path_flag : Z) (ls : LightSample)
    (root : KernelLightTreeNode) (w : walk) (total : float) :
  kernel_data_fetch (light_tree_nodes kg) 0 = Normal root ->
  traverse E kg fuel P N 0 root (path_state_rng_1D E kg rng_state 1) F32.one = Normal w ->
  sum_emitter_importance E kg (Z.to_nat (num_prims (w_knode w))) P N (w_knode w)
    0 F32.zero = Normal total ->
  F32.eqb total F32.zero = true ->
  light_tree_sample E kg fuel in_volume_segment rng_state randu randv time N P
    bounce path_flag ls =
  Normal {| sr_ret := Returned false; sr_ls := ls; sr_pdf_factor := w_pdf_factor w |}.
Proof.
  intros Hroot Htrav Hsum Hz.
  unfold light_tree_sample. rewrite Hroot. cbn [bind]. rewrite Htrav. cbn [bind].
  eapply sample_leaf_zero_importance; eassumption.
Qed.

(** In [light_tree_sample] an exhausted CDF walk ends at the [assert]: a
    debug build stops there, a release build returns [false]. *)
Lemma light_tree_sample_exhausted
    (E : Externals) (kg : KernelGlobals) (fuel : nat) (in_volume_segment : bool)
    (rng_state : RNGState E) (randu randv time : float) (N P : float3)
    (bounce path_flag : Z) (ls : LightSample)
    (root : KernelLightTreeNode) (w : walk) (total : float) :
  kernel_data_fetch (light_tree_nodes kg) 0 = Normal root ->
  traverse E kg fuel P N 0 root (path_state_rng_1D E kg rng_state 1) F32.one = Normal w ->
  sum_emitter_importance E kg (Z.to_nat (num_prims (w_knode w))) P N (w_knode w)
    0 F32.zero = Normal total ->
  F32.eqb total F32.zero = false ->
  emitter_cdf_walk E kg (Z.to_nat (num_prims (w_knode w))) in_volume_segment
    randu randv time N P bounce path_flag ls (w_pdf_factor w) (w_knode w)
    (w_tree_u w) (F32.div F32.one total) 0 F32.zero = Normal None ->
  light_tree_sample E kg fuel in_volume_segment rng_state randu randv time N P
    bounce path_flag ls =
  if ndebug E
  then Normal {| sr_ret := Returned false; sr_ls := ls; sr_pdf_factor := w_pdf_factor w |}
  else AssertFailure.
Proof.
  intros Hroot Htrav Hsum Hnz Hwalk.
  unfold light_tree_sample. rewrite Hroot. cbn [bind]. rewrite Htrav. cbn [bind].
  eapply sample_leaf_exhausted; eassumption.
Qed.

(** The scenario of the specification: a leaf whose two emitters have
    energy 0 fails for every random number. *)
Example zero_energy_leaf_fails (u randu randv time : float) :
  light_tree_sample Scenes.R Scenes.zero_energy_leaf 0 false u randu randv time
    Scenes.N0 Scenes.P0 0 0 Scenes.ls0 =
  Normal {| sr_ret := Returned false; sr_ls := Scenes.ls0; sr_pdf_factor := F32.one |}.
Proof. vm_compute; reflexivity. Qed.

(** C5. The distant-light sampler on a list whose total importance is
    exactly 0 (one distant light of energy 0): it divides 1 by 0, the
    normalized importance is 0 * infinity = NaN, no [u] is below the NaN
    CDF, and control reaches the end of the function body, where there is
    no [return]: no [false] is returned. *)
Theorem distant_zero_importance_no_return
    (E : Externals) (in_volume_segment : bool) (rng_state : RNGState E)
    (randu randv time : float) (N P : float3) (bounce path_flag : Z)
    (ls : LightSample) (pdf_factor : float) :
  F32.div F32.one F32.zero = F32.infinity /\
  F32.mul F32.zero F32.infinity = F32.nan /\
  light_tree_sample_distant_lights E (Scenes.distant_only [F32.zero])
    in_volume_segment rng_state randu randv time N P bounce path_flag ls pdf_factor =
  Normal {| sr_ret := NoReturnValue; sr_ls := ls; sr_pdf_factor := pdf_factor |}.
Proof.
  split; [reflexivity | ]. split; [reflexivity | ].
  unfold light_tree_sample_distant_lights.
  change (Z.to_nat (num_distant_lights (Scenes.distant_only [F32.zero]))) with 1%nat.
  cbn [sum_distant_importance distant_cdf_walk bind].
  change (light_tree_distant_light_importance (Scenes.distant_only [F32.zero]) P N 0)
    with (Normal F32.zero).
  cbn [bind].
  change (F32.add F32.zero (F32.mul F32.zero
            (F32.div F32.one (F32.add F32.zero F32.zero)))) with F32.nan.
  rewrite ltb_nan_r. reflexivity.
Qed.

(** The walk through [dark_children], for every implementation of the
    collaborators, every shading point and every [u]. *)
Lemma dark_children_traverse
    (E : Externals) (P N : float3) (u pdf_factor : float) :
  traverse E Scenes.dark_children 1 P N 0 Scenes.dark_root u pdf_factor =
  Normal {| w_index := 2; w_knode := Scenes.dark_right;
            w_tree_u := F32.nan; w_pdf_factor := F32.nan |}.
Proof.
  rewrite (traverse_interior E Scenes.dark_children 0 P N 0 Scenes.dark_root
             Scenes.dark_left Scenes.dark_right u pdf_factor);
    try reflexivity.
  replace (light_tree_cluster_importance E P N Scenes.dark_left) with F32.zero
    by (symmetry; apply zero_theta_e_importance).
  replace (light_tree_cluster_importance E P N Scenes.dark_right) with F32.zero
    by (symmetry; apply zero_theta_e_importance).
  cbv zeta.
  change (F32.div F32.zero (F32.add F32.zero F32.zero)) with F32.nan.
  rewrite ltb_nan_r.
  change (child_index Scenes.dark_root) with 2%Z.
  rewrite traverse_leaf by reflexivity.
  f_equal. f_equal.
  - destruct u as [[ | ] | [ | ] | | [ | ] m e]; reflexivity.
  - destruct pdf_factor as [[ | ] | [ | ] | | [ | ] m e]; reflexivity.
Qed.

(** After such a split no emitter can be selected: with [u] NaN every
    comparison of the CDF walk fails, so the sampler either finds the leaf
    without importance or runs into the [assert] that is meant to be
    unreachable. *)
Lemma dark_children_sample
    (E : Externals) (in_volume_segment : bool) (rng_state : RNGState E)
    (randu randv time : float) (N P : float3) (bounce path_flag : Z)
    (ls : LightSample) :
  let importance :=
    light_tree_node_importance E P N (Scenes.v3 1 (-1) 0) (Scenes.v3 3 1 0)
      (Scenes.v3 0 0 1) F32.zero Scenes.pi_2 (Scenes.f 1) in
  light_tree_sample E Scenes.dark_children 1 in_volume_segment rng_state
    randu randv time N P bounce path_flag ls =
  if F32.eqb (F32.add F32.zero importance) F32.zero || ndebug E
  then Normal {| sr_ret := Returned false; sr_ls := ls; sr_pdf_factor := F32.nan |}
  else AssertFailure.
Proof.
  intros importance. unfold light_tree_sample.
  change (kernel_data_fetch (light_tree_nodes Scenes.dark_children) 0)
    with (Normal Scenes.dark_root).
  cbn [bind]. rewrite dark_children_traverse. cbn [bind].
  unfold sample_leaf. cbn [w_knode w_pdf_factor w_tree_u].
  change (Z.to_nat (num_prims Scenes.dark_right)) with 1%nat.
  cbn [sum_emitter_importance emitter_cdf_walk].
  change (light_tree_emitter_importance E Scenes.dark_children P N
            (- child_index Scenes.dark_right + 0)%Z)
    with (Normal importance).
  cbn [bind].
  destruct (F32.eqb (F32.add F32.zero importance) F32.zero); [reflexivity | ].
  cbn [orb]. reflexivity.
Qed.

(** C6. An interior node whose two children have importance 0 (their
    [theta_e] is 0, so the cutoff applies at every shading point): the
    split divides 0 by 0, the comparison with NaN sends the walk to the
    right child, and both [u] and [pdf_factor] become NaN; no emitter is
    selected then, and the sampler returns [false] with a NaN [pdf_factor]
    or stops at the [assert] after the CDF walk. *)
Theorem zero_importance_children_poison_the_walk
    (E : Externals) (in_volume_segment : bool) (rng_state : RNGState E)
    (randu randv time : float) (N P : float3) (bounce path_flag : Z)
    (ls : LightSample) (u pdf_factor : float) :
  light_tree_cluster_importance E P N Scenes.dark_left = F32.zero /\
  light_tree_cluster_importance E P N Scenes.dark_right = F32.zero /\
  F32.div F32.zero (F32.add F32.zero F32.zero) = F32.nan /\
  traverse E Scenes.dark_children 1 P N 0 Scenes.dark_root u pdf_factor =
  Normal {| w_index := 2; w_knode := Scenes.dark_right;
            w_tree_u := F32.nan; w_pdf_factor := F32.nan |} /\
  (light_tree_sample E Scenes.dark_children 1 in_volume_segment rng_state
     randu randv time N P bounce path_flag ls =
   Normal {| sr_ret := Returned false; sr_ls := ls; sr_pdf_factor := F32.nan |}
   \/
   light_tree_sample E Scenes.dark_children 1 in_volume_segment rng_state
     randu randv time N P bounce path_flag ls = AssertFailure).
Proof.
  split; [apply zero_theta_e_importance | ].
  split; [apply zero_theta_e_importance | ].
  split; [reflexivity | ].
  split; [apply dark_children_traverse | ].
  rewrite dark_children_sample. cbv zeta.
  destruct (_ || _); [left | right]; reflexivity.
Qed.

(** In a debug build of the reference collaborators the [assert] fires. *)
Example zero_importance_children_assert :
  light_tree_sample Scenes.R_debug Scenes.dark_children 1 false Scenes.u_005
    F32.half F32.half F32.zero Scenes.N0 Scenes.P0 0 0 Scenes.ls0 = AssertFailure.
Proof. vm_compute; reflexivity. Qed.

(** The same with ordinary lights: two area lights with [theta_e = pi/2]
    that face away from the shading point.  Both clusters are cut off, the
    split is 0/0, and the dispatcher leaves a NaN pdf in the light sample. *)
Example lights_facing_away :
  light_tree_cluster_importance Scenes.R Scenes.P_away Scenes.N_away Scenes.wall_left
  = F32.zero /\
  light_tree_cluster_importance Scenes.R Scenes.P_away Scenes.N_away Scenes.wall_right
  = F32.zero /\
  traverse Scenes.R Scenes.walls 1 Scenes.P_away Scenes.N_away 0 Scenes.wall_root
    Scenes.u_005 F32.one =
  Normal {| w_index := 2; w_knode := Scenes.wall_right;
            w_tree_u := F32.nan; w_pdf_factor := F32.nan |} /\
  light_tree_sample_from_position Scenes.R Scenes.walls 1 Scenes.u_005
    F32.half F32.half F32.zero Scenes.P_away Scenes.N_away 0 0 Scenes.ls0 =
  Normal (Returned false, set_pdf Scenes.ls0 F32.nan).
Proof. repeat split; vm_compute; reflexivity. Qed.

(** C7. The distant-light sampler on one distant light of energy 41, with
    the random number just below 1: the normalized importance is
    41 * (1 / 41), which rounds to that same number, so the CDF walk ends
    without a selection; there is no [assert] and no [return] after the
    loop, and control reaches the end of the function body. *)
Theorem distant_walk_exhausted_no_return
    (E : Externals) (in_volume_segment : bool) (rng_state : RNGState E)
    (randu randv time : float) (N P : float3) (bounce path_flag : Z)
    (ls : LightSample) (pdf_factor : float) :
  path_state_rng_1D E (Scenes.distant_only [Scenes.f 41]) rng_state 1 = Scenes.u_max ->
  F32.ltb Scenes.u_max F32.one = true /\
  light_tree_sample_distant_lights E (Scenes.distant_only [Scenes.f 41])
    in_volume_segment rng_state randu randv time N P bounce path_flag ls pdf_factor =
  Normal {| sr_ret := NoReturnValue; sr_ls := ls; sr_pdf_factor := pdf_factor |}.
Proof.
  intros Hu. split; [reflexivity | ].
  unfold light_tree_sample_distant_lights.
  change (Z.to_nat (num_distant_lights (Scenes.distant_only [Scenes.f 41]))) with 1%nat.
  cbn [sum_distant_importance distant_cdf_walk bind].
  change (light_tree_distant_light_importance (Scenes.distant_only [Scenes.f 41]) P N 0)
    with (Normal (Scenes.f 41)).
  cbn [bind]. rewrite Hu.
  change (F32.ltb Scenes.u_max
            (F32.add F32.zero
               (F32.mul (Scenes.f 41)
                  (F32.div F32.one (F32.add F32.zero (Scenes.f 41))))))
    with false.
  reflexivity.
Qed.

Lemma distant_walk_exhausted_witness :
  path_state_rng_1D Scenes.R (Scenes.distant_only [Scenes.f 41]) Scenes.u_max 1
  = Scenes.u_max /\
  light_tree_sample_distant_lights Scenes.R (Scenes.distant_only [Scenes.f 41])
    false Scenes.u_max F32.half F32.half F32.zero Scenes.N0 Scenes.P0 0 0
    Scenes.ls0 F32.one =
  Normal {| sr_ret := NoReturnValue; sr_ls := Scenes.ls0; sr_pdf_factor := F32.one |}.
Proof.
  split; [reflexivity | ].
  apply (distant_walk_exhausted_no_return Scenes.R false Scenes.u_max);
    reflexivity.
Defined.

(** The same numbers in the leaf of [light_tree_sample]: the walk is
    exhausted as well, and there the [assert] and the [return false] after
    the loop take over. *)
Example leaf_walk_exhausted_release :
  light_tree_sample Scenes.R (Scenes.single_leaf (Scenes.f 41)) 0 false
    Scenes.u_max F32.half F32.half F32.zero Scenes.N0 Scenes.P0 0 0 Scenes.ls0 =
  Normal {| sr_ret := Returned false; sr_ls := Scenes.ls0; sr_pdf_factor := F32.one |}.
Proof. vm_compute; reflexivity. Qed.

Example leaf_walk_exhausted_debug :
  light_tree_sample Scenes.R_debug (Scenes.single_leaf (Scenes.f 41)) 0 false
    Scenes.u_max F32.half F32.half F32.zero Scenes.N0 Scenes.P0 0 0 Scenes.ls0 =
  AssertFailure.
Proof. vm_compute; reflexivity. Qed.

(** ** How a sample is resolved *)

Section ResolveFacts.
Variable E : Externals.
Variable kg : KernelGlobals.
Local Open Scope f32_scope.

(** The four ways out of [sample_emitter]. *)
Lemma sample_emitter_cases (in_volume_segment : bool)
    (randu randv time : float) (P : float3) (bounce path_flag : Z)
    (ls : LightSample) (pdf_factor : float) (prim_index : Z) (r : sample_result) :
  sample_emitter E kg in_volume_segment randu randv time P bounce path_flag
    ls pdf_factor prim_index = Normal r ->
  exists kdistribution : KernelLightDistribution,
    kernel_data_fetch (light_distribution kg) prim_index = Normal kdistribution /\
    let prim := prim kdistribution in
    let object := mesh_light_object_id kdistribution in
    let lamp := (- prim - 1)%Z in
    let ls1 := triangle_light_sample E kg in_volume_segment prim object
                 randu randv time ls P in
    let ls2 := set_shader ls1 (Z.lor (ls_shader ls1) (mesh_light_shader_flag kdistribution)) in
    ((0 <= prim)%Z /\ Z.land path_flag (PATH_RAY_SHADOW_CATCHER_PASS E) <> 0%Z /\
     sr_ret r = Returned false /\ sr_ls r = ls) \/
    ((0 <= prim)%Z /\ sr_ret r = Returned (F32.zero <? ls_pdf ls2) /\ sr_ls r = ls2) \/
    ((prim < 0)%Z /\ light_select_reached_max_bounces E kg lamp bounce = true /\
     sr_ret r = Returned false /\ sr_ls r = ls) \/
    ((prim < 0)%Z /\ light_select_reached_max_bounces E kg lamp bounce = false /\
     light_sample E kg in_volume_segment lamp randu randv P path_flag ls
     = (match sr_ret r with Returned ok => ok | NoReturnValue => false end, sr_ls r) /\
     sr_ret r <> NoReturnValue).
Proof.
  unfold sample_emitter.
  destruct (kernel_data_fetch (light_distribution kg) prim_index)
    as [kdistribution | | | ]; cbn [bind]; try discriminate.
  intros H. exists kdistribution. split; [reflexivity | ]. cbv zeta.
  destruct (0 <=? prim kdistribution)%Z eqn:Hprim.
  - apply Z.leb_le in Hprim.
    destruct (Z.land path_flag (PATH_RAY_SHADOW_CATCHER_PASS E) =? 0)%Z eqn:Hpass;
      cbn [negb bind] in H.
    + injection H as <-. right; left. repeat split; assumption.
    + apply Z.eqb_neq in Hpass.
      destruct (kernel_data_fetch (object_flag kg) _) as [flag | | | ];
        cbn [bind] in H; try discriminate.
      destruct (Z.land flag _ =? 0)%Z; injection H as <-.
      * left. repeat split; assumption.
      * right; left. repeat split; assumption.
  - apply Z.leb_gt in Hprim.
    destruct (light_select_reached_max_bounces E _ _ bounce) eqn:Hb.
    + injection H as <-. right; right; left. repeat split; assumption.
    + destruct (light_sample E _ _ _ _ _ _ _ _) as [ok ls1] eqn:Hs.
      injection H as <-. right; right; right. cbn.
      repeat split; try assumption. discriminate.
Qed.

(** The three ways out of the code after the traversal. *)
Lemma sample_leaf_cases (in_volume_segment : bool)
    (randu randv time : float) (N P : float3) (bounce path_flag : Z)
    (ls : LightSample) (w : walk) (r : sample_result) :
  sample_leaf E kg in_volume_segment randu randv time N P bounce path_flag ls w
  = Normal r ->
  (sr_ret r = Returned false /\ sr_ls r = ls) \/
  exists (prim_index : Z) (pdf_factor : float),
    sample_emitter E kg in_volume_segment randu randv time P bounce path_flag
      ls pdf_factor prim_index = Normal r.
Proof.
  unfold sample_leaf.
  destruct (sum_emitter_importance E kg _ P N (w_knode w) 0 F32.zero)
    as [total | | | ]; cbn [bind]; try discriminate.
  destruct (total =? F32.zero).
  - intros H; injection H as <-. left. split; reflexivity.
  - destruct (emitter_cdf_walk E kg _ _ _ _ _ _ _ _ _ _ _ _ _ _ _ _)
      as [[res | ] | | | ] eqn:Hwalk; cbn [bind]; try discriminate.
    + intros H; injection H as <-.
      destruct (emitter_cdf_walk_selects E kg _ _ _ _ _ _ _ _ _ _ _ _ _ _ _ _ _ Hwalk)
        as (j & importance & _ & _ & Hsel & _).
      right. eexists. eexists. exact Hsel.
    + destruct (ndebug E); [ | discriminate].
      intros H; injection H as <-. left. split; reflexivity.
Qed.

Lemma light_tree_sample_cases (fuel : nat) (in_volume_segment : bool)
    (rng_state : RNGState E) (randu randv time : float) (N P : float3)
    (bounce path_flag : Z) (ls : LightSample) (r : sample_result) :
  light_tree_sample E kg fuel in_volume_segment rng_state randu randv time N P
    bounce path_flag ls = Normal r ->
  (sr_ret r = Returned false /\ sr_ls r = ls) \/
  exists (prim_index : Z) (pdf_factor : float),
    sample_emitter E kg in_volume_segment randu randv time P bounce path_flag
      ls pdf_factor prim_index = Normal r.
Proof.
  unfold light_tree_sample.
  destruct (kernel_data_fetch (light_tree_nodes kg) 0) as [root | | | ];
    cbn [bind]; try discriminate.
  destruct (traverse E kg fuel P N 0 root _ F32.one) as [w | | | ];
    cbn [bind]; try discriminate.
  apply sample_leaf_cases.
Qed.

Lemma land_lor_same (a b : Z) : Z.land (Z.lor a b) b = b.
Proof.
  apply Z.bits_inj'. intros n _. rewrite Z.land_spec, Z.lor_spec.
  destruct (Z.testbit a n), (Z.testbit b n); reflexivity.
Qed.

(** What a failed call of [light_tree_sample] leaves in the light
    sample. *)
Lemma light_tree_sample_failure_cases (fuel : nat) (in_volume_segment : bool)
    (rng_state : RNGState E) (randu randv time : float) (N P : float3)
    (bounce path_flag : Z) (ls : LightSample) (r : sample_result) :
  light_tree_sample E kg fuel in_volume_segment rng_state randu randv time N P
    bounce path_flag ls = Normal r ->
  sr_ret r = Returned false ->
  sr_ls r = ls \/
  (exists prim object shader_flag : Z,
      (0 <= prim)%Z /\
      ls_pdf (sr_ls r) =
      ls_pdf (triangle_light_sample E kg in_volume_segment prim object
                randu randv time ls P) /\
      ls_shader (sr_ls r) =
      Z.lor (ls_shader (triangle_light_sample E kg in_volume_segment prim object
                          randu randv time ls P)) shader_flag /\
      F32.ltb F32.zero (ls_pdf (sr_ls r)) = false) \/
  (exists lamp : Z,
      light_sample E kg in_volume_segment lamp randu randv P path_flag ls
      = (false, sr_ls r)).
Proof.
  intros Hrun Hfalse.
  destruct (light_tree_sample_cases _ _ _ _ _ _ _ _ _ _ _ _ Hrun)
    as [[_ Hls] | (prim_index & pdf_factor & Hsel)]; [left; exact Hls | ].
  destruct (sample_emitter_cases _ _ _ _ _ _ _ _ _ _ _ Hsel)
    as (kd & Hfetch & Hcases). cbv zeta in Hcases.
  destruct Hcases as [(_ & _ & _ & Hls) | [(Hprim & Hret & Hls)
                     | [(_ & _ & _ & Hls) | (Hprim & Hb & Hs & _)]]].
  - left; exact Hls.
  - right; left.
    exists (prim kd), (mesh_light_object_id kd), (mesh_light_shader_flag kd).
    split; [exact Hprim | ].
    rewrite Hfalse in Hret. injection Hret as Hpdf.
    rewrite Hls. cbn [ls_pdf ls_shader set_shader].
    split; [reflexivity | ]. split; [reflexivity | ].
    cbn [ls_pdf set_shader] in Hpdf. symmetry; exact Hpdf.
  - left; exact Hls.
  - right; right. exists (- prim kd - 1)%Z. rewrite Hfalse in Hs. exact Hs.
Qed.

End ResolveFacts.

(** ** What the samplers read *)

Section FrameFacts.
Variable E : Externals.
Variables kg kg' : KernelGlobals.
Hypothesis Hsame : Spec.same_collaborators E kg kg'.
Local Open Scope f32_scope.

Lemma traverse_reads_nodes (fuel : nat) (P N : float3) :
  light_tree_nodes kg' = light_tree_nodes kg ->
  forall (index : Z) (knode : KernelLightTreeNode) (u pdf_factor : float),
    traverse E kg' fuel P N index knode u pdf_factor =
    traverse E kg fuel P N index knode u pdf_factor.
Proof.
  intros Hn. induction fuel as [ | fuel IH]; intros index knode u pdf_factor;
    cbn [traverse]; [reflexivity | ].
  rewrite Hn.
  destruct (0 <? child_index knode)%Z; [ | reflexivity].
  destruct (kernel_data_fetch (light_tree_nodes kg) (index + 1)%Z)
    as [lnode | | | ]; cbn [bind]; try reflexivity.
  destruct (kernel_data_fetch (light_tree_nodes kg) (child_index knode))
    as [rnode | | | ]; cbn [bind]; try reflexivity.
  destruct (u <? _); apply IH.
Qed.

Lemma emitter_importance_reads_emitters (P N : float3) (i : Z) :
  light_tree_emitters kg' = light_tree_emitters kg ->
  light_tree_emitter_importance E kg' P N i = light_tree_emitter_importance E kg P N i.
Proof. intros He. unfold light_tree_emitter_importance. rewrite He. reflexivity. Qed.

Lemma sum_emitter_importance_reads_emitters (n : nat) (P N : float3)
    (knode : KernelLightTreeNode) :
  light_tree_emitters kg' = light_tree_emitters kg ->
  forall (i : Z) (total : float),
    sum_emitter_importance E kg' n P N knode i total =
    sum_emitter_importance E kg n P N knode i total.
Proof.
  intros He. induction n as [ | n IH]; intros i total;
    cbn [sum_emitter_importance]; [reflexivity | ].
  rewrite (emitter_importance_reads_emitters P N _ He).
  destruct (light_tree_emitter_importance E kg P N (- child_index knode + i)%Z);
    cbn [bind]; try reflexivity.
  apply IH.
Qed.

Lemma sample_emitter_reads (in_volume_segment : bool)
    (randu randv time : float) (P : float3) (bounce path_flag : Z)
    (ls : LightSample) (pdf_factor : float) (prim_index : Z) :
  light_distribution kg' = light_distribution kg ->
  object_flag kg' = object_flag kg ->
  sample_emitter E kg' in_volume_segment randu randv time P bounce path_flag
    ls pdf_factor prim_index =
  sample_emitter E kg in_volume_segment randu randv time P bounce path_flag
    ls pdf_factor prim_index.
Proof.
  intros Hd Ho. destruct Hsame as (_ & Hb & Ht & Hl).
  unfold sample_emitter. rewrite Hd, Ho.
  destruct (kernel_data_fetch (light_distribution kg) prim_index)
    as [kdistribution | | | ]; cbn [bind]; try reflexivity.
  destruct (0 <=? prim kdistribution)%Z.
  - rewrite Ht. reflexivity.
  - rewrite Hb, Hl. reflexivity.
Qed.

Lemma emitter_cdf_walk_reads (n : nat) (in_volume_segment : bool)
    (randu randv time : float) (N P : float3) (bounce path_flag : Z)
    (ls : LightSample) (pdf_factor : float) (knode : KernelLightTreeNode)
    (tree_u inv_total_importance : float) :
  light_tree_emitters kg' = light_tree_emitters kg ->
  light_distribution kg' = light_distribution kg ->
  object_flag kg' = object_flag kg ->
  forall (i : Z) (emitter_cdf : float),
    emitter_cdf_walk E kg' n in_volume_segment randu randv time N P bounce path_flag
      ls pdf_factor knode tree_u inv_total_importance i emitter_cdf =
    emitter_cdf_walk E kg n in_volume_segment randu randv time N P bounce path_flag
      ls pdf_factor knode tree_u inv_total_importance i emitter_cdf.
Proof.
  intros He Hd Ho. induction n as [ | n IH]; intros i emitter_cdf;
    cbn [emitter_cdf_walk]; [reflexivity | ].
  rewrite (emitter_importance_reads_emitters P N _ He).
  destruct (light_tree_emitter_importance E kg P N (- child_index knode + i)%Z)
    as [importance | | | ]; cbn [bind]; try reflexivity.
  destruct (tree_u <? _).
  - rewrite (sample_emitter_reads _ _ _ _ _ _ _ _ _ _ Hd Ho). reflexivity.
  - apply IH.
Qed.

(** The tree sampler depends on the kernel globals through the node,
    emitter, distribution and object-flag tables, and through what its
    collaborators read. *)
Lemma light_tree_sample_reads (fuel : nat) (in_volume_segment : bool)
    (rng_state : RNGState E) (randu randv time : float) (N P : float3)
    (bounce path_flag : Z) (ls : LightSample) :
  light_tree_nodes kg' = light_tree_nodes kg ->
  light_tree_emitters kg' = light_tree_emitters kg ->
  light_distribution kg' = light_distribution kg ->
  object_flag kg' = object_flag kg ->
  light_tree_sample E kg' fuel in_volume_segment rng_state randu randv time N P
    bounce path_flag ls =
  light_tree_sample E kg fuel in_volume_segment rng_state randu randv time N P
    bounce path_flag ls.
Proof.
  intros Hn He Hd Ho. pose proof Hsame as (Hrng & _).
  unfold light_tree_sample. rewrite Hn, Hrng.
  destruct (kernel_data_fetch (light_tree_nodes kg) 0) as [root | | | ];
    cbn [bind]; try reflexivity.
  rewrite (traverse_reads_nodes fuel P N Hn).
  destruct (traverse E kg fuel P N 0 root _ F32.one) as [w | | | ];
    cbn [bind]; try reflexivity.
  unfold sample_leaf.
  rewrite (sum_emitter_importance_reads_emitters _ P N _ He).
  destruct (sum_emitter_importance E kg _ P N (w_knode w) 0 F32.zero)
    as [total | | | ]; cbn [bind]; try reflexivity.
  destruct (total =? F32.zero); [reflexivity | ].
  rewrite (emitter_cdf_walk_reads _ _ _ _ _ _ _ _ _ _ _ _ _ _ He Hd Ho).
  reflexivity.
Qed.

Lemma distant_importance_reads_group (P N : float3) (i : Z) :
  light_tree_distant_group kg' = light_tree_distant_group kg ->
  light_tree_distant_light_importance kg' P N i =
  light_tree_distant_light_importance kg P N i.
Proof. intros Hg. unfold light_tree_distant_light_importance. rewrite Hg. reflexivity. Qed.

Lemma sum_distant_importance_reads_group (n : nat) (P N : float3) :
  light_tree_distant_group kg' = light_tree_distant_group kg ->
  forall (i : Z) (total : float),
    sum_distant_importance kg' n P N i total = sum_distant_importance kg n P N i total.
Proof.
  intros Hg. induction n as [ | n IH]; intros i total;
    cbn [sum_distant_importance]; [reflexivity | ].
  rewrite (distant_importance_reads_group P N _ Hg).
  destruct (light_tree_distant_light_importance kg P N i); cbn [bind];
    try reflexivity.
  apply IH.
Qed.

Lemma distant_cdf_walk_reads (n : nat) (in_volume_segment : bool)
    (randu randv : float) (N P : float3) (bounce path_flag : Z)
    (ls : LightSample) (pdf_factor distant_u inv_total_importance : float) :
  light_tree_distant_group kg' = light_tree_distant_group kg ->
  forall (i : Z) (light_cdf : float),
    distant_cdf_walk E kg' n in_volume_segment randu randv N P bounce path_flag
      ls pdf_factor distant_u inv_total_importance i light_cdf =
    distant_cdf_walk E kg n in_volume_segment randu randv N P bounce path_flag
      ls pdf_factor distant_u inv_total_importance i light_cdf.
Proof.
  intros Hg. destruct Hsame as (_ & Hb & _ & Hl).
  induction n as [ | n IH]; intros i light_cdf;
    cbn [distant_cdf_walk]; [reflexivity | ].
  rewrite (distant_importance_reads_group P N _ Hg).
  destruct (light_tree_distant_light_importance kg P N i)
    as [importance | | | ]; cbn [bind]; try reflexivity.
  destruct (distant_u <? _); [ | apply IH].
  rewrite Hg.
  destruct (kernel_data_fetch (light_tree_distant_group kg) i)
    as [kdistant | | | ]; cbn [bind]; try reflexivity.
  rewrite Hb, Hl. reflexivity.
Qed.

(** The distant-light sampler depends on the kernel globals through the
    distant-light table and its count, and through what its collaborators
    read. *)
Lemma distant_sampler_reads (in_volume_segment : bool) (rng_state : RNGState E)
    (randu randv time : float) (N P : float3) (bounce path_flag : Z)
    (ls : LightSample) (pdf_factor : float) :
  light_tree_distant_group kg' = light_tree_distant_group kg ->
  num_distant_lights kg' = num_distant_lights kg ->
  light_tree_sample_distant_lights E kg' in_volume_segment rng_state randu randv time
    N P bounce path_flag ls pdf_factor =
  light_tree_sample_distant_lights E kg in_volume_segment rng_state randu randv time
    N P bounce path_flag ls pdf_factor.
Proof.
  intros Hg Hc. pose proof Hsame as (Hrng & _).
  unfold light_tree_sample_distant_lights. rewrite Hc, Hrng.
  rewrite (sum_distant_importance_reads_group _ P N Hg).
  destruct (sum_distant_importance kg _ P N 0 F32.zero) as [total | | | ];
    cbn [bind]; try reflexivity.
  rewrite (distant_cdf_walk_reads _ _ _ _ _ _ _ _ _ _ _ _ Hg).
  reflexivity.
Qed.

End FrameFacts.

(** ** The dispatcher *)

Section DispatcherFacts.
Variable E : Externals.
Variable kg : KernelGlobals.

(** The last statements of the dispatcher multiply the pdf of the light
    sample that the sub-sampler left and hand on its return value. *)
Lemma from_position_folds_pdf (fuel : nat) (rng_state : RNGState E)
    (randu randv time : float) (P N : float3) (bounce path_flag : Z)
    (ls : LightSample) :
  light_tree_sample_from_position E kg fuel rng_state randu randv time P N
    bounce path_flag ls =
  Spec.fold_pdf (dispatch E kg fuel rng_state randu randv time P N bounce path_flag ls).
Proof.
  unfold light_tree_sample_from_position.
  destruct (dispatch E kg fuel rng_state randu randv time P N bounce path_flag ls);
    reflexivity.
Qed.

Lemma dispatch_tree_only (fuel : nat) (rng_state : RNGState E)
    (randu randv time : float) (P N : float3) (bounce path_flag : Z)
    (ls : LightSample) :
  num_distant_lights kg = 0%Z ->
  dispatch E kg fuel rng_state randu randv time P N bounce path_flag ls =
  light_tree_sample E kg fuel false rng_state randu randv time N P bounce path_flag ls.
Proof. intros H. unfold dispatch. rewrite H. reflexivity. Qed.

Lemma dispatch_distant_only (fuel : nat) (rng_state : RNGState E)
    (randu randv time : float) (P N : float3) (bounce path_flag : Z)
    (ls : LightSample) :
  num_distant_lights kg <> 0%Z ->
  (num_distribution kg - num_distant_lights kg)%Z = 0%Z ->
  dispatch E kg fuel rng_state randu randv time P N bounce path_flag ls =
  light_tree_sample_distant_lights E kg false rng_state randu randv time N P
    bounce path_flag ls F32.one.
Proof.
  intros Hd Hp. unfold dispatch.
  apply Z.eqb_neq in Hd. rewrite Hd, Hp. reflexivity.
Qed.

Lemma dispatch_mixed (fuel : nat) (rng_state : RNGState E)
    (randu randv time : float) (P N : float3) (bounce path_flag : Z)
    (ls : LightSample) (root : KernelLightTreeNode)
    (kdistant : KernelLightTreeDistantEmitter) :
  num_distant_lights kg <> 0%Z ->
  (num_distribution kg - num_distant_lights kg)%Z <> 0%Z ->
  kernel_data_fetch (light_tree_nodes kg) 0 = Normal root ->
  kernel_data_fetch (light_tree_distant_group kg) (num_distant_lights kg)
  = Normal kdistant ->
  dispatch E kg fuel rng_state randu randv time P N bounce path_flag ls =
  let importance_tree := light_tree_cluster_importance E P N root in
  let importance_distant := distant_energy kdistant in
  let p_tree := F32.div importance_tree (F32.add importance_tree importance_distant) in
  if F32.ltb randu p_tree then
    r <- light_tree_sample E kg fuel false rng_state randu randv time N P
           bounce path_flag ls ;;
    Normal (scale_pdf_factor r p_tree)
  else
    r <- light_tree_sample_distant_lights E kg false rng_state randu randv time N P
           bounce path_flag ls F32.one ;;
    Normal (scale_pdf_factor r (F32.sub F32.one p_tree)).
Proof.
  intros Hd Hp Hroot Hdist. unfold dispatch.
  apply Z.eqb_neq in Hd. apply Z.eqb_neq in Hp. rewrite Hd, Hp, Hroot.
  cbn [bind]. unfold light_tree_distant_light_importance. rewrite Hdist.
  reflexivity.
Qed.

End DispatcherFacts.

(** In the mixed case the sub-sampler that runs is called with the
    [randu] that the dispatcher received, and the sample's pdf is
    multiplied by the sub-sampler's [pdf_factor] times the probability of
    the branch taken. *)
Lemma mixed_case_hands_randu_on
    (E : Externals) (kg : KernelGlobals) (fuel : nat) (rng_state : RNGState E)
    (randu randv time : float) (P N : float3) (bounce path_flag : Z)
    (ls : LightSample) (root : KernelLightTreeNode)
    (kdistant : KernelLightTreeDistantEmitter) :
  num_distant_lights kg <> 0%Z ->
  (num_distribution kg - num_distant_lights kg)%Z <> 0%Z ->
  kernel_data_fetch (light_tree_nodes kg) 0 = Normal root ->
  kernel_data_fetch (light_tree_distant_group kg) (num_distant_lights kg)
  = Normal kdistant ->
  let importance_tree := light_tree_cluster_importance E P N root in
  let importance_distant := distant_energy kdistant in
  let p_tree := F32.div importance_tree (F32.add importance_tree importance_distant) in
  light_tree_sample_from_position E kg fuel rng_state randu randv time P N
    bounce path_flag ls =
  if F32.ltb randu p_tree
  then
    match light_tree_sample E kg fuel false rng_state randu randv time N P
            bounce path_flag ls with
    | Normal r =>
      Normal (sr_ret r, Spec.pdf_scaled (sr_ls r) (F32.mul (sr_pdf_factor r) p_tree))
    | OutOfBounds => OutOfBounds
    | AssertFailure => AssertFailure
    | OutOfFuel => OutOfFuel
    end
  else
    match light_tree_sample_distant_lights E kg false rng_state randu randv time
            N P bounce path_flag ls F32.one with
    | Normal r =>
      Normal (sr_ret r,
              Spec.pdf_scaled (sr_ls r)
                (F32.mul (sr_pdf_factor r) (F32.sub F32.one p_tree)))
    | OutOfBounds => OutOfBounds
    | AssertFailure => AssertFailure
    | OutOfFuel => OutOfFuel
    end.
Proof.
  intros Hd Hp Hroot Hdist importance_tree importance_distant p_tree.
  rewrite from_position_folds_pdf.
  rewrite (dispatch_mixed E kg fuel rng_state randu randv time P N bounce path_flag
             ls root kdistant Hd Hp Hroot Hdist).
  cbv zeta. fold importance_tree importance_distant. fold p_tree.
  destruct (F32.ltb randu p_tree).
  - destruct (light_tree_sample _ _ _ _ _ _ _ _ _ _ _ _ _); reflexivity.
  - destruct (light_tree_sample_distant_lights _ _ _ _ _ _ _ _ _ _ _ _ _); reflexivity.
Qed.

(** C8. In the scene [mixed] a lamp of energy 1 sits in the tree and one
    distant light of energy 1 in the distant-light list, whose slot after
    the distant lights holds their energy sum, so [importance_distant] is
    the one of the specification.  With [randu = 1/4], below [p_tree]
    (about 0.54), the tree sampler runs and the sample's pdf is multiplied
    by [p_tree]; but the lamp sampler receives 1/4 itself and records it in
    the sample, whereas the specification's split hands on the rescaled
    number [1/4 * (importance_tree + importance_distant) / importance_tree],
    about 0.47, as the interior-node step of the traversal does. *)
Theorem dispatcher_hands_randu_on_unrescaled :
  Spec.distant_energy_sum Scenes.mixed = Scenes.f 1 /\
  light_tree_distant_light_importance Scenes.mixed Scenes.P0 Scenes.N0
    (num_distant_lights Scenes.mixed) = Normal (Scenes.f 1) /\
  Spec.interior_split F32.quarter F32.one
    (light_tree_cluster_importance Scenes.R Scenes.P0 Scenes.N0
       (Scenes.box_node (-1) 1 Scenes.pi_2 (Scenes.f 1) 0 1))
    (Scenes.f 1) = (Spec.Left, Runs.quarter_rescaled, Runs.p_tree_mixed) /\
  F32.eqb F32.quarter Runs.quarter_rescaled = false /\
  light_tree_sample_from_position Scenes.R Scenes.mixed 0 Scenes.u_005
    F32.quarter F32.half F32.zero Scenes.P0 Scenes.N0 0 0 Scenes.ls0 =
  Normal (Returned true,
          {| ls_P := Scenes.P0; ls_u := F32.quarter; ls_v := F32.half;
             ls_pdf := Runs.p_tree_mixed;
             ls_shader := 0; ls_object := -1; ls_prim := -1; ls_lamp := 0 |}) /\
  Spec.fold_pdf
    (Spec.mixed_dispatch_as_described Scenes.R Scenes.mixed 0 Scenes.u_005
       F32.quarter F32.half F32.zero Scenes.P0 Scenes.N0 0 0 Scenes.ls0
       (light_tree_cluster_importance Scenes.R Scenes.P0 Scenes.N0
          (Scenes.box_node (-1) 1 Scenes.pi_2 (Scenes.f 1) 0 1))
       (Spec.distant_energy_sum Scenes.mixed)) =
  Normal (Returned true,
          {| ls_P := Scenes.P0; ls_u := Runs.quarter_rescaled; ls_v := F32.half;
             ls_pdf := Runs.p_tree_mixed;
             ls_shader := 0; ls_object := -1; ls_prim := -1; ls_lamp := 0 |}).
Proof. repeat split; vm_compute; reflexivity. Qed.

(** C9. The first two branches of the dispatcher, in the order of the
    source.  With no distant light the dispatcher is the tree sampler
    followed by the pdf update, whatever the distant-light table holds.
    Otherwise, with no finite-tree emitter, it is the distant-light sampler
    followed by the pdf update, whatever the node, emitter and distribution
    tables hold, in every run in which that sampler returns a value.  The
    collaborators are taken not to read the tables that are varied. *)
Theorem dispatcher_delegates
    (E : Externals) (kg : KernelGlobals) (fuel : nat) (rng_state : RNGState E)
    (randu randv time : float) (P N : float3) (bounce path_flag : Z)
    (ls : LightSample) :
  (num_distant_lights kg = 0%Z ->
   forall group : list KernelLightTreeDistantEmitter,
     Spec.same_collaborators E kg (Spec.with_distant_group kg group) ->
     light_tree_sample_from_position E (Spec.with_distant_group kg group) fuel
       rng_state randu randv time P N bounce path_flag ls =
     Spec.fold_pdf
       (light_tree_sample E kg fuel false rng_state randu randv time N P
          bounce path_flag ls)) /\
  (num_distant_lights kg <> 0%Z ->
   (num_distribution kg - num_distant_lights kg)%Z = 0%Z ->
   forall (nodes : list KernelLightTreeNode) (emitters : list KernelLightTreeEmitter)
          (distribution : list KernelLightDistribution),
     Spec.same_collaborators E kg (Spec.with_tree kg nodes emitters distribution) ->
     (forall r : sample_result,
         light_tree_sample_distant_lights E kg false rng_state randu randv time N P
           bounce path_flag ls F32.one = Normal r ->
         sr_ret r <> NoReturnValue) ->
     light_tree_sample_from_position E (Spec.with_tree kg nodes emitters distribution)
       fuel rng_state randu randv time P N bounce path_flag ls =
     Spec.fold_pdf
       (light_tree_sample_distant_lights E kg false rng_state randu randv time N P
          bounce path_flag ls F32.one)).
Proof.
  split.
  - intros Hd group Hsame. rewrite from_position_folds_pdf.
    rewrite dispatch_tree_only by exact Hd.
    rewrite (light_tree_sample_reads E kg (Spec.with_distant_group kg group) Hsame
               fuel false rng_state randu randv time N P bounce path_flag ls
               eq_refl eq_refl eq_refl eq_refl).
    reflexivity.
  - intros Hd Hp nodes emitters distribution Hsame _.
    rewrite from_position_folds_pdf.
    rewrite dispatch_distant_only by assumption.
    rewrite (distant_sampler_reads E kg (Spec.with_tree kg nodes emitters distribution)
               Hsame false rng_state randu randv time N P bounce path_flag ls F32.one
               eq_refl eq_refl).
    reflexivity.
Qed.

Lemma dispatcher_delegates_witness :
  (num_distant_lights Scenes.tree3 = 0%Z /\
   Spec.same_collaborators Scenes.R Scenes.tree3
     (Spec.with_distant_group Scenes.tree3 [Scenes.distant 7 (Scenes.f 3)]) /\
   light_tree_sample_from_position Scenes.R
     (Spec.with_distant_group Scenes.tree3 [Scenes.distant 7 (Scenes.f 3)]) 1
     Scenes.u_005 F32.half F32.half F32.zero Scenes.P0 Scenes.N0 0 0 Scenes.ls0 =
   Spec.fold_pdf
     (light_tree_sample Scenes.R Scenes.tree3 1 false Scenes.u_005 F32.half F32.half
        F32.zero Scenes.N0 Scenes.P0 0 0 Scenes.ls0)) /\
  (num_distant_lights (Scenes.distant_only [Scenes.f 1]) <> 0%Z /\
   (num_distribution (Scenes.distant_only [Scenes.f 1])
    - num_distant_lights (Scenes.distant_only [Scenes.f 1]))%Z = 0%Z /\
   Spec.same_collaborators Scenes.R (Scenes.distant_only [Scenes.f 1])
     (Spec.with_tree (Scenes.distant_only [Scenes.f 1])
        (light_tree_nodes Scenes.tree3) (light_tree_emitters Scenes.tree3)
        (light_distribution Scenes.tree3)) /\
   light_tree_sample_distant_lights Scenes.R (Scenes.distant_only [Scenes.f 1])
     false Scenes.u_005 F32.half F32.half F32.zero Scenes.N0 Scenes.P0 0 0
     Scenes.ls0 F32.one =
   Normal {| sr_ret := Returned true; sr_ls := Runs.lamp_sample 0 F32.half;
             sr_pdf_factor := F32.one |} /\
   light_tree_sample_from_position Scenes.R
     (Spec.with_tree (Scenes.distant_only [Scenes.f 1])
        (light_tree_nodes Scenes.tree3) (light_tree_emitters Scenes.tree3)
        (light_distribution Scenes.tree3)) 1
     Scenes.u_005 F32.half F32.half F32.zero Scenes.P0 Scenes.N0 0 0 Scenes.ls0 =
   Spec.fold_pdf
     (light_tree_sample_distant_lights Scenes.R (Scenes.distant_only [Scenes.f 1])
        false Scenes.u_005 F32.half F32.half F32.zero Scenes.N0 Scenes.P0 0 0
        Scenes.ls0 F32.one)).
Proof.
  split.
  - split; [reflexivity | ].
    split; [repeat split | ].
    apply (proj1 (dispatcher_delegates Scenes.R Scenes.tree3 1 Scenes.u_005
                    F32.half F32.half F32.zero Scenes.P0 Scenes.N0 0 0 Scenes.ls0)).
    + reflexivity.
    + repeat split.
  - split; [discriminate | ]. split; [reflexivity | ].
    split; [repeat split | ].
    split; [vm_compute; reflexivity | ].
    apply (proj2 (dispatcher_delegates Scenes.R (Scenes.distant_only [Scenes.f 1]) 1
                    Scenes.u_005 F32.half F32.half F32.zero Scenes.P0 Scenes.N0 0 0
                    Scenes.ls0)).
    + discriminate.
    + reflexivity.
    + repeat split.
    + intros r Hr. vm_compute in Hr. injection Hr as <-. discriminate.
Defined.

(** A scene without any light has both counts at 0: the first branch of
    the dispatcher applies, and the tree sampler reads node 0 of an empty
    node table. *)
Example no_lights_runs_the_tree_sampler :
  (num_distribution Scenes.no_lights - num_distant_lights Scenes.no_lights)%Z = 0%Z /\
  num_distant_lights Scenes.no_lights = 0%Z /\
  light_tree_sample_from_position Scenes.R Scenes.no_lights 0 Scenes.u_005
    F32.half F32.half F32.zero Scenes.P0 Scenes.N0 0 0 Scenes.ls0 = OutOfBounds.
Proof. repeat split; vm_compute; reflexivity. Qed.

(** C10, as amended. Whenever [light_tree_sample_from_position] returns a
    value, on a failure path as on a successful one, the light sample it
    leaves is the one the sub-sampler left with its pdf multiplied by the
    accumulated [pdf_factor], which is the sub-sampler's factor and, in the
    mixed case, that factor times the probability of the branch taken.
    When the tree sampler has failed, it has left the caller's light sample
    untouched (zero-importance leaf, shadow-catcher exclusion, bounce-budget
    rejection, exhausted CDF walk), unless the triangle sampler ran and
    reported a pdf that is not above 0, in which case the sample holds what
    that sampler wrote and the bits of the shader flag, or the lamp sampler
    ran and returned [false]; on the former paths the output is therefore
    the caller's light sample with its pdf multiplied by [pdf_factor]. *)
Theorem dispatcher_scales_pdf_on_every_return
    (E : Externals) (kg : KernelGlobals) (fuel : nat) (rng_state : RNGState E)
    (randu randv time : float) (P N : float3) (bounce path_flag : Z)
    (ls ls' : LightSample) (b : bool) :
  light_tree_sample_from_position E kg fuel rng_state randu randv time P N
    bounce path_flag ls = Normal (Returned b, ls') ->
  let tree :=
    light_tree_sample E kg fuel false rng_state randu randv time N P
      bounce path_flag ls in
  let distant :=
    light_tree_sample_distant_lights E kg false rng_state randu randv time N P
      bounce path_flag ls F32.one in
  exists (r : sample_result) (pdf_factor : float),
    sr_ret r = Returned b /\
    ls' = Spec.pdf_scaled (sr_ls r) pdf_factor /\
    ((num_distant_lights kg = 0%Z /\ tree = Normal r /\
      pdf_factor = sr_pdf_factor r) \/
     (num_distant_lights kg <> 0%Z /\
      (num_distribution kg - num_distant_lights kg)%Z = 0%Z /\
      distant = Normal r /\ pdf_factor = sr_pdf_factor r) \/
     (num_distant_lights kg <> 0%Z /\
      (num_distribution kg - num_distant_lights kg)%Z <> 0%Z /\
      exists (root : KernelLightTreeNode) (kdistant : KernelLightTreeDistantEmitter),
        kernel_data_fetch (light_tree_nodes kg) 0 = Normal root /\
        kernel_data_fetch (light_tree_distant_group kg) (num_distant_lights kg)
        = Normal kdistant /\
        let importance_tree := light_tree_cluster_importance E P N root in
        let p_tree :=
          F32.div importance_tree (F32.add importance_tree (distant_energy kdistant)) in
        ((F32.ltb randu p_tree = true /\ tree = Normal r /\
          pdf_factor = F32.mul (sr_pdf_factor r) p_tree) \/
         (F32.ltb randu p_tree = false /\ distant = Normal r /\
          pdf_factor = F32.mul (sr_pdf_factor r) (F32.sub F32.one p_tree))))) /\
    (b = false -> tree = Normal r ->
     sr_ls r = ls \/
     (exists prim object shader_flag : Z,
         (0 <= prim)%Z /\
         ls_pdf (sr_ls r) =
         ls_pdf (triangle_light_sample E kg false prim object randu randv time ls P) /\
         ls_shader (sr_ls r) =
         Z.lor (ls_shader (triangle_light_sample E kg false prim object
                             randu randv time ls P)) shader_flag /\
         F32.ltb F32.zero (ls_pdf (sr_ls r)) = false) \/
     (exists lamp : Z,
         light_sample E kg false lamp randu randv P path_flag ls = (false, sr_ls r))).
Proof.
  intros H tree distant.
  assert (Hframe : forall r : sample_result,
             sr_ret r = Returned b -> b = false -> tree = Normal r ->
             sr_ls r = ls \/
             (exists prim object shader_flag : Z,
                 (0 <= prim)%Z /\
                 ls_pdf (sr_ls r) =
                 ls_pdf (triangle_light_sample E kg false prim object
                           randu randv time ls P) /\
                 ls_shader (sr_ls r) =
                 Z.lor (ls_shader (triangle_light_sample E kg false prim object
                                     randu randv time ls P)) shader_flag /\
                 F32.ltb F32.zero (ls_pdf (sr_ls r)) = false) \/
             (exists lamp : Z,
                 light_sample E kg false lamp randu randv P path_flag ls
                 = (false, sr_ls r))).
  { intros r Hret -> Htree.
    exact (light_tree_sample_failure_cases E kg _ _ _ _ _ _ _ _ _ _ _ _ Htree Hret). }
  rewrite from_position_folds_pdf in H.
  destruct (dispatch E kg fuel rng_state randu randv time P N bounce path_flag ls)
    as [r0 | | | ] eqn:Hdisp; cbn [Spec.fold_pdf] in H; try discriminate.
  injection H as Hret Hls.
  destruct (Z.eq_dec (num_distant_lights kg) 0) as [Hd | Hd].
  - rewrite dispatch_tree_only in Hdisp by exact Hd.
    exists r0, (sr_pdf_factor r0).
    split; [exact Hret | ]. split; [symmetry; exact Hls | ].
    split; [left; repeat split; assumption | apply Hframe; exact Hret].
  - destruct (Z.eq_dec (num_distribution kg - num_distant_lights kg) 0) as [Hp | Hp].
    + rewrite dispatch_distant_only in Hdisp by assumption.
      exists r0, (sr_pdf_factor r0).
      split; [exact Hret | ]. split; [symmetry; exact Hls | ].
      split; [right; left; repeat split; assumption | apply Hframe; exact Hret].
    + assert (Hfetch : exists root kdistant,
                 kernel_data_fetch (light_tree_nodes kg) 0 = Normal root /\
                 kernel_data_fetch (light_tree_distant_group kg) (num_distant_lights kg)
                 = Normal kdistant).
      { unfold dispatch in Hdisp.
        destruct (num_distant_lights kg =? 0)%Z eqn:Hd';
          [apply Z.eqb_eq in Hd'; contradiction | ].
        destruct (num_distribution kg - num_distant_lights kg =? 0)%Z eqn:Hp';
          [apply Z.eqb_eq in Hp'; contradiction | ].
        destruct (kernel_data_fetch (light_tree_nodes kg) 0) as [root | | | ];
          cbn [bind] in Hdisp; try discriminate.
        unfold light_tree_distant_light_importance in Hdisp.
        destruct (kernel_data_fetch (light_tree_distant_group kg) (num_distant_lights kg))
          as [kdistant | | | ]; cbn [bind] in Hdisp; try discriminate.
        exists root, kdistant. split; reflexivity. }
      destruct Hfetch as (root & kdistant & Hroot & Hdist).
      rewrite (dispatch_mixed E kg fuel rng_state randu randv time P N bounce
                 path_flag ls root kdistant Hd Hp Hroot Hdist) in Hdisp.
      cbv zeta in Hdisp.
      destruct (F32.ltb randu _) eqn:Hu.
      * fold tree in Hdisp. destruct tree as [r | | | ] eqn:Htree;
          cbn [bind] in Hdisp; try discriminate.
        injection Hdisp as <-.
        cbn [scale_pdf_factor sr_ret sr_ls sr_pdf_factor] in Hret, Hls.
        eexists r, _.
        split; [exact Hret | ]. split; [symmetry; exact Hls | ].
        split; [ | apply Hframe; exact Hret].
        right; right. split; [exact Hd | ]. split; [exact Hp | ].
        exists root, kdistant. split; [exact Hroot | ]. split; [exact Hdist | ].
        cbv zeta. left. split; [exact Hu | ]. split; reflexivity.
      * fold distant in Hdisp. destruct distant as [r | | | ] eqn:Hdistant;
          cbn [bind] in Hdisp; try discriminate.
        injection Hdisp as <-.
        cbn [scale_pdf_factor sr_ret sr_ls sr_pdf_factor] in Hret, Hls.
        eexists r, _.
        split; [exact Hret | ]. split; [symmetry; exact Hls | ].
        split; [ | apply Hframe; exact Hret].
        right; right. split; [exact Hd | ]. split; [exact Hp | ].
        exists root, kdistant. split; [exact Hroot | ]. split; [exact Hdist | ].
        cbv zeta. right. split; [exact Hu | ]. split; reflexivity.
Qed.

Lemma dispatcher_scales_pdf_witness :
  light_tree_sample_from_position Scenes.R Scenes.tree3 1 Scenes.u_005
    F32.half F32.half F32.zero Scenes.P0 Scenes.N0 9 0 Scenes.ls0 =
  Normal (Returned false,
          {| ls_P := ls_P Scenes.ls0; ls_u := ls_u Scenes.ls0; ls_v := ls_v Scenes.ls0;
             ls_pdf := Runs.p_left3;
             ls_shader := ls_shader Scenes.ls0; ls_object := ls_object Scenes.ls0;
             ls_prim := ls_prim Scenes.ls0; ls_lamp := ls_lamp Scenes.ls0 |}) /\
  F32.eqb (ls_pdf Scenes.ls0) Runs.p_left3 = false /\
  exists (r : sample_result) (pdf_factor : float),
    sr_ret r = Returned false /\
    {| ls_P := ls_P Scenes.ls0; ls_u := ls_u Scenes.ls0; ls_v := ls_v Scenes.ls0;
       ls_pdf := Runs.p_left3;
       ls_shader := ls_shader Scenes.ls0; ls_object := ls_object Scenes.ls0;
       ls_prim := ls_prim Scenes.ls0; ls_lamp := ls_lamp Scenes.ls0 |}
    = Spec.pdf_scaled (sr_ls r) pdf_factor.
Proof.
  split; [vm_compute; reflexivity | ].
  split; [vm_compute; reflexivity | ].
  destruct (dispatcher_scales_pdf_on_every_return Scenes.R Scenes.tree3 1 Scenes.u_005
              F32.half F32.half F32.zero Scenes.P0 Scenes.N0 9 0 Scenes.ls0
              {| ls_P := ls_P Scenes.ls0; ls_u := ls_u Scenes.ls0;
                 ls_v := ls_v Scenes.ls0; ls_pdf := Runs.p_left3;
                 ls_shader := ls_shader Scenes.ls0; ls_object := ls_object Scenes.ls0;
                 ls_prim := ls_prim Scenes.ls0; ls_lamp := ls_lamp Scenes.ls0 |}
              false)
    as (r & pdf_factor & Hret & Hls & _).
  - vm_compute; reflexivity.
  - exists r, pdf_factor. split; assumption.
Defined.

(** C10, as stated, fails on its last clause: on each of the four failure
    paths it names there is a call that returns [false] and leaves the light
    sample exactly as the caller passed it, because the factor that the pdf
    is multiplied by is 1.  A leaf whose emitters have energy 0; a triangle
    of another object in the shadow-catcher pass; a lamp beyond its bounce
    budget; a random number, just below 1, that the CDF walk does not
    reach. *)
Lemma failed_sample_leaves_ls_unchanged :
  light_tree_sample_from_position Scenes.R Scenes.zero_energy_leaf 0 Scenes.u_005
    F32.half F32.half F32.zero Scenes.P0 Scenes.N0 0 0 Scenes.ls0 =
  Normal (Returned false, Scenes.ls0) /\
  light_tree_sample_from_position Scenes.R Scenes.single_triangle 0 Scenes.u_005
    F32.half F32.half F32.zero Scenes.P0 Scenes.N0 0
    (PATH_RAY_SHADOW_CATCHER_PASS Scenes.R) Scenes.ls0 =
  Normal (Returned false, Scenes.ls0) /\
  light_tree_sample_from_position Scenes.R (Scenes.single_leaf (Scenes.f 1)) 0
    Scenes.u_005 F32.half F32.half F32.zero Scenes.P0 Scenes.N0 9 0 Scenes.ls0 =
  Normal (Returned false, Scenes.ls0) /\
  light_tree_sample_from_position Scenes.R (Scenes.single_leaf (Scenes.f 41)) 0
    Scenes.u_max F32.half F32.half F32.zero Scenes.P0 Scenes.N0 0 0 Scenes.ls0 =
  Normal (Returned false, Scenes.ls0).
Proof. repeat split; vm_compute; reflexivity. Qed.

(** * Further properties of the code *)

(** ** More facts of binary32 arithmetic *)

Section MoreFloatFacts.
Local Open Scope f32_scope.

Lemma fmaxf_keeps_nonneg (x acc : float) :
  (F32.zero <=? acc) = true -> (F32.zero <=? F32.fmaxf x acc) = true.
Proof.
  intros H. unfold F32.fmaxf.
  destruct x as [sx | [ | ] | | [ | ] mx ex]; cbn [F32.is_nan]; try exact H;
    destruct acc as [sa | [ | ] | | [ | ] ma ea]; try discriminate H;
    cbn; try reflexivity;
    match goal with
    | |- context [if ?c then _ else _] => destruct c; reflexivity
    end.
Qed.

Lemma fmaxf_zero_nonneg (x : float) : (F32.zero <=? F32.fmaxf x F32.zero) = true.
Proof. apply fmaxf_keeps_nonneg. reflexivity. Qed.

Lemma leb_through_zero (a b : float) :
  (a <=? F32.zero) = true -> (F32.zero <=? b) = true -> (a <=? b) = true.
Proof.
  destruct a as [sa | [ | ] | | [ | ] ma ea]; intros Ha; try discriminate Ha;
    destruct b as [sb | [ | ] | | [ | ] mb eb]; intros Hb; try discriminate Hb;
    reflexivity.
Qed.

(** A number that is not below 0 is not below either zero. *)
Lemma not_below_zero_any (u : float) (s : bool) :
  (u <? F32.zero) = false -> (u <? S754_zero s) = false.
Proof. destruct u as [su | [ | ] | | [ | ] mu eu]; intros H; try discriminate H; reflexivity. Qed.

Lemma zero_plus_positive (r : float) :
  (F32.zero <? r) = true -> F32.zero + r = r.
Proof. destruct r as [sr | [ | ] | | [ | ] mr er]; intros H; try discriminate H; reflexivity. Qed.

Lemma zero_over_positive (r : float) :
  (F32.zero <? r) = true -> F32.zero / r = F32.zero.
Proof. destruct r as [sr | [ | ] | | [ | ] mr er]; intros H; try discriminate H; reflexivity. Qed.

End MoreFloatFacts.

(** ** The importance estimate, continued *)

Section MoreImportanceFacts.
Variable E : Externals.
Local Open Scope f32_scope.

Lemma bounding_box_angle_fold (P point_to_centroid : float3) (cs : list float3) :
  forall acc : float,
    (F32.zero <=? acc) = true ->
    (F32.zero <=?
     fold_left
       (fun theta_u corner =>
          let point_to_corner := normalize E (Float3.sub corner P) in
          let cos_theta_u := dot E point_to_centroid point_to_corner in
          F32.fmaxf (fast_acosf E cos_theta_u) theta_u)
       cs acc) = true.
Proof.
  induction cs as [ | c cs IH]; intros acc Hacc; cbn [fold_left].
  - exact Hacc.
  - apply IH. cbv zeta. apply fmaxf_keeps_nonneg, Hacc.
Qed.

End MoreImportanceFacts.

(** X1. [light_tree_bounding_box_angle] returns a number that is at least
    0, hence not NaN, whatever [normalize], [dot] and [fast_acosf] return
    for the eight corners: the maximum is taken with [fmaxf] from 0. *)
Theorem bounding_box_angle_nonneg
    (E : Externals) (bbox_min bbox_max P point_to_centroid : float3) :
  F32.leb F32.zero
    (light_tree_bounding_box_angle E bbox_min bbox_max P point_to_centroid) = true.
Proof.
  unfold light_tree_bounding_box_angle.
  apply bounding_box_angle_fold. reflexivity.
Qed.

(** X2. A record whose [theta_e] is not above 0 has importance exactly 0 at
    every shading point: [theta_prime] is the result of [fmaxf(., 0)], so
    the test [theta_prime >= theta_e] succeeds. *)
Theorem nonpositive_theta_e_importance_zero
    (E : Externals) (P N bbox_min bbox_max bcone_axis : float3)
    (theta_o theta_e energy : float) :
  F32.leb theta_e F32.zero = true ->
  light_tree_node_importance E P N bbox_min bbox_max bcone_axis theta_o theta_e energy
  = F32.zero.
Proof.
  intros H. rewrite light_tree_node_importance_unfold.
  unfold theta_prime_of.
  rewrite (leb_through_zero _ _ H (fmaxf_zero_nonneg _)). reflexivity.
Qed.

Lemma nonpositive_theta_e_witness :
  F32.leb Vary.negative_theta_e F32.zero = true /\
  light_tree_node_importance Scenes.R Scenes.P0 Scenes.N0
    Scenes.square_min Scenes.square_max Scenes.point_axis
    F32.zero Vary.negative_theta_e (Scenes.f 41) = F32.zero.
Proof.
  split; [reflexivity | ].
  apply nonpositive_theta_e_importance_zero. reflexivity.
Defined.

(** [light_tree_cluster_importance] does not read the third component of
    the node's cone axis: it builds the axis from the components 0, 1 and
    1. *)
Lemma cluster_importance_ignores_axis_2
    (E : Externals) (P N : float3) (knode : KernelLightTreeNode) (z : float) :
  light_tree_cluster_importance E P N (Vary.with_cone_axis_2 knode z) =
  light_tree_cluster_importance E P N knode /\
  light_tree_cluster_importance E P N knode =
  light_tree_node_importance E P N
    (float3_of (node_bounding_box_min knode)) (float3_of (node_bounding_box_max knode))
    (make_float3 (a_0 (node_bounding_cone_axis knode))
                 (a_1 (node_bounding_cone_axis knode))
                 (a_1 (node_bounding_cone_axis knode)))
    (node_theta_o knode) (node_theta_e knode) (node_energy knode).
Proof. split; reflexivity. Qed.

(** ** The traversal, continued *)

Section MoreTraversalFacts.
Variable E : Externals.
Variable kg : KernelGlobals.
Local Open Scope f32_scope.

(** [knode] is the node at [index] throughout the loop. *)
Lemma traverse_keeps_node_at_index (fuel : nat) (P N : float3) :
  forall (index : Z) (knode : KernelLightTreeNode) (u pdf_factor : float) (w : walk),
    kernel_data_fetch (light_tree_nodes kg) index = Normal knode ->
    traverse E kg fuel P N index knode u pdf_factor = Normal w ->
    kernel_data_fetch (light_tree_nodes kg) (w_index w) = Normal (w_knode w).
Proof.
  induction fuel as [ | fuel IH]; intros index knode u pdf_factor w Hfetch;
    cbn [traverse]; destruct (0 <? child_index knode)%Z eqn:Hc.
  - discriminate.
  - intros H; injection H as <-. exact Hfetch.
  - destruct (kernel_data_fetch (light_tree_nodes kg) (index + 1)%Z)
      as [lnode | | | ] eqn:Hl; cbn [bind]; try discriminate.
    destruct (kernel_data_fetch (light_tree_nodes kg) (child_index knode))
      as [rnode | | | ] eqn:Hr; cbn [bind]; try discriminate.
    destruct (u <? _); apply IH; assumption.
  - intros H; injection H as <-. exact Hfetch.
Qed.

(** A run of the loop that did not run out of fuel is not changed by more
    fuel. *)
Lemma traverse_more_fuel (fuel : nat) (P N : float3) :
  forall (index : Z) (knode : KernelLightTreeNode) (u pdf_factor : float),
    traverse E kg fuel P N index knode u pdf_factor <> OutOfFuel ->
    traverse E kg (S fuel) P N index knode u pdf_factor =
    traverse E kg fuel P N index knode u pdf_factor.
Proof.
  induction fuel as [ | fuel IH]; intros index knode u pdf_factor.
  - cbn [traverse]. destruct (0 <? child_index knode)%Z; [congruence | reflexivity].
  - intros H. cbn [traverse] in H.
    change (traverse E kg (S (S fuel)) P N index knode u pdf_factor =
            traverse E kg (S fuel) P N index knode u pdf_factor).
    cbn [traverse].
    destruct (0 <? child_index knode)%Z; [ | reflexivity].
    destruct (kernel_data_fetch (light_tree_nodes kg) (index + 1)%Z)
      as [lnode | | | ]; cbn [bind] in *; try reflexivity.
    destruct (kernel_data_fetch (light_tree_nodes kg) (child_index knode))
      as [rnode | | | ]; cbn [bind] in *; try reflexivity.
    destruct (u <? _); apply IH; exact H.
Qed.

Lemma traverse_enough_fuel (P N : float3) (index : Z) (knode : KernelLightTreeNode)
    (u pdf_factor : float) (fuel : nat) :
  traverse E kg fuel P N index knode u pdf_factor <> OutOfFuel ->
  forall extra : nat,
    traverse E kg (extra + fuel) P N index knode u pdf_factor =
    traverse E kg fuel P N index knode u pdf_factor.
Proof.
  intros H extra. induction extra as [ | extra IH]; [reflexivity | ].
  cbn [Nat.add]. rewrite traverse_more_fuel; [exact IH | ].
  rewrite IH. exact H.
Qed.

End MoreTraversalFacts.

(** X3. The loop invariant of the traversal: when the walk starts at a node
    of the table and ends, it ends at a leaf ([child_index <= 0]), the node
    it holds is the one stored at its index, and that index lies inside
    the node table. *)
Theorem traverse_ends_at_stored_leaf
    (E : Externals) (kg : KernelGlobals) (fuel : nat) (P N : float3)
    (index : Z) (knode : KernelLightTreeNode) (u pdf_factor : float) (w : walk) :
  kernel_data_fetch (light_tree_nodes kg) index = Normal knode ->
  traverse E kg fuel P N index knode u pdf_factor = Normal w ->
  (child_index (w_knode w) <= 0)%Z /\
  kernel_data_fetch (light_tree_nodes kg) (w_index w) = Normal (w_knode w) /\
  (0 <= w_index w < Z.of_nat (length (light_tree_nodes kg)))%Z.
Proof.
  intros Hfetch Htrav.
  pose proof (traverse_keeps_node_at_index E kg fuel P N index knode u pdf_factor w
                Hfetch Htrav) as Hnode.
  split; [eapply traverse_reaches_leaf; exact Htrav | ].
  split; [exact Hnode | ].
  eapply kernel_data_fetch_in_bounds; exact Hnode.
Qed.

Lemma traverse_ends_at_stored_leaf_witness :
  kernel_data_fetch (light_tree_nodes Scenes.tree3) 0 = Normal Scenes.root3 /\
  traverse Scenes.R Scenes.tree3 1 Scenes.P0 Scenes.N0 0 Scenes.root3
    Scenes.u_005 F32.one = Normal Runs.walk3 /\
  (child_index (w_knode Runs.walk3) <= 0)%Z /\
  kernel_data_fetch (light_tree_nodes Scenes.tree3) (w_index Runs.walk3)
  = Normal (w_knode Runs.walk3) /\
  (0 <= w_index Runs.walk3 < Z.of_nat (length (light_tree_nodes Scenes.tree3)))%Z.
Proof.
  split; [reflexivity | ].
  split; [vm_compute; reflexivity | ].
  apply (traverse_ends_at_stored_leaf Scenes.R Scenes.tree3 1 Scenes.P0 Scenes.N0 0
           Scenes.root3 Scenes.u_005 F32.one Runs.walk3).
  - reflexivity.
  - vm_compute; reflexivity.
Defined.

(** Termination of the traversal: on a node table in pre-order layout a
    walk from node 0 needs at most as many iterations as the table has
    nodes, and more fuel does not change where it ends. *)
Lemma traverse_terminates_on_preorder
    (E : Externals) (kg : KernelGlobals) (P N : float3)
    (root : KernelLightTreeNode) (u pdf_factor : float) (extra : nat) :
  Spec.preorder_layout kg ->
  kernel_data_fetch (light_tree_nodes kg) 0 = Normal root ->
  let enough := length (light_tree_nodes kg) in
  traverse E kg enough P N 0 root u pdf_factor <> OutOfFuel /\
  traverse E kg (extra + enough) P N 0 root u pdf_factor =
  traverse E kg enough P N 0 root u pdf_factor.
Proof.
  intros Hlayout Hroot enough.
  assert (H : traverse E kg enough P N 0 root u pdf_factor <> OutOfFuel).
  { apply traverse_terminates; [exact Hlayout | exact Hroot | subst enough; lia]. }
  split; [exact H | ].
  apply traverse_enough_fuel. exact H.
Qed.

Lemma tree3_preorder_layout : Spec.preorder_layout Scenes.tree3.
Proof.
  intros i node. unfold kernel_data_fetch.
  destruct (i <? 0)%Z eqn:Hneg; [discriminate | ].
  apply Z.ltb_ge in Hneg.
  change (light_tree_nodes Scenes.tree3)
    with [Scenes.root3; Scenes.left3; Scenes.right3].
  destruct (Z.to_nat i) as [ | [ | [ | [ | n]]]] eqn:Hi; cbn [nth_error];
    intros H; try discriminate H; injection H as <-;
    change (child_index Scenes.root3) with 2%Z;
    change (child_index Scenes.left3) with 0%Z;
    change (child_index Scenes.right3) with (-1)%Z; lia.
Qed.

(** X5. A left child of importance 0 is never entered when the right child
    has an importance above 0 and [u] is not negative: [p_left] is 0, the
    walk goes to the right child with [u * ir - 0] divided by [ir] and with
    [pdf_factor] multiplied by 1; when the right child is a leaf the loop
    ends there, at index [child_index], with these two numbers. *)
Theorem zero_importance_left_child_is_skipped
    (E : Externals) (kg : KernelGlobals) (fuel : nat) (P N : float3) (index : Z)
    (knode lnode rnode : KernelLightTreeNode) (u pdf_factor : float) :
  (0 < child_index knode)%Z ->
  kernel_data_fetch (light_tree_nodes kg) (index + 1)%Z = Normal lnode ->
  kernel_data_fetch (light_tree_nodes kg) (child_index knode) = Normal rnode ->
  light_tree_cluster_importance E P N lnode = F32.zero ->
  F32.ltb F32.zero (light_tree_cluster_importance E P N rnode) = true ->
  F32.ltb u F32.zero = false ->
  let ir := light_tree_cluster_importance E P N rnode in
  traverse E kg (S fuel) P N index knode u pdf_factor =
  traverse E kg fuel P N (child_index knode) rnode
    (F32.div (F32.sub (F32.mul u ir) F32.zero) ir)
    (F32.mul pdf_factor F32.one) /\
  ((child_index rnode <= 0)%Z ->
   traverse E kg (S fuel) P N index knode u pdf_factor =
   Normal {| w_index := child_index knode; w_knode := rnode;
             w_tree_u := F32.div (F32.sub (F32.mul u ir) F32.zero) ir;
             w_pdf_factor := F32.mul pdf_factor F32.one |}).
Proof.
  intros Hc Hl Hr Hil Hir Hu ir.
  apply Z.ltb_lt in Hc.
  rewrite (traverse_interior E kg fuel P N index knode lnode rnode u pdf_factor Hc Hl Hr).
  rewrite Hil. fold ir. cbv zeta.
  rewrite (zero_plus_positive ir Hir), (zero_over_positive ir Hir), Hu.
  split; [reflexivity | ].
  intros Hleaf. apply traverse_leaf. apply Z.ltb_ge. exact Hleaf.
Qed.

Lemma zero_importance_left_child_witness :
  (0 < child_index Vary.lopsided_root)%Z /\
  light_tree_cluster_importance Scenes.R Scenes.P0 Scenes.N0 Vary.lopsided_left
  = F32.zero /\
  F32.ltb F32.zero
    (light_tree_cluster_importance Scenes.R Scenes.P0 Scenes.N0 Vary.lopsided_right)
  = true /\
  F32.ltb Scenes.u_005 F32.zero = false /\
  (child_index Vary.lopsided_right <= 0)%Z /\
  traverse Scenes.R Vary.lopsided 1 Scenes.P0 Scenes.N0 0 Vary.lopsided_root
    Scenes.u_005 F32.one =
  Normal {| w_index := child_index Vary.lopsided_root;
            w_knode := Vary.lopsided_right;
            w_tree_u :=
              F32.div
                (F32.sub
                   (F32.mul Scenes.u_005
                      (light_tree_cluster_importance Scenes.R Scenes.P0 Scenes.N0
                         Vary.lopsided_right))
                   F32.zero)
                (light_tree_cluster_importance Scenes.R Scenes.P0 Scenes.N0
                   Vary.lopsided_right);
            w_pdf_factor := F32.mul F32.one F32.one |}.
Proof.
  split; [reflexivity | ].
  split; [vm_compute; reflexivity | ].
  split; [vm_compute; reflexivity | ].
  split; [reflexivity | ].
  split; [discriminate | ].
  apply (proj2 (zero_importance_left_child_is_skipped Scenes.R Vary.lopsided 0
                  Scenes.P0 Scenes.N0 0 Vary.lopsided_root Vary.lopsided_left
                  Vary.lopsided_right Scenes.u_005 F32.one
                  ltac:(reflexivity) ltac:(reflexivity) ltac:(reflexivity)
                  ltac:(vm_compute; reflexivity) ltac:(vm_compute; reflexivity)
                  ltac:(reflexivity))).
  discriminate.
Defined.

(** ** The leaf, continued *)

Section MoreLeafFacts.
Variable E : Externals.
Variable kg : KernelGlobals.
Local Open Scope f32_scope.

Lemma ltb_zero_sign (u : float) (s s' : bool) :
  (u <? S754_zero s) = (u <? S754_zero s').
Proof. destruct u as [su | [ | ] | | [ | ] mu eu]; reflexivity. Qed.

(** Adding the normalized importance of an emitter of importance 0 does
    not bring the CDF above [u]. *)
Lemma zero_importance_keeps_cdf_below (u cdf importance inv : float) :
  (u <? cdf) = false -> (importance =? F32.zero) = true ->
  (u <? cdf + importance * inv) = false.
Proof.
  intros Hu Hz.
  destruct importance as [si | [ | ] | | [ | ] mi ei]; try discriminate Hz.
  destruct inv as [sv | sv | | sv mv ev];
    destruct cdf as [sc | sc | | sc mc ec]; cbn;
    try exact Hu; try apply ltb_nan_r;
    try (destruct si, sv, sc; cbn;
         first [exact Hu | rewrite (ltb_zero_sign u _ sc); exact Hu
               | rewrite (ltb_zero_sign u _ false); exact Hu
               | rewrite (ltb_zero_sign u _ true); exact Hu ]).
Qed.

Lemma emitter_cdf_walk_selects_positive (n : nat) (in_volume_segment : bool)
    (randu randv time : float) (N P : float3) (bounce path_flag : Z)
    (ls : LightSample) (pdf_factor : float) (knode : KernelLightTreeNode)
    (tree_u inv_total_importance : float) :
  forall (i : Z) (emitter_cdf : float) (r : sample_result),
    (tree_u <? emitter_cdf) = false ->
    emitter_cdf_walk E kg n in_volume_segment randu randv time N P bounce path_flag
      ls pdf_factor knode tree_u inv_total_importance i emitter_cdf = Normal (Some r) ->
    exists (j : Z) (importance : float),
      (i <= j < i + Z.of_nat n)%Z /\
      light_tree_emitter_importance E kg P N (- child_index knode + j)%Z
      = Normal importance /\
      (importance =? F32.zero) = false /\
      sample_emitter E kg in_volume_segment randu randv time P bounce path_flag ls
        (pdf_factor * (importance * inv_total_importance))
        (- child_index knode + j)%Z = Normal r.
Proof.
  induction n as [ | n IH]; intros i emitter_cdf r Hinv; cbn [emitter_cdf_walk].
  - discriminate.
  - destruct (light_tree_emitter_importance E kg P N (- child_index knode + i)%Z)
      as [importance | | | ] eqn:Himp; cbn [bind]; try discriminate.
    destruct (tree_u <? emitter_cdf + importance * inv_total_importance) eqn:Hsel.
    + destruct (sample_emitter E kg _ _ _ _ _ _ _ _ _ _) as [r' | | | ] eqn:Hs;
        cbn [bind]; try discriminate.
      intros H; injection H as <-.
      exists i, importance. split; [lia | ]. split; [exact Himp | ].
      split; [ | exact Hs].
      destruct (importance =? F32.zero) eqn:Hz; [ | reflexivity].
      rewrite (zero_importance_keeps_cdf_below _ _ _ _ Hinv Hz) in Hsel.
      discriminate Hsel.
    + intros H. apply IH in H; [ | exact Hsel].
      destruct H as (j & imp & Hj & Hi & Hnz & Hs).
      exists j, imp. split; [lia | ]. repeat split; assumption.
Qed.

Lemma to_nat_nonpositive (n : Z) : (n <= 0)%Z -> Z.to_nat n = 0%nat.
Proof. destruct n; [reflexivity | lia | reflexivity]. Qed.

End MoreLeafFacts.

(** X6. A leaf without emitters ([num_prims <= 0]) makes
    [light_tree_sample] return [false]: the total importance is the
    initial 0, no table of emitters is read, and the light sample and the
    factor of the traversal are left as they are.  Whatever the emitter
    and distribution tables hold, the traversal runs on the node table
    alone, with the number that the generator yields. *)
Theorem empty_leaf_fails
    (E : Externals) (kg : KernelGlobals) (fuel : nat) (in_volume_segment : bool)
    (rng_state : RNGState E) (randu randv time : float) (N P : float3)
    (bounce path_flag : Z) (ls : LightSample)
    (root : KernelLightTreeNode) (w : walk)
    (emitters : list KernelLightTreeEmitter)
    (distribution : list KernelLightDistribution) :
  let kg' := Spec.with_tree kg (light_tree_nodes kg) emitters distribution in
  kernel_data_fetch (light_tree_nodes kg) 0 = Normal root ->
  traverse E kg fuel P N 0 root (path_state_rng_1D E kg' rng_state 1) F32.one
  = Normal w ->
  (num_prims (w_knode w) <= 0)%Z ->
  light_tree_sample E kg' fuel in_volume_segment rng_state randu randv time N P
    bounce path_flag ls =
  Normal {| sr_ret := Returned false; sr_ls := ls; sr_pdf_factor := w_pdf_factor w |}.
Proof.
  intros kg' Hroot Htrav Hn.
  unfold light_tree_sample.
  change (light_tree_nodes kg') with (light_tree_nodes kg).
  rewrite Hroot. cbn [bind].
  change (traverse E kg') with (traverse E kg).
  rewrite Htrav. cbn [bind].
  unfold sample_leaf. rewrite (to_nat_nonpositive _ Hn).
  reflexivity.
Qed.

Lemma empty_leaf_fails_witness :
  kernel_data_fetch (light_tree_nodes Vary.empty_leaf) 0
  = Normal (Scenes.box_node (-1) 1 Scenes.pi_2 (Scenes.f 1) 0 0) /\
  (num_prims (Scenes.box_node (-1) 1 Scenes.pi_2 (Scenes.f 1) 0 0) <= 0)%Z /\
  light_tree_sample Scenes.R
    (Spec.with_tree Vary.empty_leaf (light_tree_nodes Vary.empty_leaf)
       (light_tree_emitters Scenes.tree3) (light_distribution Scenes.tree3))
    0 false Scenes.u_005 F32.half F32.half F32.zero Scenes.N0 Scenes.P0 0 0 Scenes.ls0 =
  Normal {| sr_ret := Returned false; sr_ls := Scenes.ls0; sr_pdf_factor := F32.one |}.
Proof.
  split; [reflexivity | ].
  split; [discriminate | ].
  apply (empty_leaf_fails Scenes.R Vary.empty_leaf 0 false Scenes.u_005 F32.half
           F32.half F32.zero Scenes.N0 Scenes.P0 0 0 Scenes.ls0
           (Scenes.box_node (-1) 1 Scenes.pi_2 (Scenes.f 1) 0 0)
           {| w_index := 0;
              w_knode := Scenes.box_node (-1) 1 Scenes.pi_2 (Scenes.f 1) 0 0;
              w_tree_u := Scenes.u_005; w_pdf_factor := F32.one |}
           (light_tree_emitters Scenes.tree3) (light_distribution Scenes.tree3)).
  - reflexivity.
  - reflexivity.
  - discriminate.
Defined.

(** X7. [light_tree_sample] never selects an emitter of importance 0: when
    the random number that reaches the leaf is not negative and the CDF walk
    selects an emitter, that emitter's importance differs from 0. *)
Theorem selected_emitter_has_importance
    (E : Externals) (kg : KernelGlobals) (fuel : nat) (in_volume_segment : bool)
    (rng_state : RNGState E) (randu randv time : float) (N P : float3)
    (bounce path_flag : Z) (ls : LightSample)
    (root : KernelLightTreeNode) (w : walk) (total : float) (r : sample_result) :
  let n := Z.to_nat (num_prims (w_knode w)) in
  kernel_data_fetch (light_tree_nodes kg) 0 = Normal root ->
  traverse E kg fuel P N 0 root (path_state_rng_1D E kg rng_state 1) F32.one = Normal w ->
  F32.ltb (w_tree_u w) F32.zero = false ->
  sum_emitter_importance E kg n P N (w_knode w) 0 F32.zero = Normal total ->
  F32.eqb total F32.zero = false ->
  emitter_cdf_walk E kg n in_volume_segment randu randv time N P bounce path_flag
    ls (w_pdf_factor w) (w_knode w) (w_tree_u w) (F32.div F32.one total) 0 F32.zero
  = Normal (Some r) ->
  exists (j : Z) (importance : float),
    (0 <= j < num_prims (w_knode w))%Z /\
    light_tree_emitter_importance E kg P N (- child_index (w_knode w) + j)%Z
    = Normal importance /\
    F32.eqb importance F32.zero = false /\
    sample_emitter E kg in_volume_segment randu randv time P bounce path_flag ls
      (F32.mul (w_pdf_factor w) (F32.mul importance (F32.div F32.one total)))
      (- child_index (w_knode w) + j)%Z = Normal r /\
    light_tree_sample E kg fuel in_volume_segment rng_state randu randv time N P
      bounce path_flag ls = Normal r.
Proof.
  intros n Hroot Htrav Hu Hsum Hnz Hwalk.
  destruct (emitter_cdf_walk_selects_positive E kg _ _ _ _ _ _ _ _ _ _ _ _ _ _ _ _ _
              Hu Hwalk) as (j & importance & Hj & Himp & Hpos & Hsel).
  exists j, importance.
  split; [subst n; lia | ]. split; [exact Himp | ]. split; [exact Hpos | ].
  split; [exact Hsel | ].
  unfold light_tree_sample. rewrite Hroot. cbn [bind]. rewrite Htrav. cbn [bind].
  eapply sample_leaf_selected; eassumption.
Qed.

(** X8. Where a successful sample comes from: when [light_tree_sample]
    returns [true], the light sample is either the one the triangle sampler
    wrote for a mesh light, with a pdf above 0 and with every bit of the
    light's [shader_flag] set in [shader], or the one the lamp sampler wrote
    for a lamp [-prim - 1] that was within its bounce budget and for which
    the lamp sampler returned [true]. *)
Theorem successful_sample_provenance
    (E : Externals) (kg : KernelGlobals) (fuel : nat) (in_volume_segment : bool)
    (rng_state : RNGState E) (randu randv time : float) (N P : float3)
    (bounce path_flag : Z) (ls : LightSample) (r : sample_result) :
  light_tree_sample E kg fuel in_volume_segment rng_state randu randv time N P
    bounce path_flag ls = Normal r ->
  sr_ret r = Returned true ->
  exists (prim_index : Z) (kdistribution : KernelLightDistribution),
    kernel_data_fetch (light_distribution kg) prim_index = Normal kdistribution /\
    (((0 <= prim kdistribution)%Z /\
      sr_ls r =
      set_shader
        (triangle_light_sample E kg in_volume_segment (prim kdistribution)
           (mesh_light_object_id kdistribution) randu randv time ls P)
        (Z.lor
           (ls_shader
              (triangle_light_sample E kg in_volume_segment (prim kdistribution)
                 (mesh_light_object_id kdistribution) randu randv time ls P))
           (mesh_light_shader_flag kdistribution)) /\
      F32.ltb F32.zero (ls_pdf (sr_ls r)) = true /\
      Z.land (ls_shader (sr_ls r)) (mesh_light_shader_flag kdistribution)
      = mesh_light_shader_flag kdistribution) \/
     ((prim kdistribution < 0)%Z /\
      light_select_reached_max_bounces E kg (- prim kdistribution - 1)%Z bounce = false /\
      light_sample E kg in_volume_segment (- prim kdistribution - 1)%Z randu randv P
        path_flag ls = (true, sr_ls r))).
Proof.
  intros Hrun Htrue.
  destruct (light_tree_sample_cases E kg _ _ _ _ _ _ _ _ _ _ _ _ Hrun)
    as [[Hfalse _] | (prim_index & pdf_factor & Hsel)]; [congruence | ].
  destruct (sample_emitter_cases E kg _ _ _ _ _ _ _ _ _ _ _ Hsel)
    as (kd & Hfetch & Hcases). cbv zeta in Hcases.
  exists prim_index, kd. split; [exact Hfetch | ].
  destruct Hcases as [(_ & _ & Hret & _) | [(Hprim & Hret & Hls)
                     | [(_ & _ & Hret & _) | (Hprim & Hb & Hs & _)]]];
    try congruence.
  - left. split; [exact Hprim | ]. split; [exact Hls | ].
    rewrite Htrue in Hret. injection Hret as Hpdf.
    split; [rewrite Hls; symmetry; exact Hpdf | ].
    rewrite Hls. cbn [ls_shader set_shader]. apply land_lor_same.
  - right. rewrite Htrue in Hs. repeat split; assumption.
Qed.

(** X9. What a failed sample leaves behind: when [light_tree_sample]
    returns [false], the light sample is the caller's, untouched, unless
    the triangle sampler ran and reported a pdf that is not above 0, or the
    lamp sampler ran and returned [false]. *)
Theorem failed_sample_frame
    (E : Externals) (kg : KernelGlobals) (fuel : nat) (in_volume_segment : bool)
    (rng_state : RNGState E) (randu randv time : float) (N P : float3)
    (bounce path_flag : Z) (ls : LightSample) (r : sample_result) :
  light_tree_sample E kg fuel in_volume_segment rng_state randu randv time N P
    bounce path_flag ls = Normal r ->
  sr_ret r = Returned false ->
  sr_ls r = ls \/
  (exists prim object : Z,
      (0 <= prim)%Z /\
      ls_pdf (sr_ls r) =
      ls_pdf (triangle_light_sample E kg in_volume_segment prim object
                randu randv time ls P) /\
      F32.ltb F32.zero (ls_pdf (sr_ls r)) = false) \/
  (exists lamp : Z,
      light_sample E kg in_volume_segment lamp randu randv P path_flag ls
      = (false, sr_ls r)).
Proof.
  intros Hrun Hfalse.
  destruct (light_tree_sample_cases E kg _ _ _ _ _ _ _ _ _ _ _ _ Hrun)
    as [[_ Hls] | (prim_index & pdf_factor & Hsel)]; [left; exact Hls | ].
  destruct (sample_emitter_cases E kg _ _ _ _ _ _ _ _ _ _ _ Hsel)
    as (kd & Hfetch & Hcases). cbv zeta in Hcases.
  destruct Hcases as [(_ & _ & _ & Hls) | [(Hprim & Hret & Hls)
                     | [(_ & _ & _ & Hls) | (Hprim & Hb & Hs & _)]]].
  - left; exact Hls.
  - right; left. exists (prim kd), (mesh_light_object_id kd).
    split; [exact Hprim | ].
    rewrite Hfalse in Hret. injection Hret as Hpdf.
    rewrite Hls. cbn [ls_pdf set_shader]. split; [reflexivity | ].
    cbn [ls_pdf set_shader] in Hpdf. symmetry; exact Hpdf.
  - left; exact Hls.
  - right; right. exists (- prim kd - 1)%Z. rewrite Hfalse in Hs. exact Hs.
Qed.

(** ** Termination of the sampler *)

Section FuelFacts.
Variable E : Externals.
Variable kg : KernelGlobals.
Local Open Scope f32_scope.

Lemma bind_uses_no_fuel {A B : Type} (m : outcome A) (k : A -> outcome B) :
  m <> OutOfFuel -> (forall a, k a <> OutOfFuel) -> bind m k <> OutOfFuel.
Proof. intros Hm Hk. destruct m; cbn [bind]; try discriminate; [apply Hk | congruence]. Qed.

Lemma emitter_importance_uses_no_fuel (P N : float3) (i : Z) :
  light_tree_emitter_importance E kg P N i <> OutOfFuel.
Proof.
  unfold light_tree_emitter_importance.
  apply bind_uses_no_fuel; [apply kernel_data_fetch_uses_no_fuel | discriminate].
Qed.

Lemma sum_emitter_importance_uses_no_fuel (n : nat) (P N : float3)
    (knode : KernelLightTreeNode) :
  forall (i : Z) (total : float),
    sum_emitter_importance E kg n P N knode i total <> OutOfFuel.
Proof.
  induction n as [ | n IH]; intros i total; cbn [sum_emitter_importance];
    [discriminate | ].
  apply bind_uses_no_fuel; [apply emitter_importance_uses_no_fuel | ].
  intros a. apply IH.
Qed.

Lemma sample_emitter_uses_no_fuel (in_volume_segment : bool)
    (randu randv time : float) (P : float3) (bounce path_flag : Z)
    (ls : LightSample) (pdf_factor : float) (prim_index : Z) :
  sample_emitter E kg in_volume_segment randu randv time P bounce path_flag
    ls pdf_factor prim_index <> OutOfFuel.
Proof.
  unfold sample_emitter.
  apply bind_uses_no_fuel; [apply kernel_data_fetch_uses_no_fuel | ].
  intros kd. destruct (0 <=? prim kd)%Z.
  - apply bind_uses_no_fuel.
    + destruct (negb _); [ | discriminate].
      apply bind_uses_no_fuel; [apply kernel_data_fetch_uses_no_fuel | discriminate].
    + intros [ | ]; discriminate.
  - destruct (light_select_reached_max_bounces E _ _ bounce); [discriminate | ].
    destruct (light_sample E _ _ _ _ _ _ _ _); discriminate.
Qed.

Lemma emitter_cdf_walk_uses_no_fuel (n : nat) (in_volume_segment : bool)
    (randu randv time : float) (N P : float3) (bounce path_flag : Z)
    (ls : LightSample) (pdf_factor : float) (knode : KernelLightTreeNode)
    (tree_u inv_total_importance : float) :
  forall (i : Z) (emitter_cdf : float),
    emitter_cdf_walk E kg n in_volume_segment randu randv time N P bounce path_flag
      ls pdf_factor knode tree_u inv_total_importance i emitter_cdf <> OutOfFuel.
Proof.
  induction n as [ | n IH]; intros i emitter_cdf; cbn [emitter_cdf_walk];
    [discriminate | ].
  apply bind_uses_no_fuel; [apply emitter_importance_uses_no_fuel | ].
  intros importance. destruct (tree_u <? _); [ | apply IH].
  apply bind_uses_no_fuel; [apply sample_emitter_uses_no_fuel | discriminate].
Qed.

Lemma sample_leaf_uses_no_fuel (in_volume_segment : bool)
    (randu randv time : float) (N P : float3) (bounce path_flag : Z)
    (ls : LightSample) (w : walk) :
  sample_leaf E kg in_volume_segment randu randv time N P bounce path_flag ls w
  <> OutOfFuel.
Proof.
  unfold sample_leaf.
  apply bind_uses_no_fuel; [apply sum_emitter_importance_uses_no_fuel | ].
  intros total. destruct (total =? F32.zero); [discriminate | ].
  apply bind_uses_no_fuel; [apply emitter_cdf_walk_uses_no_fuel | ].
  intros [res | ]; [discriminate | ]. destruct (ndebug E); discriminate.
Qed.

End FuelFacts.

(** X4. Termination of [light_tree_sample]: on a node table in pre-order
    layout (the right child of every interior node is stored behind it) the
    traversal loop needs at most as many iterations as the table has nodes;
    with that bound the sampler returns, reads outside of a table or stops
    at the [assert], and a larger bound gives the same outcome. *)
Theorem light_tree_sample_terminates
    (E : Externals) (kg : KernelGlobals) (in_volume_segment : bool)
    (rng_state : RNGState E) (randu randv time : float) (N P : float3)
    (bounce path_flag : Z) (ls : LightSample) (extra : nat) :
  Spec.preorder_layout kg ->
  let enough := length (light_tree_nodes kg) in
  light_tree_sample E kg enough in_volume_segment rng_state randu randv time N P
    bounce path_flag ls <> OutOfFuel /\
  light_tree_sample E kg (extra + enough) in_volume_segment rng_state
    randu randv time N P bounce path_flag ls =
  light_tree_sample E kg enough in_volume_segment rng_state
    randu randv time N P bounce path_flag ls.
Proof.
  intros Hlayout enough. unfold light_tree_sample.
  destruct (kernel_data_fetch (light_tree_nodes kg) 0) as [root | | | ] eqn:Hroot;
    cbn [bind]; try (split; [discriminate | reflexivity]).
  - destruct (traverse_terminates_on_preorder E kg P N root
                (path_state_rng_1D E kg rng_state 1) F32.one extra Hlayout Hroot)
      as [Hfuel Hsame].
    fold enough in Hfuel, Hsame. rewrite Hsame. split; [ | reflexivity].
    apply bind_uses_no_fuel; [exact Hfuel | ].
    intros w. apply sample_leaf_uses_no_fuel.
  - exfalso. exact (kernel_data_fetch_uses_no_fuel _ _ Hroot).
Qed.

Lemma light_tree_sample_terminates_witness :
  Spec.preorder_layout Scenes.tree3 /\
  light_tree_sample Scenes.R Scenes.tree3 3 false Scenes.u_005 F32.half F32.half
    F32.zero Scenes.N0 Scenes.P0 0 0 Scenes.ls0 <> OutOfFuel /\
  light_tree_sample Scenes.R Scenes.tree3 (4 + 3) false Scenes.u_005 F32.half F32.half
    F32.zero Scenes.N0 Scenes.P0 0 0 Scenes.ls0 =
  light_tree_sample Scenes.R Scenes.tree3 3 false Scenes.u_005 F32.half F32.half
    F32.zero Scenes.N0 Scenes.P0 0 0 Scenes.ls0.
Proof.
  split; [exact tree3_preorder_layout | ].
  apply (light_tree_sample_terminates Scenes.R Scenes.tree3 false Scenes.u_005
           F32.half F32.half F32.zero Scenes.N0 Scenes.P0 0 0 Scenes.ls0 4
           tree3_preorder_layout).
Defined.

(** ** The distant-light sampler, continued *)

Section MoreDistantFacts.
Variable E : Externals.
Variable kg : KernelGlobals.
Local Open Scope f32_scope.

Lemma skipn_S_tail {A : Type} (k : nat) :
  forall (l : list A) (d : A) (rest : list A),
    skipn k l = d :: rest -> skipn (S k) l = rest.
Proof.
  induction k as [ | k IH]; intros l d rest H.
  - cbn in H. subst l. reflexivity.
  - destruct l as [ | a l]; [discriminate H | ].
    cbn [skipn] in H. change (skipn (S (S k)) (a :: l)) with (skipn (S k) l).
    eapply IH; exact H.
Qed.

Lemma kernel_data_fetch_nat {A : Type} (table : list A) (k : nat) :
  kernel_data_fetch table (Z.of_nat k) =
  match hd_error (skipn k table) with
  | Some a => Normal a
  | None => OutOfBounds
  end.
Proof.
  unfold kernel_data_fetch.
  destruct (Z.of_nat k <? 0)%Z eqn:Hneg; [apply Z.ltb_lt in Hneg; lia | ].
  rewrite Nat2Z.id, hd_error_skipn. reflexivity.
Qed.

Lemma sum_distant_importance_fold (P N : float3) (n : nat) :
  forall (k : nat) (acc : float),
    sum_distant_importance kg n P N (Z.of_nat k) acc =
    if (n <=? length (skipn k (light_tree_distant_group kg)))%nat
    then Normal (fold_left (fun a d => a + distant_energy d)
                   (firstn n (skipn k (light_tree_distant_group kg))) acc)
    else OutOfBounds.
Proof.
  induction n as [ | n IH]; intros k acc; cbn [sum_distant_importance].
  - reflexivity.
  - unfold light_tree_distant_light_importance. rewrite kernel_data_fetch_nat.
    destruct (skipn k (light_tree_distant_group kg)) as [ | d rest] eqn:Hs;
      cbn [hd_error bind]; [reflexivity | ].
    replace (Z.of_nat k + 1)%Z with (Z.of_nat (S k)) by lia.
    rewrite IH, (skipn_S_tail k _ d rest Hs). reflexivity.
Qed.

(** What a selection of the distant CDF walk amounts to. *)
Lemma distant_cdf_walk_selects (n : nat) (in_volume_segment : bool)
    (randu randv : float) (N P : float3) (bounce path_flag : Z)
    (ls : LightSample) (pdf_factor distant_u inv_total_importance : float) :
  forall (i : Z) (light_cdf : float) (r : sample_result),
    distant_cdf_walk E kg n in_volume_segment randu randv N P bounce path_flag
      ls pdf_factor distant_u inv_total_importance i light_cdf = Normal (Some r) ->
    exists (j : Z) (kdistant : KernelLightTreeDistantEmitter),
      (i <= j < i + Z.of_nat n)%Z /\
      kernel_data_fetch (light_tree_distant_group kg) j = Normal kdistant /\
      sr_pdf_factor r =
      pdf_factor * (distant_energy kdistant * inv_total_importance) /\
      let lamp := (- prim_id kdistant - 1)%Z in
      ((light_select_reached_max_bounces E kg lamp bounce = true /\
        sr_ret r = Returned false /\ sr_ls r = ls) \/
       (light_select_reached_max_bounces E kg lamp bounce = false /\
        exists ok : bool,
          light_sample E kg in_volume_segment lamp randu randv P path_flag ls
          = (ok, sr_ls r) /\
          sr_ret r = Returned ok)).
Proof.
  induction n as [ | n IH]; intros i light_cdf r; cbn [distant_cdf_walk].
  - discriminate.
  - unfold light_tree_distant_light_importance at 1.
    destruct (kernel_data_fetch (light_tree_distant_group kg) i)
      as [kdistant | | | ] eqn:Hfetch; cbn [bind]; try discriminate.
    destruct (distant_u <? _).
    + intros H. exists i, kdistant. split; [lia | ]. split; [exact Hfetch | ].
      cbv zeta.
      destruct (light_select_reached_max_bounces E _ _ bounce) eqn:Hb.
      * injection H as <-. cbn. split; [reflexivity | ]. left. repeat split.
      * destruct (light_sample E _ _ _ _ _ _ _ _) as [ok ls1] eqn:Hs.
        injection H as <-. cbn. split; [reflexivity | ]. right.
        split; [reflexivity | ]. exists ok. split; reflexivity.
    + intros H. apply IH in H. destruct H as (j & kd & Hj & Hrest).
      exists j, kd. split; [lia | exact Hrest].
Qed.

End MoreDistantFacts.

(** X11. The total importance of the distant-light sampler is the sum of
    the energies of the first [n] entries of the distant-light table, added
    from 0 in the order of the table; when the table has fewer than [n]
    entries the loop reads outside of it. *)
Theorem distant_total_is_energy_sum
    (kg : KernelGlobals) (P N : float3) (n : nat) :
  sum_distant_importance kg n P N 0 F32.zero =
  if (n <=? length (light_tree_distant_group kg))%nat
  then Normal (Vary.energy_sum (light_tree_distant_group kg) n)
  else OutOfBounds.
Proof. exact (sum_distant_importance_fold kg P N n 0 F32.zero). Qed.

(** X12. What [light_tree_sample_distant_lights] has done when it returns
    a value: it selected one of the first [num_distant_lights] entries of
    the distant-light table, multiplied [pdf_factor] by that entry's energy
    times [1 / total], and, for the lamp [-prim_id - 1], returned [false]
    with the light sample untouched if the lamp had reached its bounce
    budget, and otherwise returned what the lamp sampler returned and
    wrote. *)
Theorem distant_sampler_outcomes
    (E : Externals) (kg : KernelGlobals) (in_volume_segment : bool)
    (rng_state : RNGState E) (randu randv time : float) (N P : float3)
    (bounce path_flag : Z) (ls : LightSample) (pdf_factor : float)
    (r : sample_result) :
  light_tree_sample_distant_lights E kg in_volume_segment rng_state randu randv time
    N P bounce path_flag ls pdf_factor = Normal r ->
  sr_ret r <> NoReturnValue ->
  exists (j : Z) (kdistant : KernelLightTreeDistantEmitter) (total : float),
    (0 <= j < num_distant_lights kg)%Z /\
    kernel_data_fetch (light_tree_distant_group kg) j = Normal kdistant /\
    sum_distant_importance kg (Z.to_nat (num_distant_lights kg)) P N 0 F32.zero
    = Normal total /\
    sr_pdf_factor r =
    F32.mul pdf_factor (F32.mul (distant_energy kdistant) (F32.div F32.one total)) /\
    ((light_select_reached_max_bounces E kg (- prim_id kdistant - 1)%Z bounce = true /\
      sr_ret r = Returned false /\ sr_ls r = ls) \/
     (light_select_reached_max_bounces E kg (- prim_id kdistant - 1)%Z bounce = false /\
      exists ok : bool,
        light_sample E kg in_volume_segment (- prim_id kdistant - 1)%Z randu randv P
          path_flag ls = (ok, sr_ls r) /\
        sr_ret r = Returned ok)).
Proof.
  unfold light_tree_sample_distant_lights.
  destruct (sum_distant_importance kg _ P N 0 F32.zero) as [total | | | ] eqn:Hsum;
    cbn [bind]; try discriminate.
  destruct (distant_cdf_walk E kg _ _ _ _ _ _ _ _ _ _ _ _ _ _)
    as [[res | ] | | | ] eqn:Hwalk; cbn [bind]; try discriminate.
  - intros H _; injection H as <-.
    destruct (distant_cdf_walk_selects E kg _ _ _ _ _ _ _ _ _ _ _ _ _ _ _ Hwalk)
      as (j & kd & Hj & Hfetch & Hpdf & Hcases).
    exists j, kd, total.
    split; [lia | ]. split; [exact Hfetch | ]. split; [reflexivity | ].
    split; [exact Hpdf | exact Hcases].
  - intros H Hret; injection H as <-. exfalso. apply Hret. reflexivity.
Qed.

Lemma distant_sampler_outcomes_witness :
  light_tree_sample_distant_lights Scenes.R Vary.two_suns false Scenes.u_005
    F32.half F32.half F32.zero Scenes.N0 Scenes.P0 0 0 Scenes.ls0 F32.one
  = Normal Vary.suns_result /\
  sr_ret Vary.suns_result <> NoReturnValue /\
  exists (j : Z) (kdistant : KernelLightTreeDistantEmitter) (total : float),
    (0 <= j < num_distant_lights Vary.two_suns)%Z /\
    kernel_data_fetch (light_tree_distant_group Vary.two_suns) j = Normal kdistant /\
    sr_pdf_factor Vary.suns_result =
    F32.mul F32.one (F32.mul (distant_energy kdistant) (F32.div F32.one total)).
Proof.
  split; [vm_compute; reflexivity | ].
  split; [discriminate | ].
  destruct (distant_sampler_outcomes Scenes.R Vary.two_suns false Scenes.u_005
              F32.half F32.half F32.zero Scenes.N0 Scenes.P0 0 0 Scenes.ls0 F32.one
              Vary.suns_result)
    as (j & kd & total & Hj & Hfetch & _ & Hpdf & _).
  - vm_compute; reflexivity.
  - discriminate.
  - exists j, kd, total. repeat split; try assumption; lia.
Defined.

Lemma selected_emitter_has_importance_witness :
  kernel_data_fetch (light_tree_nodes Vary.dim_first) 0
  = Normal (w_knode Vary.dim_walk) /\
  F32.ltb (w_tree_u Vary.dim_walk) F32.zero = false /\
  sum_emitter_importance Scenes.R Vary.dim_first 2 Scenes.P0 Scenes.N0
    (w_knode Vary.dim_walk) 0 F32.zero = Normal Vary.dim_total /\
  F32.eqb Vary.dim_total F32.zero = false /\
  light_tree_emitter_importance Scenes.R Vary.dim_first Scenes.P0 Scenes.N0 0
  = Normal F32.zero /\
  light_tree_sample Scenes.R Vary.dim_first 0 false Scenes.u_005 F32.half F32.half
    F32.zero Scenes.N0 Scenes.P0 0 0 Scenes.ls0 = Normal Vary.dim_result /\
  ls_lamp (sr_ls Vary.dim_result) = 1%Z.
Proof.
  split; [reflexivity | ].
  split; [reflexivity | ].
  split; [vm_compute; reflexivity | ].
  split; [vm_compute; reflexivity | ].
  split; [vm_compute; reflexivity | ].
  destruct (selected_emitter_has_importance Scenes.R Vary.dim_first 0 false
              Scenes.u_005 F32.half F32.half F32.zero Scenes.N0 Scenes.P0 0 0 Scenes.ls0
              (w_knode Vary.dim_walk) Vary.dim_walk Vary.dim_total Vary.dim_result)
    as (j & importance & _ & _ & _ & _ & Hrun);
    try (vm_compute; reflexivity).
  split; [exact Hrun | reflexivity].
Defined.

Lemma successful_sample_provenance_witness :
  light_tree_sample Scenes.R Scenes.single_triangle 0 false Scenes.u_005
    F32.half F32.half F32.zero Scenes.N0 Scenes.P0 0 0 Scenes.ls0
  = Normal Vary.triangle_hit /\
  sr_ret Vary.triangle_hit = Returned true /\
  exists (prim_index : Z) (kdistribution : KernelLightDistribution),
    kernel_data_fetch (light_distribution Scenes.single_triangle) prim_index
    = Normal kdistribution.
Proof.
  split; [vm_compute; reflexivity | ].
  split; [reflexivity | ].
  destruct (successful_sample_provenance Scenes.R Scenes.single_triangle 0 false
              Scenes.u_005 F32.half F32.half F32.zero Scenes.N0 Scenes.P0 0 0 Scenes.ls0
              Vary.triangle_hit)
    as (prim_index & kd & Hfetch & _).
  - vm_compute; reflexivity.
  - reflexivity.
  - exists prim_index, kd. exact Hfetch.
Defined.

Lemma failed_sample_frame_witness :
  light_tree_sample Scenes.R_degenerate Scenes.single_triangle 0 false Scenes.u_005
    F32.half F32.half F32.zero Scenes.N0 Scenes.P0 0 0 Scenes.ls0
  = Normal Vary.triangle_miss /\
  sr_ret Vary.triangle_miss = Returned false /\
  (sr_ls Vary.triangle_miss = Scenes.ls0 \/
   (exists prim object : Z,
       (0 <= prim)%Z /\
       ls_pdf (sr_ls Vary.triangle_miss) =
       ls_pdf (triangle_light_sample Scenes.R_degenerate Scenes.single_triangle
                 false prim object
                 F32.half F32.half F32.zero Scenes.ls0 Scenes.P0) /\
       F32.ltb F32.zero (ls_pdf (sr_ls Vary.triangle_miss)) = false) \/
   (exists lamp : Z,
       light_sample Scenes.R_degenerate Scenes.single_triangle false lamp
         F32.half F32.half Scenes.P0 0 Scenes.ls0 = (false, sr_ls Vary.triangle_miss))).
Proof.
  split; [vm_compute; reflexivity | ].
  split; [reflexivity | ].
  apply (failed_sample_frame Scenes.R_degenerate Scenes.single_triangle 0 false
           Scenes.u_005 F32.half F32.half F32.zero Scenes.N0 Scenes.P0 0 0 Scenes.ls0
           Vary.triangle_miss).
  - vm_compute; reflexivity.
  - reflexivity.
Defined.

(** ** Bounds *)

Section BoundsFacts.
Variable E : Externals.
Variable kg : KernelGlobals.
Local Open Scope f32_scope.

Lemma kernel_data_fetch_cases {A : Type} (table : list A) (i : Z) :
  (exists a, kernel_data_fetch table i = Normal a /\
             (0 <= i < Z.of_nat (length table))%Z) \/
  (kernel_data_fetch table i = OutOfBounds /\
   ~ (0 <= i < Z.of_nat (length table))%Z).
Proof.
  unfold kernel_data_fetch. destruct (i <? 0)%Z eqn:Hneg.
  - right. apply Z.ltb_lt in Hneg. split; [reflexivity | lia].
  - apply Z.ltb_ge in Hneg.
    destruct (nth_error table (Z.to_nat i)) as [a | ] eqn:Hnth.
    + left. exists a. split; [reflexivity | ].
      assert (Hsome : nth_error table (Z.to_nat i) <> None) by congruence.
      apply nth_error_Some in Hsome. lia.
    + right. split; [reflexivity | ]. apply nth_error_None in Hnth. lia.
Qed.

(** The first loop of the leaf reads every emitter of the run. *)
Lemma sum_emitter_importance_reads_run (n : nat) (P N : float3)
    (knode : KernelLightTreeNode) :
  forall (i : Z) (acc : float),
    (exists total, sum_emitter_importance E kg n P N knode i acc = Normal total) <->
    (forall j, (i <= j < i + Z.of_nat n)%Z ->
               (0 <= - child_index knode + j
                < Z.of_nat (length (light_tree_emitters kg)))%Z).
Proof.
  induction n as [ | n IH]; intros i acc; cbn [sum_emitter_importance].
  - split; [intros _ j Hj; lia | intros _; eexists; reflexivity].
  - unfold light_tree_emitter_importance at 1.
    destruct (kernel_data_fetch_cases (light_tree_emitters kg)
                (- child_index knode + i)%Z) as [(a & Hfetch & Hin) | (Hfetch & Hout)];
      rewrite Hfetch; cbn [bind].
    + rewrite IH. split.
      * intros H j Hj. destruct (Z.eq_dec j i) as [-> | Hne]; [exact Hin | ].
        apply H. lia.
      * intros H j Hj. apply H. lia.
    + split.
      * intros [total Habs]. discriminate Habs.
      * intros H. exfalso. apply Hout. apply H. lia.
Qed.

End BoundsFacts.

(** X14. In the mixed case the dispatcher reads the distant-light table at
    index [num_distant_lights]: when the table has no more than
    [num_distant_lights] entries, [light_tree_sample_from_position] reads
    outside of a table before any sampler runs. *)
Theorem mixed_dispatch_needs_extra_slot
    (E : Externals) (kg : KernelGlobals) (fuel : nat) (rng_state : RNGState E)
    (randu randv time : float) (P N : float3) (bounce path_flag : Z)
    (ls : LightSample) :
  num_distant_lights kg <> 0%Z ->
  (num_distribution kg - num_distant_lights kg)%Z <> 0%Z ->
  (Z.of_nat (length (light_tree_distant_group kg)) <= num_distant_lights kg)%Z ->
  light_tree_sample_from_position E kg fuel rng_state randu randv time P N
    bounce path_flag ls = OutOfBounds.
Proof.
  intros Hd Hp Hlen.
  unfold light_tree_sample_from_position, dispatch.
  apply Z.eqb_neq in Hd. apply Z.eqb_neq in Hp. rewrite Hd, Hp.
  destruct (kernel_data_fetch_cases (light_tree_nodes kg) 0)
    as [(root & Hroot & _) | (Hroot & _)]; rewrite Hroot; cbn [bind];
    [ | reflexivity].
  unfold light_tree_distant_light_importance.
  destruct (kernel_data_fetch_cases (light_tree_distant_group kg)
              (num_distant_lights kg)) as [(a & _ & Hin) | (Hfetch & _)];
    [lia | ].
  rewrite Hfetch. reflexivity.
Qed.

Lemma mixed_dispatch_needs_extra_slot_witness :
  num_distant_lights Vary.mixed_tight <> 0%Z /\
  (num_distribution Vary.mixed_tight - num_distant_lights Vary.mixed_tight)%Z <> 0%Z /\
  (Z.of_nat (length (light_tree_distant_group Vary.mixed_tight))
   <= num_distant_lights Vary.mixed_tight)%Z /\
  light_tree_sample_from_position Scenes.R Vary.mixed_tight 0 Scenes.u_005
    F32.quarter F32.half F32.zero Scenes.P0 Scenes.N0 0 0 Scenes.ls0 = OutOfBounds.
Proof.
  split; [discriminate | ].
  split; [discriminate | ].
  split; [discriminate | ].
  apply (mixed_dispatch_needs_extra_slot Scenes.R Vary.mixed_tight 0 Scenes.u_005);
    discriminate.
Defined.

Lemma sum_emitter_importance_outcomes
    (E : Externals) (kg : KernelGlobals) (n : nat) (P N : float3)
    (knode : KernelLightTreeNode) :
  forall (i : Z) (acc : float),
    (exists total, sum_emitter_importance E kg n P N knode i acc = Normal total) \/
    sum_emitter_importance E kg n P N knode i acc = OutOfBounds.
Proof.
  induction n as [ | n IH]; intros i acc; cbn [sum_emitter_importance].
  - left. eexists; reflexivity.
  - unfold light_tree_emitter_importance.
    destruct (kernel_data_fetch_cases (light_tree_emitters kg)
                (- child_index knode + i)%Z) as [(a & Hfetch & _) | (Hfetch & _)];
      rewrite Hfetch; cbn [bind]; [apply IH | right; reflexivity].
Qed.

(** X15. The first loop of the leaf reads every emitter of the leaf's run:
    it yields a total importance exactly when each of the indices
    [-child_index + j], for [0 <= j < num_prims], lies inside the emitter
    table, and reads outside of the table otherwise, whichever emitter the
    walk would have selected. *)
Theorem leaf_total_needs_whole_run
    (E : Externals) (kg : KernelGlobals) (P N : float3) (knode : KernelLightTreeNode) :
  let n := Z.to_nat (num_prims knode) in
  ((exists total,
       sum_emitter_importance E kg n P N knode 0 F32.zero = Normal total) <->
   (forall j, (0 <= j < num_prims knode)%Z ->
              (0 <= - child_index knode + j
               < Z.of_nat (length (light_tree_emitters kg)))%Z)) /\
  ((exists total,
       sum_emitter_importance E kg n P N knode 0 F32.zero = Normal total) \/
   sum_emitter_importance E kg n P N knode 0 F32.zero = OutOfBounds).
Proof.
  intros n. split.
  - rewrite (sum_emitter_importance_reads_run E kg n P N knode 0 F32.zero).
    subst n. split; intros H j Hj; apply H; lia.
  - apply sum_emitter_importance_outcomes.
Qed.

(** X16. [light_tree_sample] always hands back a value when it completes:
    each of its paths ends in a [return] statement, unlike the distant-light
    sampler. *)
Theorem light_tree_sample_returns_a_value
    (E : Externals) (kg : KernelGlobals) (fuel : nat) (in_volume_segment : bool)
    (rng_state : RNGState E) (randu randv time : float) (N P : float3)
    (bounce path_flag : Z) (ls : LightSample) (r : sample_result) :
  light_tree_sample E kg fuel in_volume_segment rng_state randu randv time N P
    bounce path_flag ls = Normal r ->
  exists b : bool, sr_ret r = Returned b.
Proof.
  intros Hrun.
  destruct (light_tree_sample_cases E kg _ _ _ _ _ _ _ _ _ _ _ _ Hrun)
    as [[Hfalse _] | (prim_index & pdf_factor & Hsel)]; [eexists; exact Hfalse | ].
  destruct (sample_emitter_cases E kg _ _ _ _ _ _ _ _ _ _ _ Hsel)
    as (kd & _ & Hcases). cbv zeta in Hcases.
  destruct Hcases as [(_ & _ & Hret & _) | [(_ & Hret & _)
                     | [(_ & _ & Hret & _) | (_ & _ & _ & Hret)]]];
    try (eexists; exact Hret).
  destruct (sr_ret r) as [b | ]; [exists b; reflexivity | congruence].
Qed.

Lemma light_tree_sample_returns_a_value_witness :
  light_tree_sample Scenes.R Scenes.tree3 1 false Scenes.u_005 F32.half F32.half
    F32.zero Scenes.N0 Scenes.P0 0 0 Scenes.ls0 = Normal Runs.result3 /\
  exists b : bool, sr_ret Runs.result3 = Returned b.
Proof.
  split; [vm_compute; reflexivity | ].
  apply (light_tree_sample_returns_a_value Scenes.R Scenes.tree3 1 false Scenes.u_005
           F32.half F32.half F32.zero Scenes.N0 Scenes.P0 0 0 Scenes.ls0 Runs.result3).
  vm_compute; reflexivity.
Defined.

Section DistantSelectionFacts.
Variable E : Externals.
Variable kg : KernelGlobals.
Local Open Scope f32_scope.

Lemma distant_cdf_walk_selects_positive (n : nat) (in_volume_segment : bool)
    (randu randv : float) (N P : float3) (bounce path_flag : Z)
    (ls : LightSample) (pdf_factor distant_u inv_total_importance : float) :
  forall (i : Z) (light_cdf : float) (r : sample_result),
    (distant_u <? light_cdf) = false ->
    distant_cdf_walk E kg n in_volume_segment randu randv N P bounce path_flag
      ls pdf_factor distant_u inv_total_importance i light_cdf = Normal (Some r) ->
    exists (j : Z) (kdistant : KernelLightTreeDistantEmitter),
      (i <= j < i + Z.of_nat n)%Z /\
      kernel_data_fetch (light_tree_distant_group kg) j = Normal kdistant /\
      (distant_energy kdistant =? F32.zero) = false /\
      sr_pdf_factor r =
      pdf_factor * (distant_energy kdistant * inv_total_importance).
Proof.
  induction n as [ | n IH]; intros i light_cdf r Hinv; cbn [distant_cdf_walk].
  - discriminate.
  - unfold light_tree_distant_light_importance at 1.
    destruct (kernel_data_fetch (light_tree_distant_group kg) i)
      as [kdistant | | | ] eqn:Hfetch; cbn [bind]; try discriminate.
    destruct (distant_u <? light_cdf + distant_energy kdistant * inv_total_importance)
      eqn:Hsel.
    + intros H. exists i, kdistant. split; [lia | ]. split; [exact Hfetch | ].
      split.
      * destruct (distant_energy kdistant =? F32.zero) eqn:Hz; [ | reflexivity].
        rewrite (zero_importance_keeps_cdf_below _ _ _ _ Hinv Hz) in Hsel.
        discriminate Hsel.
      * destruct (light_select_reached_max_bounces E _ _ bounce).
        -- injection H as <-. reflexivity.
        -- destruct (light_sample E _ _ _ _ _ _ _ _) as [ok ls1].
           injection H as <-. reflexivity.
    + intros H. apply IH in H; [ | exact Hsel].
      destruct H as (j & kd & Hj & Hrest).
      exists j, kd. split; [lia | exact Hrest].
Qed.

End DistantSelectionFacts.

(** X17. [light_tree_sample_distant_lights] never selects a distant light
    of energy 0: when its random number is not negative and it returns a
    value, the light it selected, whose normalized energy it multiplied into
    [pdf_factor], has an energy that differs from 0. *)
Theorem selected_distant_light_has_energy
    (E : Externals) (kg : KernelGlobals) (in_volume_segment : bool)
    (rng_state : RNGState E) (randu randv time : float) (N P : float3)
    (bounce path_flag : Z) (ls : LightSample) (pdf_factor : float)
    (r : sample_result) :
  F32.ltb (path_state_rng_1D E kg rng_state 1) F32.zero = false ->
  light_tree_sample_distant_lights E kg in_volume_segment rng_state randu randv time
    N P bounce path_flag ls pdf_factor = Normal r ->
  sr_ret r <> NoReturnValue ->
  exists (j : Z) (kdistant : KernelLightTreeDistantEmitter) (total : float),
    (0 <= j < num_distant_lights kg)%Z /\
    kernel_data_fetch (light_tree_distant_group kg) j = Normal kdistant /\
    F32.eqb (distant_energy kdistant) F32.zero = false /\
    sum_distant_importance kg (Z.to_nat (num_distant_lights kg)) P N 0 F32.zero
    = Normal total /\
    sr_pdf_factor r =
    F32.mul pdf_factor (F32.mul (distant_energy kdistant) (F32.div F32.one total)).
Proof.
  intros Hu. unfold light_tree_sample_distant_lights.
  destruct (sum_distant_importance kg _ P N 0 F32.zero) as [total | | | ] eqn:Hsum;
    cbn [bind]; try discriminate.
  destruct (distant_cdf_walk E kg _ _ _ _ _ _ _ _ _ _ _ _ _ _)
    as [[res | ] | | | ] eqn:Hwalk; cbn [bind]; try discriminate.
  - intros H _; injection H as <-.
    destruct (distant_cdf_walk_selects_positive E kg _ _ _ _ _ _ _ _ _ _ _ _ _ _ _
                Hu Hwalk) as (j & kd & Hj & Hfetch & Hpos & Hpdf).
    exists j, kd, total.
    split; [lia | ]. repeat split; assumption.
  - intros H Hret; injection H as <-. exfalso. apply Hret. reflexivity.
Qed.

Lemma selected_distant_light_has_energy_witness :
  F32.ltb (path_state_rng_1D Scenes.R Vary.two_suns Scenes.u_005 1) F32.zero = false /\
  light_tree_sample_distant_lights Scenes.R Vary.two_suns false Scenes.u_005
    F32.half F32.half F32.zero Scenes.N0 Scenes.P0 0 0 Scenes.ls0 F32.one
  = Normal Vary.suns_result /\
  sr_ret Vary.suns_result <> NoReturnValue /\
  exists (j : Z) (kdistant : KernelLightTreeDistantEmitter),
    kernel_data_fetch (light_tree_distant_group Vary.two_suns) j = Normal kdistant /\
    F32.eqb (distant_energy kdistant) F32.zero = false.
Proof.
  split; [reflexivity | ].
  split; [vm_compute; reflexivity | ].
  split; [discriminate | ].
  destruct (selected_distant_light_has_energy Scenes.R Vary.two_suns false
              Scenes.u_005 F32.half F32.half F32.zero Scenes.N0 Scenes.P0 0 0
              Scenes.ls0 F32.one Vary.suns_result)
    as (j & kd & total & _ & Hfetch & Hpos & _).
  - reflexivity.
  - vm_compute; reflexivity.
  - discriminate.
  - exists j, kd. split; assumption.
Defined.
